(** * CXBIN reader: a shallow embedding of [cxbin_reader.py]

    The reader parses a CXBIN container (geometry, UVs, materials,
    textures, version handling) from a byte stream and returns an
    in-memory [CxbinMesh].  Every Python function of the module is
    embedded below under its own name; exceptions are values of [exn],
    the file object is the list of bytes still unread, and the cursor
    [ptr] of the payload walkers is threaded explicitly. *)

From Stdlib Require Import ZArith List Lia Bool.
From Stdlib Require String.
From Stdlib Require Import Strings.Byte.
Import ListNotations.
Open Scope Z_scope.

Set Implicit Arguments.

(** ** Python values *)

Definition bytes := list byte.

Definition len {A : Type} (l : list A) : Z := Z.of_nat (length l).

Definition byte_val (b : byte) : Z := Z.of_N (Byte.to_N b).

(** ** Exceptions and the state-and-exception monad *)

(** The messages of the [ValueError]s raised by the module, plus the two
    shapes of [ValueError] numpy raises in [frombuffer] and [reshape]. *)
Inductive ValueError_msg : Type :=
| DecompressedSizeMismatch (got expected : Z)
| GeometryBlockSizeMismatch (got expected : Z)
| MaterialBlockTruncated
| OldV1BlockTruncated
| NumpyBufferSize
| NumpyReshape.

Inductive exn : Type :=
| EOFError
| zlib_error
| struct_error
| ValueError (m : ValueError_msg).

Inductive result (A : Type) : Type :=
| Ok (a : A)
| Raise (e : exn).
Arguments Raise {A} e.

Definition M (S A : Type) : Type := S -> result (A * S).

Definition ret {S A : Type} (a : A) : M S A := fun s => Ok (a, s).

Definition raise {S A : Type} (e : exn) : M S A := fun _ => Raise e.

Definition bind {S A B : Type} (c : M S A) (k : A -> M S B) : M S B :=
  fun s => match c s with
           | Ok (a, s') => k a s'
           | Raise e => Raise e
           end.

(** A computation that does not touch the state. *)
Definition lift {S A : Type} (r : result A) : M S A :=
  fun s => match r with
           | Ok a => Ok (a, s)
           | Raise e => Raise e
           end.

Declare Scope py_scope.
Delimit Scope py_scope with py.
Notation "x <- c ;; k" := (bind c (fun x => k))
  (at level 61, c at next level, right associativity) : py_scope.
Open Scope py_scope.

(** ** Slices, [struct] and numpy *)

(** [l[lo:hi]] with Python's index normalisation: a negative index counts
    from the end, and both ends are clamped into [0, len l]. *)
Definition norm_index (n i : Z) : Z :=
  let j := if i <? 0 then i + n else i in
  Z.max 0 (Z.min n j).

Definition slice {A : Type} (l : list A) (lo hi : Z) : list A :=
  let a := norm_index (len l) lo in
  let b := norm_index (len l) hi in
  firstn (Z.to_nat (b - a)) (skipn (Z.to_nat a) l).

(** [l[:hi]] and [l[lo:]]. *)
Definition slice_to {A : Type} (l : list A) (hi : Z) : list A := slice l 0 hi.
Definition slice_from {A : Type} (l : list A) (lo : Z) : list A := slice l lo (len l).

(** Little-endian unsigned value of a byte string. *)
Fixpoint uint_le (b : bytes) : Z :=
  match b with
  | [] => 0
  | x :: b' => byte_val x + 256 * uint_le b'
  end.

(** [struct.unpack("<i", b)[0]] for a 4-byte [b]: two's complement. *)
Definition unpack_i (b : bytes) : Z :=
  let u := uint_le b in
  if u <? 2 ^ 31 then u else u - 2 ^ 32.

(** [struct.unpack_from("<i", raw, ptr)[0]]: a negative offset counts from
    the end; the four bytes must lie inside the buffer. *)
Definition unpack_from_i (raw : bytes) (ptr : Z) : result Z :=
  let off := if ptr <? 0 then ptr + len raw else ptr in
  if (0 <=? off) && (off + 4 <=? len raw)
  then Ok (unpack_i (firstn 4 (skipn (Z.to_nat off) raw)))
  else Raise struct_error.

(** Consecutive groups of [k] items. *)
Fixpoint chunks_aux {A : Type} (fuel k : nat) (l : list A) : list (list A) :=
  match fuel with
  | O => []
  | S fuel' =>
      match l with
      | [] => []
      | _ :: _ => firstn k l :: chunks_aux fuel' k (skipn k l)
      end
  end.

Definition chunks {A : Type} (k : nat) (l : list A) : list (list A) :=
  chunks_aux (length l) k l.

(** A 32-bit item of an array: an [int32] is its signed value, a
    [float32] is kept as its IEEE-754 bit pattern (the reader never
    computes with it). *)
Inductive dtype : Type := float32 | int32.

Definition item (d : dtype) (b : bytes) : Z :=
  match d with
  | float32 => uint_le b
  | int32 => unpack_i b
  end.

(** A one-dimensional array, and a two-dimensional one as its rows. *)
Definition ndarray1 := list Z.
Definition ndarray := list (list Z).

(** [np.frombuffer(buf, dtype=d)] for a 4-byte [d]: the buffer size must
    be a multiple of the item size. *)
Definition np_frombuffer (buf : bytes) (d : dtype) : result ndarray1 :=
  if len buf mod 4 =? 0
  then Ok (map (item d) (chunks 4 buf))
  else Raise (ValueError NumpyBufferSize).

(** [a.reshape((rows, cols))] for a literal positive [cols]: a negative
    [rows] is the unknown dimension, inferred from the size, which must
    then be a multiple of [cols]; otherwise the sizes must agree. *)
Definition reshape (a : ndarray1) (rows : Z) (cols : nat) : result ndarray :=
  if rows <? 0
  then if len a mod Z.of_nat cols =? 0
       then Ok (chunks cols a)
       else Raise (ValueError NumpyReshape)
  else if rows * Z.of_nat cols =? len a
       then Ok (chunks cols a)
       else Raise (ValueError NumpyReshape).

(** [np.frombuffer(buf, dtype=d).reshape((rows, cols))]. *)
Definition frombuffer_reshape (buf : bytes) (d : dtype) (rows : Z) (cols : nat)
  : result ndarray :=
  match np_frombuffer buf d with
  | Ok a => reshape a rows cols
  | Raise e => Raise e
  end.

(** [b.startswith(p)]. *)
Fixpoint startswith (b p : bytes) : bool :=
  match p, b with
  | [], _ => true
  | _ :: _, [] => false
  | y :: p', x :: b' => Byte.eqb x y && startswith b' p'
  end.

(** [b.split(b"\x00", 1)[0]]: the bytes before the first NUL. *)
Fixpoint before_nul (b : bytes) : bytes :=
  match b with
  | [] => []
  | x :: b' => if Byte.eqb x x00 then [] else x :: before_nul b'
  end.

(** The 8-byte PNG signature [b"\x89PNG\r\n\x1a\n"]. *)
Definition png_signature : bytes := [x89; x50; x4e; x47; x0d; x0a; x1a; x0a].

(** ** The libraries the reader calls *)

(** [zlib.decompress], Pillow's RGBA-to-PNG encoding and the lenient UTF-8
    decoder are not part of the module; each is taken as given.  [None]
    stands for any exception of the callee. *)
Class Libs : Type := {
  zlib_decompress : bytes -> option bytes;
  png_encode : Z -> Z -> bytes -> option bytes;
  decode_utf8_replace : bytes -> String.string
}.

(** ** The file object *)

(** The bytes not yet read. *)
Definition stream := bytes.

(** [f.read(n)] of an in-memory stream (io.BytesIO): at most [n] bytes,
    and a negative [n] reads to the end.  The readers below are modelled
    on such a stream; a buffered file answers [n < -1] with a ValueError
    of its own instead, which [buffered_read] models for [parse_cxbin]. *)
Definition file_read (n : Z) (f : stream) : bytes * stream :=
  if n <? 0 then (f, [])
  else (firstn (Z.to_nat n) f, skipn (Z.to_nat n) f).

Definition _read_exact (n : Z) : M stream bytes :=
  fun f =>
    let '(b, f') := file_read n f in
    if len b =? n then Ok (b, f') else Raise EOFError.

Definition _read_int_le : M stream Z :=
  b <- _read_exact 4 ;; ret (unpack_i b).

Definition _read_bytes (n : Z) : M stream bytes := _read_exact n.

(** [for _ in range(n): sizes.append(_read_int_le(f))]. *)
Fixpoint read_ints (n : nat) : M stream (list Z) :=
  match n with
  | O => ret []
  | S n' => x <- _read_int_le ;; xs <- read_ints n' ;; ret (x :: xs)
  end.

(** ** The result structures *)

(** A texture entry: the dict with keys ['data'], ['is_png'], ['size_hint']. *)
Record Texture : Type := {
  data : bytes;
  is_png : bool;
  size_hint : option (Z * Z)
}.

(** [CxbinMaterials], with the two attributes the parsers attach to it. *)
Record CxbinMaterials : Type := {
  material_blocks : list bytes;
  material_name : option String.string;
  textures : list Texture;
  texture_ids : option ndarray1;
  _uvs_internal : option ndarray;
  _face_uvs_internal : option ndarray
}.

Record CxbinMesh : Type := {
  vertices : ndarray;
  faces : ndarray;
  uvs : option ndarray;
  face_uvs : option ndarray;
  materials : option CxbinMaterials;
  cxbin_version : option Z;
  compressed_bytes : option Z;
  uncompressed_bytes : option Z
}.

(** The [meta] dict of [_parse_mesh_block]; [meta.get] of either key is
    the stored integer. *)
Record Meta : Type := {
  meta_compressed_bytes : Z;
  meta_uncompressed_bytes : Z
}.

(** ** The cursor into a decompressed payload *)

Definition get_ptr : M Z Z := fun ptr => Ok (ptr, ptr).

(** [ptr += k]. *)
Definition advance (k : Z) : M Z unit := fun ptr => Ok (tt, ptr + k).

(** The local [take(n)] of both material parsers; they differ in the
    message only. *)
Definition take (raw : bytes) (msg : ValueError_msg) (n : Z) : M Z bytes :=
  fun ptr =>
    let chunk := slice raw ptr (ptr + n) in
    if negb (len chunk =? n) then Raise (ValueError msg)
    else Ok (chunk, ptr + n).

(** [struct.unpack_from("<i", raw, ptr)[0]] at the cursor. *)
Definition unpack_at (raw : bytes) : M Z Z :=
  fun ptr => lift (unpack_from_i raw ptr) ptr.

(** [for size in material_sizes: blocks.append(take(size) if size > 0 else b"")]. *)
Fixpoint read_blocks (raw : bytes) (msg : ValueError_msg) (sizes : list Z)
                     (blocks : list bytes) : M Z (list bytes) :=
  match sizes with
  | [] => ret blocks
  | size :: sizes' =>
      b <- (if size >? 0 then take raw msg size else ret []) ;;
      read_blocks raw msg sizes' (blocks ++ [b])
  end.

(** Run a payload walker from [ptr = 0]. *)
Definition from_start {A : Type} (c : M Z A) : result A :=
  match c 0 with
  | Ok (a, _) => Ok a
  | Raise e => Raise e
  end.

Section Reader.

Context {libs : Libs}.

Definition _zlib_decompress (buf : bytes) (expected_size : option Z) : result bytes :=
  match zlib_decompress buf with
  | None => Raise zlib_error
  | Some raw =>
      match expected_size with
      | Some e =>
          if negb (len raw =? e)
          then Raise (ValueError (DecompressedSizeMismatch (len raw) e))
          else Ok raw
      | None => Ok raw
      end
  end.

Definition _parse_mesh_block : M stream (ndarray * ndarray * Meta) :=
  total_num <- _read_int_le ;;
  vert_num <- _read_int_le ;;
  face_num <- _read_int_le ;;
  compress_num <- _read_int_le ;;
  cdata <- _read_bytes compress_num ;;
  raw <- lift (_zlib_decompress cdata None) ;;
  let expected := vert_num * 3 * 4 + face_num * 3 * 4 in
  if negb (len raw =? expected)
  then raise (ValueError (GeometryBlockSizeMismatch (len raw) expected))
  else
    let v_buf := slice_to raw (vert_num * 12) in
    let f_buf := slice_from raw (vert_num * 12) in
    vertices <- lift (frombuffer_reshape v_buf float32 vert_num 3) ;;
    faces <- lift (frombuffer_reshape f_buf int32 face_num 3) ;;
    ret (vertices, faces,
         {| meta_compressed_bytes := compress_num;
            meta_uncompressed_bytes := len raw |}).

(** [Image.frombytes("RGBA", (width, height), rgba)] saved as PNG. *)
Definition _try_png_bytes_from_rgba (width height : Z) (rgba_bytes : bytes)
  : option bytes :=
  png_encode width height rgba_bytes.

(** The three optional arrays read the same way by both material parsers. *)
Definition read_uvs (raw : bytes) (msg : ValueError_msg) (uv_num : Z)
  : M Z (option ndarray) :=
  if uv_num >? 0
  then uv_bytes <- take raw msg (uv_num * 2 * 4) ;;
       a <- lift (frombuffer_reshape uv_bytes float32 uv_num 2) ;;
       ret (Some a)
  else ret None.

Definition read_face_uvs (raw : bytes) (msg : ValueError_msg) (face_uv_num : Z)
  : M Z (option ndarray) :=
  if face_uv_num >? 0
  then fuv_bytes <- take raw msg (face_uv_num * 3 * 4) ;;
       a <- lift (frombuffer_reshape fuv_bytes int32 face_uv_num 3) ;;
       ret (Some a)
  else ret None.

Definition read_texture_ids (raw : bytes) (msg : ValueError_msg) (texture_id_num : Z)
  : M Z (option ndarray1) :=
  if texture_id_num >? 0
  then tid_bytes <- take raw msg (texture_id_num * 4) ;;
       a <- lift (np_frombuffer tid_bytes int32) ;;
       ret (Some a)
  else ret None.

Definition read_material_name (raw : bytes) (msg : ValueError_msg) (mtl_name_len : Z)
  : M Z (option String.string) :=
  if mtl_name_len >? 0
  then name_bytes <- take raw msg mtl_name_len ;;
       ret (Some (decode_utf8_replace (before_nul name_bytes)))
  else ret None.

(** The map loop of [_parse_material_block_v1_new]: [n] iterations are
    left and [texs] is [mats.textures] so far. *)
Fixpoint maps_v1_new (raw : bytes) (n : nat) (texs : list Texture)
  : M Z (list Texture) :=
  match n with
  | O => ret texs
  | S n' =>
      ptr <- get_ptr ;;
      if ptr + 4 >? len raw then ret texs
      else
        buf_size <- unpack_at raw ;;
        _ <- advance 4 ;;
        ptr <- get_ptr ;;
        let buf_size := if buf_size <? 0 then 0 else buf_size in
        let buf_size := if ptr + buf_size >? len raw
                        then Z.max 0 (len raw - ptr) else buf_size in
        buf <- (if buf_size =? 0 then ret []
                else take raw MaterialBlockTruncated buf_size) ;;
        maps_v1_new raw n'
          (texs ++ [{| data := buf;
                       is_png := startswith buf png_signature;
                       size_hint := None |}])
  end.

(** The walk of [_parse_material_block_v1_new] over the decompressed [raw]. *)
Definition walk_v1_new (raw : bytes)
    (uv_num face_uv_num texture_id_num : Z) (material_sizes : list Z)
    (mtl_name_len map_type_count : Z) : M Z CxbinMaterials :=
  let msg := MaterialBlockTruncated in
  uvs_internal <- read_uvs raw msg uv_num ;;
  face_uvs_internal <- read_face_uvs raw msg face_uv_num ;;
  tids <- read_texture_ids raw msg texture_id_num ;;
  blocks <- read_blocks raw msg material_sizes [] ;;
  name <- read_material_name raw msg mtl_name_len ;;
  texs <- maps_v1_new raw (Z.to_nat (Z.max 0 map_type_count)) [] ;;
  ret {| material_blocks := blocks;
         material_name := name;
         textures := texs;
         texture_ids := tids;
         _uvs_internal := uvs_internal;
         _face_uvs_internal := face_uvs_internal |}.

Definition _parse_material_block_v1_new : M stream CxbinMaterials :=
  total_num <- _read_int_le ;;
  uv_num <- _read_int_le ;;
  face_uv_num <- _read_int_le ;;
  texture_id_num <- _read_int_le ;;
  material_num <- _read_int_le ;;
  material_sizes <- read_ints (Z.to_nat material_num) ;;
  mtl_name_len <- _read_int_le ;;
  map_type_count <- _read_int_le ;;
  compress_num <- _read_int_le ;;
  cdata <- _read_bytes compress_num ;;
  raw <- lift (_zlib_decompress cdata (Some total_num)) ;;
  lift (from_start (walk_v1_new raw uv_num face_uv_num texture_id_num
                      material_sizes mtl_name_len map_type_count)).

(** The map loop of [_parse_material_block_v1_old]: each map carries its
    width and height, and the raw RGBA bytes are encoded to PNG; the
    [except Exception] branch keeps the raw bytes. *)
Fixpoint maps_v1_old (raw : bytes) (n : nat) (texs : list Texture)
  : M Z (list Texture) :=
  match n with
  | O => ret texs
  | S n' =>
      ptr <- get_ptr ;;
      if ptr + 8 >? len raw then ret texs
      else
        width <- unpack_at raw ;;
        _ <- advance 4 ;;
        height <- unpack_at raw ;;
        _ <- advance 4 ;;
        if (width <=? 0) || (height <=? 0)
        then maps_v1_old raw n'
               (texs ++ [{| data := [];
                            is_png := false;
                            size_hint := Some (width, height) |}])
        else
          ptr <- get_ptr ;;
          let byte_count := width * height * 4 in
          let byte_count := if ptr + byte_count >? len raw
                            then Z.max 0 (len raw - ptr) else byte_count in
          rgba <- (if byte_count >? 0
                   then take raw OldV1BlockTruncated byte_count
                   else ret []) ;;
          match _try_png_bytes_from_rgba width height rgba with
          | Some png =>
              maps_v1_old raw n'
                (texs ++ [{| data := png;
                             is_png := true;
                             size_hint := Some (width, height) |}])
          | None =>
              maps_v1_old raw n'
                (texs ++ [{| data := rgba;
                             is_png := false;
                             size_hint := Some (width, height) |}])
          end
  end.

(** The walk of [_parse_material_block_v1_old] over the decompressed [raw]. *)
Definition walk_v1_old (raw : bytes)
    (vert_num face_num uv_num face_uv_num texture_id_num : Z)
    (material_sizes : list Z) (mtl_name_len map_type_count : Z)
  : M Z (CxbinMaterials * ndarray * ndarray) :=
  let msg := OldV1BlockTruncated in
  v_bytes <- (if vert_num >? 0 then take raw msg (vert_num * 3 * 4) else ret []) ;;
  vertices <- lift (if vert_num >? 0
                    then frombuffer_reshape v_bytes float32 vert_num 3
                    else Ok []) ;;
  f_bytes <- (if face_num >? 0 then take raw msg (face_num * 3 * 4) else ret []) ;;
  faces <- lift (if face_num >? 0
                 then frombuffer_reshape f_bytes int32 face_num 3
                 else Ok []) ;;
  uvs_internal <- read_uvs raw msg uv_num ;;
  face_uvs_internal <- read_face_uvs raw msg face_uv_num ;;
  tids <- read_texture_ids raw msg texture_id_num ;;
  blocks <- read_blocks raw msg material_sizes [] ;;
  name <- read_material_name raw msg mtl_name_len ;;
  texs <- maps_v1_old raw (Z.to_nat (Z.max 0 map_type_count)) [] ;;
  ret ({| material_blocks := blocks;
          material_name := name;
          textures := texs;
          texture_ids := tids;
          _uvs_internal := uvs_internal;
          _face_uvs_internal := face_uvs_internal |},
       vertices, faces).

Definition _parse_material_block_v1_old
  : M stream (CxbinMaterials * ndarray * ndarray) :=
  total_num <- _read_int_le ;;
  vert_num <- _read_int_le ;;
  face_num <- _read_int_le ;;
  uv_num <- _read_int_le ;;
  face_uv_num <- _read_int_le ;;
  texture_id_num <- _read_int_le ;;
  material_num <- _read_int_le ;;
  material_sizes <- read_ints (Z.to_nat material_num) ;;
  mtl_name_len <- _read_int_le ;;
  map_type_count <- _read_int_le ;;
  compress_num <- _read_int_le ;;
  cdata <- _read_bytes compress_num ;;
  raw <- lift (_zlib_decompress cdata (Some total_num)) ;;
  lift (from_start (walk_v1_old raw vert_num face_num uv_num face_uv_num
                      texture_id_num material_sizes mtl_name_len map_type_count)).

(** The header of every file: [head_code], then 12 skipped bytes. *)
Definition read_head : M stream Z :=
  head_code <- _read_int_le ;;
  _ <- _read_bytes 12 ;;
  ret head_code.

(** The geometry-only document returned when the version read hits the
    end of the file. *)
Definition geometry_only (vertices faces : ndarray) (meta : Meta) : CxbinMesh :=
  {| vertices := vertices; faces := faces;
     uvs := None; face_uvs := None; materials := None;
     cxbin_version := None;
     compressed_bytes := Some (meta_compressed_bytes meta);
     uncompressed_bytes := Some (meta_uncompressed_bytes meta) |}.

(** The document of the versioned path once [version] has been read and
    [mats] is the material block, if one was parsed. *)
Definition versioned_mesh (vertices faces : ndarray) (meta : Meta)
    (version : Z) (mats : option CxbinMaterials) : CxbinMesh :=
  {| vertices := vertices; faces := faces;
     uvs := match mats with Some m => _uvs_internal m | None => None end;
     face_uvs := match mats with Some m => _face_uvs_internal m | None => None end;
     materials := mats;
     cxbin_version := Some version;
     compressed_bytes := Some (meta_compressed_bytes meta);
     uncompressed_bytes := Some (meta_uncompressed_bytes meta) |}.

(** The document of the legacy path. *)
Definition legacy_mesh (mats : CxbinMaterials) (vertices faces : ndarray) : CxbinMesh :=
  {| vertices := vertices; faces := faces;
     uvs := _uvs_internal mats;
     face_uvs := _face_uvs_internal mats;
     materials := Some mats;
     cxbin_version := Some 1;
     compressed_bytes := None;
     uncompressed_bytes := None |}.

Definition load_cxbin (fp : stream) : result CxbinMesh :=
  match read_head fp with
  | Raise e => Raise e
  | Ok (head_code, f) =>
      if negb (head_code =? 1) then
        match _parse_mesh_block f with
        | Raise e => Raise e
        | Ok ((vertices, faces, meta), f) =>
            match _read_int_le f with
            | Raise EOFError => Ok (geometry_only vertices faces meta)
            | Raise e => Raise e
            | Ok (version, f) =>
                if version =? 0 then
                  Ok (versioned_mesh vertices faces meta version None)
                else if version =? 1 then
                  match _parse_material_block_v1_new f with
                  | Raise e => Raise e
                  | Ok (mats, _) =>
                      Ok (versioned_mesh vertices faces meta version (Some mats))
                  end
                else
                  Ok (versioned_mesh vertices faces meta version None)
            end
        end
      else
        match _parse_material_block_v1_old f with
        | Raise e => Raise e
        | Ok ((mats, vertices, faces), _) => Ok (legacy_mesh mats vertices faces)
        end
  end.

End Reader.

(** ** The stand-alone converter [cxbin_converter.py] *)

(** The older script parses the geometry block on its own, from a file
    opened with [open(path, "rb")]; what it prints is left out. *)

(** How a call of the script's parser ends: with a value, with one of the
    reader's exceptions, with the [ValueError] a buffered file raises for
    a read length below -1, or with an exception of [trimesh.Trimesh]. *)
Inductive outcome (A : Type) : Type :=
| Returns (a : A)
| Raises (e : exn)
| RaisesReadLength
| RaisesTrimesh.
Arguments Raises {A} e.
Arguments RaisesReadLength {A}.
Arguments RaisesTrimesh {A}.

(** The [metadata] dict of [parse_cxbin]. *)
Record Metadata : Type := {
  md_vertices : Z;
  md_faces : Z;
  md_compressed_bytes : Z;
  md_uncompressed_bytes : Z
}.

(** [f.read(n)] on a buffered binary file: [-1] reads to the end and a
    smaller [n] is refused ([None]). *)
Definition buffered_read (n : Z) (f : stream) : option (bytes * stream) :=
  if n <? -1 then None
  else if n =? -1 then Some (f, [])
  else Some (firstn (Z.to_nat n) f, skipn (Z.to_nat n) f).

Section Converter.

Context {libs : Libs}.

(** [trimesh.Trimesh(vertices=..., faces=..., process=False)] is taken as
    given; [None] stands for any exception of it. *)
Variable mesh : Type.
Variable Trimesh : ndarray -> ndarray -> option mesh.

(** [parse_cxbin(file_path)]; the result [(None, None)] is [Returns None]. *)
Definition parse_cxbin (file : stream) : outcome (option (mesh * Metadata)) :=
  let f := skipn 16 file in
  let header := firstn 12 f in
  let f := skipn 12 f in
  if len header <? 12 then Returns None
  else
    let total_size := unpack_i (firstn 4 header) in
    let vert_count := unpack_i (firstn 4 (skipn 4 header)) in
    let face_count := unpack_i (firstn 4 (skipn 8 header)) in
    let b := firstn 4 f in
    let f := skipn 4 f in
    if negb (len b =? 4) then Raises struct_error
    else
      let comp_size := unpack_i b in
      match buffered_read comp_size f with
      | None => RaisesReadLength
      | Some (compressed, _) =>
          match zlib_decompress compressed with
          | None => Raises zlib_error
          | Some raw =>
              if negb (len raw =? vert_count * 12 + face_count * 12)
              then Returns None
              else
                match frombuffer_reshape (slice_to raw (vert_count * 12))
                        float32 vert_count 3 with
                | Raise e => Raises e
                | Ok vertices =>
                    match frombuffer_reshape (slice_from raw (vert_count * 12))
                            int32 face_count 3 with
                    | Raise e => Raises e
                    | Ok faces =>
                        match Trimesh vertices faces with
                        | None => RaisesTrimesh
                        | Some m =>
                            Returns
                              (Some (m,
                                     {| md_vertices := vert_count;
                                        md_faces := face_count;
                                        md_compressed_bytes := comp_size;
                                        md_uncompressed_bytes := len raw |}))
                        end
                    end
                end
          end
      end.

End Converter.

(** ** Concrete libraries and files for the examples *)

(** [struct.pack("<i", z)] and friends, used to lay out example files. *)
Definition byte_of_Z (z : Z) : byte :=
  match Byte.of_N (Z.to_N (z mod 256)) with
  | Some b => b
  | None => x00
  end.

Definition pack_i (z : Z) : bytes :=
  let u := z mod 2 ^ 32 in
  [byte_of_Z u; byte_of_Z (u / 2 ^ 8); byte_of_Z (u / 2 ^ 16); byte_of_Z (u / 2 ^ 24)].

Definition pack_u16_le (z : Z) : bytes := [byte_of_Z z; byte_of_Z (z / 2 ^ 8)].

Definition pack_u32_be (z : Z) : bytes := rev (pack_i z).

(** The stored-block fragment of zlib (RFC 1950 around RFC 1951 blocks of
    type 00).  On a stream made of stored blocks [decompress] returns what
    [zlib.decompress] returns: the header and the Adler-32 trailer are
    checked and bytes after the trailer are ignored.  A stream with a
    Huffman-coded block lies outside the fragment and yields [None]. *)
Module Stored.

Definition adler32 (d : bytes) : Z :=
  let step (ab : Z * Z) (x : byte) :=
    let a := (fst ab + byte_val x) mod 65521 in
    (a, (snd ab + a) mod 65521) in
  let ab := fold_left step d (1, 0) in
  snd ab * 65536 + fst ab.

Fixpoint blocks (fuel : nat) (s out : bytes) : option (bytes * bytes) :=
  match fuel with
  | O => None
  | S fuel' =>
      match s with
      | h :: l0 :: l1 :: n0 :: n1 :: s' =>
          let n := uint_le [l0; l1] in
          if negb (Z.land (Z.shiftr (byte_val h) 1) 3 =? 0) then None
          else if negb (uint_le [n0; n1] =? Z.lxor n 65535) then None
          else if len s' <? n then None
          else
            let out' := out ++ firstn (Z.to_nat n) s' in
            let s'' := skipn (Z.to_nat n) s' in
            if Z.testbit (byte_val h) 0 then Some (out', s'')
            else blocks fuel' s'' out'
      | _ => None
      end
  end.

Definition decompress (buf : bytes) : option bytes :=
  match buf with
  | cmf :: flg :: s =>
      let c := byte_val cmf in
      let f := byte_val flg in
      if (Z.land c 15 =? 8) && (Z.shiftr c 4 <=? 7)
         && ((c * 256 + f) mod 31 =? 0) && negb (Z.testbit f 5)
      then match blocks (length s) s [] with
           | Some (out, a :: b :: c' :: d :: _) =>
               if uint_le [d; c'; b; a] =? adler32 out then Some out else None
           | _ => None
           end
      else None
  | _ => None
  end.

(** One final stored block holding [d] (fewer than 65536 bytes). *)
Definition compress (d : bytes) : bytes :=
  [x78; x01; x01] ++ pack_u16_le (len d) ++ pack_u16_le (Z.lxor (len d) 65535)
  ++ d ++ pack_u32_be (adler32 d).

End Stored.

(** An image codec for the examples: it accepts exactly [width*height*4]
    bytes and answers with the PNG signature followed by them. *)
Definition example_png_encode (width height : Z) (rgba : bytes) : option bytes :=
  if len rgba =? width * height * 4 then Some (png_signature ++ rgba) else None.

Definition example_libs : Libs := {|
  zlib_decompress := Stored.decompress;
  png_encode := example_png_encode;
  decode_utf8_replace := String.string_of_list_byte
|}.

Definition pad12 : bytes := repeat x00 12.

(** A versioned file (head code 7) with one vertex and one face, and
    nothing after the geometry block. *)
Definition triangle_payload : bytes :=
  pack_i 0 ++ pack_i 1065353216 ++ pack_i 1073741824
  ++ pack_i 0 ++ pack_i 0 ++ pack_i 0.

Definition triangle_file : bytes :=
  pack_i 7 ++ pad12
  ++ pack_i 24 ++ pack_i 1 ++ pack_i 1 ++ pack_i 35
  ++ Stored.compress triangle_payload.

(** Head code 7, and a geometry block declaring [-1] vertices and [1] face
    over an empty payload: [(-1)*12 + 1*12 = 0]. *)
Definition negative_count_file : bytes :=
  pack_i 7 ++ pad12
  ++ pack_i 0 ++ pack_i (-1) ++ pack_i 1 ++ pack_i 11 ++ Stored.compress [].

(** The material block of the versioned layout, laid out from its fields;
    [payload] is stored as one zlib block. *)
Definition new_material_block (total_num uv_num face_uv_num texture_id_num
    material_num : Z) (material_sizes : list Z) (mtl_name_len map_type_count : Z)
    (payload : bytes) : bytes :=
  pack_i total_num ++ pack_i uv_num ++ pack_i face_uv_num
  ++ pack_i texture_id_num ++ pack_i material_num
  ++ flat_map pack_i material_sizes
  ++ pack_i mtl_name_len ++ pack_i map_type_count
  ++ pack_i (len (Stored.compress payload)) ++ Stored.compress payload.

(** The body of a legacy file, laid out from its fields. *)
Definition legacy_block (total_num vert_num face_num uv_num face_uv_num
    texture_id_num material_num : Z) (material_sizes : list Z)
    (mtl_name_len map_type_count : Z) (payload : bytes) : bytes :=
  pack_i total_num ++ pack_i vert_num ++ pack_i face_num
  ++ pack_i uv_num ++ pack_i face_uv_num
  ++ pack_i texture_id_num ++ pack_i material_num
  ++ flat_map pack_i material_sizes
  ++ pack_i mtl_name_len ++ pack_i map_type_count
  ++ pack_i (len (Stored.compress payload)) ++ Stored.compress payload.

(** [triangle_file] followed by a version field of 0, and of 5. *)
Definition version0_file : bytes := triangle_file ++ pack_i 0.
Definition version5_file : bytes := triangle_file ++ pack_i 5.

(** [triangle_file] followed by version 1 and an empty material block. *)
Definition v1_file : bytes :=
  triangle_file ++ pack_i 1 ++ new_material_block 0 0 0 0 0 [] 0 0 [].

(** A legacy file (head code 1) with no geometry and no materials; its
    declared compressed length is 11. *)
Definition legacy_file : bytes :=
  pack_i 1 ++ pad12 ++ legacy_block 0 0 0 0 0 0 0 [] 0 0 [].

(** A payload of three texture maps for the new layout: 2 bytes declared
    and present, a declared size of -5, and 100 bytes declared with only 3
    present. *)
Definition texture_payload : bytes :=
  pack_i 2 ++ [x61; x62] ++ pack_i (-5) ++ pack_i 100 ++ [x63; x64; x65].

Definition texture_file : bytes :=
  triangle_file ++ pack_i 1
  ++ new_material_block 17 0 0 0 0 [] 0 3 texture_payload.

(** A payload of two texture maps for the legacy layout: a 4 x 2 map with
    its 32 bytes, and a 2 x 2 map with only 3 bytes left. *)
Definition legacy_texture_payload : bytes :=
  pack_i 4 ++ pack_i 2 ++ repeat xff 32
  ++ pack_i 2 ++ pack_i 2 ++ [x01; x02; x03].

Definition legacy_texture_file : bytes :=
  pack_i 1 ++ pad12
  ++ legacy_block 51 0 0 0 0 0 0 [] 0 2 legacy_texture_payload.



(** A material block that declares 5 decompressed bytes and holds 2. *)
Definition mismatch_block : bytes :=
  new_material_block 5 0 0 0 0 [] 0 0 [x61; x62].

Definition mismatch_file : bytes := triangle_file ++ pack_i 1 ++ mismatch_block.

(** A material block with every field present: one UV pair, one face-UV
    triple, two texture ids, two materials of sizes 3 and 0, the 4-byte
    name [ab\0c] and one texture map of 2 bytes. *)
Definition full_material_payload : bytes :=
  repeat x00 8 ++ repeat x00 12 ++ pack_i 5 ++ pack_i 6
  ++ [x6d; x6d; x6d] ++ [x61; x62; x00; x63]
  ++ pack_i 2 ++ [x50; x51].

Definition full_material_block : bytes :=
  new_material_block 41 1 1 2 2 [3; 0] 4 1 full_material_payload.

(** A legacy body that declares one vertex and -2 faces over 12 bytes. *)
Definition legacy_negative_faces_block : bytes :=
  legacy_block 12 1 (-2) 0 0 0 0 [] 0 0 (repeat x00 12).

(** A mesh constructor for the examples: it keeps the two arrays. *)
Definition example_Trimesh (vertices faces : ndarray) : option (ndarray * ndarray) :=
  Some (vertices, faces).

(** ** Properties of readers and walkers *)

(** A reader that succeeds on a stream succeeds the same way when more
    bytes follow, and leaves them unread. *)
Definition framed {A : Type} (c : M stream A) : Prop :=
  forall (s s' t : stream) (a : A),
    c s = Ok (a, s') -> c (s ++ t) = Ok (a, s' ++ t).

(** A walker keeps the cursor inside the payload. *)
Definition in_payload (raw : bytes) (ptr : Z) : Prop := 0 <= ptr <= len raw.

Definition keeps_cursor {A : Type} (raw : bytes) (c : M Z A) : Prop :=
  forall (ptr ptr' : Z) (a : A),
    in_payload raw ptr -> c ptr = Ok (a, ptr') -> in_payload raw ptr'.

(** The texture entry the new parser stores for a buffer. *)
Definition new_texture (buf : bytes) : Texture :=
  {| data := buf; is_png := startswith buf png_signature; size_hint := None |}.

(** The body size the new parser reads for a declared size, with [avail]
    bytes left after the prefix. *)
Definition clamped (declared avail : Z) : Z :=
  if declared <? 0 then 0 else Z.min declared avail.

(** A partial-correctness triple for the two monads: from a state that
    satisfies [pre], the computation either returns a value and a state
    related by [post], or raises an exception allowed by [err]. *)
Definition hoare {S A : Type} (pre : S -> Prop) (c : M S A)
    (post : A -> S -> Prop) (err : exn -> Prop) : Prop :=
  forall s, pre s ->
    match c s with
    | Ok (a, s') => post a s'
    | Raise e => err e
    end.

(** An optional array of [n] rows of [k] items, absent exactly when the
    declared count [n] is not positive. *)
Definition declared_rows (n : Z) (k : nat) (o : option ndarray) : Prop :=
  match o with
  | None => n <= 0
  | Some a => 0 < n /\ len a = n /\ Forall (fun row => length row = k) a
  end.

(** The same for a flat array of [n] items. *)
Definition declared_items (n : Z) (o : option ndarray1) : Prop :=
  match o with
  | None => n <= 0
  | Some a => 0 < n /\ len a = n
  end.

(** The integers held by a byte string, four bytes each. *)
Definition ints_of (b : bytes) : list Z := map unpack_i (chunks 4 b).

(** The exceptions a material parser may raise; [msg] is the message of
    its own [take]. *)
Definition material_parser_error (msg : ValueError_msg) (e : exn) : Prop :=
  e = EOFError \/ e = zlib_error
  \/ (exists got expected, e = ValueError (DecompressedSizeMismatch got expected))
  \/ e = ValueError msg.

(** What both material parsers guarantee about the record they return,
    given the declared counts and sizes. *)
Definition material_counts
    (uv_num face_uv_num texture_id_num : Z) (material_sizes : list Z)
    (mtl_name_len map_type_count : Z) (mats : CxbinMaterials) : Prop :=
  declared_rows uv_num 2 (_uvs_internal mats)
  /\ declared_rows face_uv_num 3 (_face_uvs_internal mats)
  /\ declared_items texture_id_num (texture_ids mats)
  /\ Forall2 (fun size b => len b = Z.max 0 size)
       material_sizes (material_blocks mats)
  /\ (material_name mats = None <-> mtl_name_len <= 0)
  /\ len (textures mats) <= Z.max 0 map_type_count.

(** The exceptions [load_cxbin] may raise. *)
Definition load_cxbin_error (e : exn) : Prop :=
  e = EOFError \/ e = zlib_error
  \/ (exists got expected, e = ValueError (DecompressedSizeMismatch got expected))
  \/ (exists got expected, e = ValueError (GeometryBlockSizeMismatch got expected))
  \/ e = ValueError MaterialBlockTruncated
  \/ e = ValueError OldV1BlockTruncated
  \/ e = ValueError NumpyReshape.

(** The bytes the walkers must find before the texture maps. *)
Definition blob_bytes (sizes : list Z) : Z :=
  fold_right (fun size acc => Z.max 0 size + acc) 0 sizes.

Definition new_fixed_bytes (uv_num face_uv_num texture_id_num : Z)
    (material_sizes : list Z) (mtl_name_len : Z) : Z :=
  Z.max 0 uv_num * 8 + (Z.max 0 face_uv_num * 12
  + (Z.max 0 texture_id_num * 4
  + (blob_bytes material_sizes + Z.max 0 mtl_name_len))).

Definition legacy_fixed_bytes (vert_num face_num uv_num face_uv_num
    texture_id_num : Z) (material_sizes : list Z) (mtl_name_len : Z) : Z :=
  Z.max 0 vert_num * 12 + (Z.max 0 face_num * 12
  + new_fixed_bytes uv_num face_uv_num texture_id_num material_sizes
      mtl_name_len).

(** A walker step that, from any cursor inside the payload, either
    returns a value satisfying [Q] after advancing by exactly [cost]
    bytes, or raises the truncation error because [cost] bytes are not
    left. *)
Definition costs {A : Type} (raw : bytes) (msg : ValueError_msg) (c : M Z A)
    (cost : Z) (Q : A -> Prop) : Prop :=
  0 <= cost /\
  forall p, in_payload raw p ->
    match c p with
    | Ok (a, p') => Q a /\ p' = p + cost /\ p + cost <= len raw
    | Raise e => e = ValueError msg /\ len raw < p + cost
    end.

(** A walker that returns exactly when [need] bytes are left. *)
Definition fits {A : Type} (raw : bytes) (msg : ValueError_msg) (c : M Z A)
    (need : Z) : Prop :=
  forall p, in_payload raw p ->
    match c p with
    | Ok _ => p + need <= len raw
    | Raise e => e = ValueError msg /\ len raw < p + need
    end.

Section Layouts.

Context {libs : Libs}.

(** [block] is a material block of the versioned layout followed by
    [rest]: its header declares the given counts and sizes, and its
    payload decompresses to [raw], of the declared total size. *)
Definition laid_out_new_block (block rest raw : bytes)
    (uv_num face_uv_num texture_id_num : Z) (material_sizes : list Z)
    (mtl_name_len map_type_count : Z) : Prop :=
  exists T4 U4 FU4 TI4 M4 S4 N4 K4 C4 cdata,
    block = T4 ++ U4 ++ FU4 ++ TI4 ++ M4 ++ S4 ++ N4 ++ K4 ++ C4
            ++ cdata ++ rest
    /\ length T4 = 4%nat /\ length U4 = 4%nat /\ length FU4 = 4%nat
    /\ length TI4 = 4%nat /\ length M4 = 4%nat
    /\ length S4 = (4 * Z.to_nat (unpack_i M4))%nat
    /\ length N4 = 4%nat /\ length K4 = 4%nat /\ length C4 = 4%nat
    /\ len cdata = unpack_i C4
    /\ zlib_decompress cdata = Some raw /\ len raw = unpack_i T4
    /\ uv_num = unpack_i U4 /\ face_uv_num = unpack_i FU4
    /\ texture_id_num = unpack_i TI4 /\ material_sizes = ints_of S4
    /\ mtl_name_len = unpack_i N4 /\ map_type_count = unpack_i K4.

(** The same for the body of a legacy file. *)
Definition laid_out_legacy_block (block rest raw : bytes)
    (vert_num face_num uv_num face_uv_num texture_id_num : Z)
    (material_sizes : list Z) (mtl_name_len map_type_count : Z) : Prop :=
  exists T4 V4 F4 U4 FU4 TI4 M4 S4 N4 K4 C4 cdata,
    block = T4 ++ V4 ++ F4 ++ U4 ++ FU4 ++ TI4 ++ M4 ++ S4 ++ N4 ++ K4 ++ C4
            ++ cdata ++ rest
    /\ length T4 = 4%nat /\ length V4 = 4%nat /\ length F4 = 4%nat
    /\ length U4 = 4%nat /\ length FU4 = 4%nat
    /\ length TI4 = 4%nat /\ length M4 = 4%nat
    /\ length S4 = (4 * Z.to_nat (unpack_i M4))%nat
    /\ length N4 = 4%nat /\ length K4 = 4%nat /\ length C4 = 4%nat
    /\ len cdata = unpack_i C4
    /\ zlib_decompress cdata = Some raw /\ len raw = unpack_i T4
    /\ vert_num = unpack_i V4 /\ face_num = unpack_i F4
    /\ uv_num = unpack_i U4 /\ face_uv_num = unpack_i FU4
    /\ texture_id_num = unpack_i TI4 /\ material_sizes = ints_of S4
    /\ mtl_name_len = unpack_i N4 /\ map_type_count = unpack_i K4.

(** The texture the legacy loop stores for the pixel bytes [rgba] of a
    map with positive dimensions: PNG when the encoder returns, the raw
    bytes when it raises. *)
Definition legacy_texture (width height : Z) (rgba : bytes) : Texture :=
  match _try_png_bytes_from_rgba width height rgba with
  | Some png => {| data := png; is_png := true;
                   size_hint := Some (width, height) |}
  | None => {| data := rgba; is_png := false;
               size_hint := Some (width, height) |}
  end.

End Layouts.

(** ** Facts about the Python primitives *)

Lemma len_nonneg {A : Type} (l : list A) : 0 <= len l.
Proof. unfold len. lia. Qed.

Lemma len_app {A : Type} (l1 l2 : list A) : len (l1 ++ l2) = len l1 + len l2.
Proof. unfold len. rewrite length_app. lia. Qed.

Lemma len_nil {A : Type} : len (@nil A) = 0.
Proof. reflexivity. Qed.

(** The length of [l[lo:hi]] for a cursor [lo >= 0]. *)
Lemma len_slice {A : Type} (l : list A) (lo hi : Z) :
  0 <= lo -> lo <= hi ->
  len (slice l lo hi) = Z.min hi (len l) - Z.min lo (len l).
Proof.
  intros Hlo Hhi. unfold slice, norm_index, len.
  destruct (Z.ltb_spec lo 0); [lia|].
  destruct (Z.ltb_spec hi 0); [lia|].
  rewrite length_firstn, length_skipn. lia.
Qed.

(** A slice of [n > 0] items from a cursor [lo >= 0] is full exactly when
    it fits. *)
Lemma len_slice_full {A : Type} (l : list A) (lo n : Z) :
  0 <= lo -> 0 < n ->
  (len (slice l lo (lo + n)) = n <-> lo + n <= len l).
Proof.
  intros Hlo Hn. rewrite len_slice by lia.
  pose proof (len_nonneg l). lia.
Qed.

Lemma take_ok (raw : bytes) (msg : ValueError_msg) (n ptr : Z) :
  0 <= ptr -> 0 < n -> ptr + n <= len raw ->
  take raw msg n ptr = Ok (slice raw ptr (ptr + n), ptr + n)
  /\ len (slice raw ptr (ptr + n)) = n.
Proof.
  intros Hp Hn Hfit. unfold take.
  assert (E : len (slice raw ptr (ptr + n)) = n) by (apply len_slice_full; lia).
  rewrite E, Z.eqb_refl. simpl. auto.
Qed.

Lemma take_inv (raw : bytes) (msg : ValueError_msg) (n ptr : Z) b ptr' :
  0 <= ptr -> 0 < n ->
  take raw msg n ptr = Ok (b, ptr') ->
  ptr' = ptr + n /\ ptr + n <= len raw /\ len b = n.
Proof.
  intros Hp Hn. unfold take.
  destruct (Z.eqb_spec (len (slice raw ptr (ptr + n))) n) as [E|E]; simpl;
    [|discriminate].
  intros H. injection H as <- <-.
  repeat split; auto. apply len_slice_full in E; lia.
Qed.

(** ** Reading from a stream that is known to start with the field *)

Lemma read_exact_app (n : Z) (b : bytes) (s : stream) :
  len b = n -> _read_exact n (b ++ s) = Ok (b, s).
Proof.
  intros Hn. unfold _read_exact, file_read.
  pose proof (len_nonneg b).
  destruct (Z.ltb_spec n 0); [lia|].
  assert (Z.to_nat n = length b) as -> by (unfold len in Hn; lia).
  rewrite firstn_app, skipn_app, Nat.sub_diag, firstn_all, skipn_all. simpl.
  rewrite app_nil_r. fold (len b). rewrite Hn, Z.eqb_refl. reflexivity.
Qed.

Lemma bind_read_bytes {A : Type} (n : Z) (b : bytes) (s : stream)
      (k : bytes -> M stream A) :
  len b = n -> bind (_read_bytes n) k (b ++ s) = k b s.
Proof.
  intros Hn. unfold bind, _read_bytes. rewrite read_exact_app by assumption.
  reflexivity.
Qed.

Lemma read_int_le_app (b : bytes) (s : stream) :
  length b = 4%nat -> _read_int_le (b ++ s) = Ok (unpack_i b, s).
Proof.
  intros Hb. unfold _read_int_le, bind.
  rewrite read_exact_app by (unfold len; lia). reflexivity.
Qed.

Lemma bind_read_int {A : Type} (b : bytes) (s : stream) (k : Z -> M stream A) :
  length b = 4%nat -> bind _read_int_le k (b ++ s) = k (unpack_i b) s.
Proof.
  intros Hb. unfold bind at 1. rewrite read_int_le_app by assumption.
  reflexivity.
Qed.

Lemma read_head_app (h4 pad : bytes) (s : stream) :
  length h4 = 4%nat -> length pad = 12%nat ->
  read_head (h4 ++ pad ++ s) = Ok (unpack_i h4, s).
Proof.
  intros H4 H12. unfold read_head.
  rewrite bind_read_int by assumption.
  rewrite bind_read_bytes by (unfold len; lia). reflexivity.
Qed.

(** ** Arrays of a known size *)

Lemma chunks_aux_length {A : Type} (k : nat) :
  (0 < k)%nat ->
  forall (m fuel : nat) (l : list A),
    length l = (m * k)%nat -> (m <= fuel)%nat ->
    length (chunks_aux fuel k l) = m.
Proof.
  intros Hk. induction m as [|m IH]; intros fuel l Hl Hfuel.
  - destruct l; [|simpl in Hl; lia]. destruct fuel; reflexivity.
  - destruct fuel as [|fuel]; [lia|].
    destruct l as [|x l]; [simpl in Hl; lia|].
    cbn [chunks_aux length]. f_equal. apply IH; [|lia].
    rewrite length_skipn, Hl. simpl. lia.
Qed.

Lemma chunks_length {A : Type} (k m : nat) (l : list A) :
  (0 < k)%nat -> length l = (m * k)%nat -> length (chunks k l) = m.
Proof.
  intros Hk Hl. unfold chunks. apply chunks_aux_length; auto. rewrite Hl. nia.
Qed.

Lemma len_chunks {A : Type} (k : nat) (m : Z) (l : list A) :
  (0 < k)%nat -> 0 <= m -> len l = m * Z.of_nat k -> len (chunks k l) = m.
Proof.
  intros Hk Hm Hl. unfold len in *.
  rewrite (@chunks_length A k (Z.to_nat m)); [lia|assumption|nia].
Qed.

(** [np.frombuffer(buf).reshape((rows, cols))] succeeds with [rows] rows
    when the buffer holds exactly [rows * cols] items. *)
Lemma frombuffer_reshape_ok (buf : bytes) (d : dtype) (rows : Z) (cols : nat) :
  (0 < cols)%nat -> 0 <= rows -> len buf = rows * Z.of_nat cols * 4 ->
  exists a, frombuffer_reshape buf d rows cols = Ok a /\ len a = rows.
Proof.
  intros Hc Hr Hb. unfold frombuffer_reshape, np_frombuffer.
  assert (Hmod : len buf mod 4 = 0) by (rewrite Hb; apply Z_mod_mult).
  rewrite Hmod. simpl.
  set (a1 := map (item d) (chunks 4 buf)).
  assert (Ha1 : len a1 = rows * Z.of_nat cols).
  { unfold a1, len. rewrite length_map. fold (len (chunks 4 buf)).
    apply len_chunks; lia. }
  unfold reshape.
  destruct (Z.ltb_spec rows 0); [lia|].
  rewrite Ha1, Z.eqb_refl.
  eexists; split; [reflexivity|]. apply len_chunks; lia.
Qed.

(** ** The dispatcher and the geometry block *)

Ltac read_fields :=
  repeat first [ rewrite bind_read_int by assumption
               | rewrite bind_read_bytes by assumption ].

Section Properties.

Context {libs : Libs}.

(** What [load_cxbin] does on the versioned path. *)
Lemma load_cxbin_versioned (fp f : stream) (head_code : Z) :
  read_head fp = Ok (head_code, f) -> head_code <> 1 ->
  load_cxbin fp =
  match _parse_mesh_block f with
  | Raise e => Raise e
  | Ok ((vertices, faces, meta), f1) =>
      match _read_int_le f1 with
      | Raise EOFError => Ok (geometry_only vertices faces meta)
      | Raise e => Raise e
      | Ok (version, f2) =>
          if version =? 1 then
            match _parse_material_block_v1_new f2 with
            | Raise e => Raise e
            | Ok (mats, _) =>
                Ok (versioned_mesh vertices faces meta version (Some mats))
            end
          else Ok (versioned_mesh vertices faces meta version None)
      end
  end.
Proof.
  intros Hh Hne. unfold load_cxbin. rewrite Hh.
  destruct (Z.eqb_spec head_code 1); [contradiction|]. simpl.
  destruct (_parse_mesh_block f) as [[[[vs fs] meta] f1]|e]; [|reflexivity].
  destruct (_read_int_le f1) as [[version f2]|e]; [|reflexivity].
  destruct (Z.eqb_spec version 0) as [->|]; reflexivity.
Qed.

(** What [load_cxbin] does on the legacy path. *)
Lemma load_cxbin_legacy (fp f : stream) :
  read_head fp = Ok (1, f) ->
  load_cxbin fp =
  match _parse_material_block_v1_old f with
  | Raise e => Raise e
  | Ok ((mats, vertices, faces), _) => Ok (legacy_mesh mats vertices faces)
  end.
Proof.
  intros Hh. unfold load_cxbin. rewrite Hh. reflexivity.
Qed.

(** Every document of the versioned path carries the geometry and the
    counters of its mesh block. *)
Lemma load_cxbin_versioned_fields (fp f f1 : stream) (head_code : Z)
      (vs fs : ndarray) (meta : Meta) (doc : CxbinMesh) :
  read_head fp = Ok (head_code, f) -> head_code <> 1 ->
  _parse_mesh_block f = Ok ((vs, fs, meta), f1) ->
  load_cxbin fp = Ok doc ->
  vertices doc = vs /\ faces doc = fs
  /\ compressed_bytes doc = Some (meta_compressed_bytes meta)
  /\ uncompressed_bytes doc = Some (meta_uncompressed_bytes meta).
Proof.
  intros Hh Hne Hg. rewrite (load_cxbin_versioned _ Hh Hne), Hg.
  destruct (_read_int_le f1) as [[version f2]|[]]; try discriminate.
  - destruct (version =? 1).
    + destruct (_parse_material_block_v1_new f2) as [[mats ?]|]; [|discriminate].
      intros H; injection H as <-. auto.
    + intros H; injection H as <-. auto.
  - intros H; injection H as <-. auto.
Qed.

(** The mesh block of a laid-out stream, once its payload decompresses to
    the size its counts call for. *)
Lemma parse_mesh_block_ok (t4 v4 f4 c4 cdata rest raw : bytes) :
  length t4 = 4%nat -> length v4 = 4%nat -> length f4 = 4%nat ->
  length c4 = 4%nat -> len cdata = unpack_i c4 ->
  zlib_decompress cdata = Some raw ->
  0 <= unpack_i v4 -> 0 <= unpack_i f4 ->
  len raw = unpack_i v4 * 12 + unpack_i f4 * 12 ->
  exists vs fs,
    _parse_mesh_block (t4 ++ v4 ++ f4 ++ c4 ++ cdata ++ rest)
    = Ok ((vs, fs, {| meta_compressed_bytes := unpack_i c4;
                      meta_uncompressed_bytes := len raw |}), rest)
    /\ len vs = unpack_i v4 /\ len fs = unpack_i f4.
Proof.
  intros Ht Hv Hf Hc Hcd Hz HV HF Hraw.
  unfold _parse_mesh_block. read_fields.
  unfold bind at 1, lift, _zlib_decompress. rewrite Hz.
  destruct (Z.eqb_spec (len raw) (unpack_i v4 * 3 * 4 + unpack_i f4 * 3 * 4));
    [|lia]. cbn [negb].
  destruct (@frombuffer_reshape_ok (slice_to raw (unpack_i v4 * 12)) float32
              (unpack_i v4) 3) as (vs & Hvs & Lvs); [lia|lia| |].
  { unfold slice_to. rewrite len_slice by lia. lia. }
  destruct (@frombuffer_reshape_ok (slice_from raw (unpack_i v4 * 12)) int32
              (unpack_i f4) 3) as (fs & Hfs & Lfs); [lia|lia| |].
  { unfold slice_from. rewrite len_slice by lia. lia. }
  exists vs, fs. unfold bind, lift, ret. rewrite Hvs, Hfs. auto.
Qed.

(** A payload of any other size aborts the mesh block. *)
Lemma parse_mesh_block_mismatch (t4 v4 f4 c4 cdata rest raw : bytes) :
  length t4 = 4%nat -> length v4 = 4%nat -> length f4 = 4%nat ->
  length c4 = 4%nat -> len cdata = unpack_i c4 ->
  zlib_decompress cdata = Some raw ->
  len raw <> unpack_i v4 * 12 + unpack_i f4 * 12 ->
  _parse_mesh_block (t4 ++ v4 ++ f4 ++ c4 ++ cdata ++ rest)
  = Raise (ValueError (GeometryBlockSizeMismatch (len raw)
                         (unpack_i v4 * 12 + unpack_i f4 * 12))).
Proof.
  intros Ht Hv Hf Hc Hcd Hz Hraw.
  unfold _parse_mesh_block. read_fields.
  unfold bind at 1, lift, _zlib_decompress. rewrite Hz.
  destruct (Z.eqb_spec (len raw) (unpack_i v4 * 3 * 4 + unpack_i f4 * 3 * 4));
    [lia|]. cbn [negb]. unfold raise.
  do 3 f_equal. lia.
Qed.

Lemma framed_ret {A : Type} (a : A) : framed (ret a).
Proof. intros s s' t a' H. unfold ret in *. injection H as <- <-. reflexivity. Qed.

Lemma framed_raise {A : Type} (e : exn) : framed (@raise stream A e).
Proof. intros s s' t a H. discriminate. Qed.

Lemma framed_lift {A : Type} (r : result A) : framed (lift r).
Proof.
  intros s s' t a H. unfold lift in *.
  destruct r; [injection H as <- <-; reflexivity|discriminate].
Qed.

Lemma framed_bind {A B : Type} (c : M stream A) (k : A -> M stream B) :
  framed c -> (forall a, framed (k a)) -> framed (bind c k).
Proof.
  intros Hc Hk s s' t b H. unfold bind in *.
  destruct (c s) as [[a s1]|e] eqn:E; [|discriminate].
  rewrite (Hc _ _ t _ E). now apply Hk.
Qed.

Lemma framed_read_exact (n : Z) : framed (_read_exact n).
Proof.
  intros s s' t a. unfold _read_exact, file_read.
  destruct (Z.ltb_spec n 0) as [Hn|Hn].
  - pose proof (len_nonneg s).
    destruct (Z.eqb_spec (len s) n); [lia|discriminate].
  - destruct (Z.eqb_spec (len (firstn (Z.to_nat n) s)) n) as [E|E];
      [|discriminate].
    intros H. injection H as <- <-.
    assert (Hle : (Z.to_nat n <= length s)%nat).
    { unfold len in E. rewrite length_firstn in E. lia. }
    rewrite firstn_app, skipn_app.
    replace (Z.to_nat n - length s)%nat with 0%nat by lia.
    simpl. rewrite app_nil_r, E, Z.eqb_refl. reflexivity.
Qed.

Lemma framed_read_int_le : framed _read_int_le.
Proof.
  apply framed_bind; [apply framed_read_exact|intros; apply framed_ret].
Qed.

Lemma framed_read_head : framed read_head.
Proof.
  unfold read_head.
  apply framed_bind; [apply framed_read_int_le|intros].
  apply framed_bind; [apply framed_read_exact|intros; apply framed_ret].
Qed.

Lemma framed_parse_mesh_block : framed _parse_mesh_block.
Proof.
  unfold _parse_mesh_block.
  repeat (apply framed_bind; [apply framed_read_int_le|intros]).
  apply framed_bind; [apply framed_read_exact|intros].
  apply framed_bind; [apply framed_lift|intros].
  match goal with |- framed (if ?b then _ else _) => destruct b end;
    [apply framed_raise|].
  repeat (apply framed_bind; [apply framed_lift|intros]).
  apply framed_ret.
Qed.

(** The compressed-length field a successful mesh block reports is the
    fourth integer of the block. *)
Lemma parse_mesh_block_compressed (t4 v4 f4 c4 more : bytes) vs fs meta f1 :
  length t4 = 4%nat -> length v4 = 4%nat -> length f4 = 4%nat ->
  length c4 = 4%nat ->
  _parse_mesh_block (t4 ++ v4 ++ f4 ++ c4 ++ more) = Ok ((vs, fs, meta), f1) ->
  meta_compressed_bytes meta = unpack_i c4.
Proof.
  intros Ht Hv Hf Hc. unfold _parse_mesh_block. read_fields.
  unfold bind, lift, raise, ret.
  destruct (_read_bytes (unpack_i c4) more) as [[cdata s1]|]; [|discriminate].
  destruct (_zlib_decompress cdata None) as [raw|]; [|discriminate].
  destruct (negb _); [discriminate|].
  destruct (frombuffer_reshape _ float32 _ _); [|discriminate].
  destruct (frombuffer_reshape _ int32 _ _); [|discriminate].
  intros H. injection H as _ _ <- _. reflexivity.
Qed.

End Properties.

(** ** The geometry block (C1) *)

Section GeometryBlock.

Context {libs : Libs}.

(** C1 (amended).  For every versioned file (header code other than 1)
    whose geometry block declares non-negative vertex and face counts and
    decompresses to exactly [vertCount*12 + faceCount*12] bytes, decoding
    the geometry block succeeds with [vertCount] vertices and [faceCount]
    faces, and every document decoded from the file carries them together
    with [uncompressed_bytes = vertCount*12 + faceCount*12].  If the
    decompressed length differs from [vertCount*12 + faceCount*12], the
    whole decode raises the geometry-size-mismatch error, so no document
    is produced. *)
Theorem C1_geometry_block_sizes (h4 pad t4 v4 f4 c4 cdata rest raw : bytes) :
  length h4 = 4%nat -> length pad = 12%nat ->
  length t4 = 4%nat -> length v4 = 4%nat -> length f4 = 4%nat ->
  length c4 = 4%nat -> len cdata = unpack_i c4 ->
  unpack_i h4 <> 1 ->
  zlib_decompress cdata = Some raw ->
  let V := unpack_i v4 in
  let F := unpack_i f4 in
  let body := t4 ++ v4 ++ f4 ++ c4 ++ cdata ++ rest in
  (0 <= V -> 0 <= F -> len raw = V * 12 + F * 12 ->
   exists vs fs meta,
     _parse_mesh_block body = Ok ((vs, fs, meta), rest)
     /\ len vs = V /\ len fs = F
     /\ meta_uncompressed_bytes meta = V * 12 + F * 12
     /\ forall doc, load_cxbin (h4 ++ pad ++ body) = Ok doc ->
          vertices doc = vs /\ faces doc = fs
          /\ uncompressed_bytes doc = Some (V * 12 + F * 12))
  /\
  (len raw <> V * 12 + F * 12 ->
   load_cxbin (h4 ++ pad ++ body)
   = Raise (ValueError (GeometryBlockSizeMismatch (len raw) (V * 12 + F * 12)))).
Proof.
  intros Hh Hp Ht Hv Hf Hc Hcd Hne Hz V F body.
  assert (Hhead : read_head (h4 ++ pad ++ body) = Ok (unpack_i h4, body))
    by (apply read_head_app; assumption).
  split.
  - intros HV HF Hraw.
    destruct (@parse_mesh_block_ok _ t4 v4 f4 c4 cdata rest raw)
      as (vs & fs & Hg & Lvs & Lfs); auto.
    exists vs, fs, {| meta_compressed_bytes := unpack_i c4;
                      meta_uncompressed_bytes := len raw |}.
    repeat split; auto.
    all: intros; destruct (load_cxbin_versioned_fields _ Hhead Hne Hg H)
      as (E1 & E2 & E3 & E4); auto.
    rewrite E4. simpl. now rewrite Hraw.
  - intros Hraw. rewrite (load_cxbin_versioned _ Hhead Hne).
    unfold body. rewrite (@parse_mesh_block_mismatch _ t4 v4 f4 c4 cdata rest raw);
      auto.
Qed.

End GeometryBlock.

(** The one-vertex, one-face file decodes; the same block with a face
    count of 2 is refused. *)
Lemma C1_geometry_block_sizes_witness :
  (exists vs fs meta,
     _parse_mesh_block (libs := example_libs) (skipn 16 triangle_file)
     = Ok ((vs, fs, meta), [])
     /\ len vs = 1 /\ len fs = 1 /\ meta_uncompressed_bytes meta = 24)
  /\ load_cxbin (libs := example_libs)
       (pack_i 7 ++ pad12 ++ pack_i 24 ++ pack_i 1 ++ pack_i 2 ++ pack_i 35
        ++ Stored.compress triangle_payload ++ [])
     = Raise (ValueError (GeometryBlockSizeMismatch 24 36)).
Proof.
  assert (Hne : unpack_i (pack_i 7) <> 1) by (vm_compute; discriminate).
  split.
  - destruct (@C1_geometry_block_sizes example_libs
                (pack_i 7) pad12 (pack_i 24) (pack_i 1) (pack_i 1) (pack_i 35)
                (Stored.compress triangle_payload) [] triangle_payload
                eq_refl eq_refl eq_refl eq_refl eq_refl eq_refl eq_refl
                Hne eq_refl)
      as [Hok _].
    destruct Hok as (vs & fs & meta & Hg & Lvs & Lfs & Hm & _);
      try (vm_compute; congruence).
    exists vs, fs, meta. repeat split; assumption.
  - destruct (@C1_geometry_block_sizes example_libs
                (pack_i 7) pad12 (pack_i 24) (pack_i 1) (pack_i 2) (pack_i 35)
                (Stored.compress triangle_payload) [] triangle_payload
                eq_refl eq_refl eq_refl eq_refl eq_refl eq_refl eq_refl
                Hne eq_refl)
      as [_ Hbad].
    apply Hbad. vm_compute. discriminate.
Defined.


(** C1 as stated fails for a negative count: the payload of
    [negative_count_file] decompresses to [0 = (-1)*12 + 1*12] bytes, yet
    [reshape((1, 3))] of the empty face buffer raises and the decode is
    aborted. *)
Lemma C1_counterexample :
  zlib_decompress (Libs := example_libs) (Stored.compress []) = Some []
  /\ len (@nil byte) = (-1) * 12 + 1 * 12
  /\ _parse_mesh_block (libs := example_libs) (skipn 16 negative_count_file)
     = Raise (ValueError NumpyReshape)
  /\ load_cxbin (libs := example_libs) negative_count_file
     = Raise (ValueError NumpyReshape).
Proof. repeat split; vm_compute; reflexivity. Qed.

(** ** The format dispatcher (C2, C3, C4, C7, C9) *)

Section Dispatcher.

Context {libs : Libs}.

(** C7.  A versioned file whose bytes end right after the compressed
    payload of its geometry block decodes: the document has no version
    ([cxbin_version = None]), no materials, no UVs and no face UVs, and
    carries the geometry of the block. *)
Theorem C7_geometry_only_file (fp f : stream) (head_code : Z)
        (vs fs : ndarray) (meta : Meta) :
  read_head fp = Ok (head_code, f) -> head_code <> 1 ->
  _parse_mesh_block f = Ok ((vs, fs, meta), []) ->
  exists doc,
    load_cxbin fp = Ok doc
    /\ cxbin_version doc = None
    /\ materials doc = None /\ uvs doc = None /\ face_uvs doc = None
    /\ vertices doc = vs /\ faces doc = fs.
Proof.
  intros Hh Hne Hg. exists (geometry_only vs fs meta).
  rewrite (load_cxbin_versioned _ Hh Hne), Hg. simpl. repeat split.
Qed.

(** C9.  In a versioned file whose version field holds a value [v] other
    than 1, the document's [cxbin_version] is [v] itself, whatever bytes
    follow the field, and materials, UVs and face UVs are absent. *)
Theorem C9_version_value_is_surfaced (fp f f1 f2 : stream) (head_code v : Z)
        (vs fs : ndarray) (meta : Meta) :
  read_head fp = Ok (head_code, f) -> head_code <> 1 ->
  _parse_mesh_block f = Ok ((vs, fs, meta), f1) ->
  _read_int_le f1 = Ok (v, f2) -> v <> 1 ->
  exists doc,
    load_cxbin fp = Ok doc
    /\ cxbin_version doc = Some v
    /\ materials doc = None /\ uvs doc = None /\ face_uvs doc = None.
Proof.
  intros Hh Hne Hg Hv Hv1. exists (versioned_mesh vs fs meta v None).
  rewrite (load_cxbin_versioned _ Hh Hne), Hg, Hv.
  destruct (Z.eqb_spec v 1); [contradiction|]. repeat split.
Qed.

(** C3 (amended).  Let a versioned file end right after its geometry
    block, and append a version field of 0 (and anything after it).  Both
    files decode, to documents that agree on the geometry and the size
    counters and have no materials, UVs or face UVs; they differ in the
    version: [cxbin_version] is 0 with the field and [None] without. *)
Theorem C3_version_zero_vs_no_version (fp f ver tail : stream) (head_code : Z)
        (vs fs : ndarray) (meta : Meta) :
  read_head fp = Ok (head_code, f) -> head_code <> 1 ->
  _parse_mesh_block f = Ok ((vs, fs, meta), []) ->
  length ver = 4%nat -> unpack_i ver = 0 ->
  exists d_zero d_none,
    load_cxbin (fp ++ ver ++ tail) = Ok d_zero
    /\ load_cxbin fp = Ok d_none
    /\ vertices d_zero = vertices d_none /\ faces d_zero = faces d_none
    /\ compressed_bytes d_zero = compressed_bytes d_none
    /\ uncompressed_bytes d_zero = uncompressed_bytes d_none
    /\ materials d_zero = None /\ materials d_none = None
    /\ uvs d_zero = None /\ uvs d_none = None
    /\ face_uvs d_zero = None /\ face_uvs d_none = None
    /\ cxbin_version d_zero = Some 0 /\ cxbin_version d_none = None.
Proof.
  intros Hh Hne Hg Hlen Hver.
  exists (versioned_mesh vs fs meta 0 None), (geometry_only vs fs meta).
  split; [|split].
  - pose proof (framed_read_head _ (ver ++ tail) Hh) as Hh'.
    pose proof (framed_parse_mesh_block _ (ver ++ tail) Hg) as Hg'.
    rewrite (load_cxbin_versioned _ Hh' Hne), Hg'. simpl app.
    rewrite read_int_le_app by assumption. rewrite Hver. reflexivity.
  - rewrite (load_cxbin_versioned _ Hh Hne), Hg. reflexivity.
  - repeat split.
Qed.

(** C2 (amended).  A file whose header code is 1 is decoded by the legacy
    combined parser alone, and its document carries [cxbin_version = 1];
    a versioned file whose version field is 1 carries [cxbin_version = 1]
    as well.  The legacy document has both size counters unset, the
    versioned one has them set. *)
Theorem C2_legacy_version_is_one (fp f : stream) :
  read_head fp = Ok (1, f) ->
  load_cxbin fp =
    match _parse_material_block_v1_old f with
    | Raise e => Raise e
    | Ok ((mats, vertices, faces), _) => Ok (legacy_mesh mats vertices faces)
    end
  /\ (forall doc, load_cxbin fp = Ok doc ->
        cxbin_version doc = Some 1
        /\ compressed_bytes doc = None /\ uncompressed_bytes doc = None)
  /\ (forall fp' f' f1 f2 head_code vs fs meta doc',
        read_head fp' = Ok (head_code, f') -> head_code <> 1 ->
        _parse_mesh_block f' = Ok ((vs, fs, meta), f1) ->
        _read_int_le f1 = Ok (1, f2) ->
        load_cxbin fp' = Ok doc' ->
        cxbin_version doc' = Some 1
        /\ compressed_bytes doc' <> None /\ uncompressed_bytes doc' <> None).
Proof.
  intros Hh. split; [now apply load_cxbin_legacy|]. split.
  - intros doc. rewrite (load_cxbin_legacy _ Hh).
    destruct (_parse_material_block_v1_old f) as [[[[mats vs] fs] ?]|];
      [|discriminate].
    intros H; injection H as <-. repeat split.
  - intros fp' f' f1 f2 h vs fs meta doc' Hh' Hne Hg Hv.
    rewrite (load_cxbin_versioned _ Hh' Hne), Hg, Hv. simpl.
    destruct (_parse_material_block_v1_new f2) as [[mats ?]|]; [|discriminate].
    intros H; injection H as <-. repeat split; discriminate.
Qed.

(** C4 (amended).  When a versioned file (header code other than 1)
    decodes, [compressed_bytes] is the compressed-length field of its
    geometry block; when a legacy file (header code 1) decodes,
    [compressed_bytes] is unset. *)
Theorem C4_compressed_bytes (h4 pad t4 v4 f4 c4 more : bytes) (doc : CxbinMesh) :
  length h4 = 4%nat -> length pad = 12%nat ->
  length t4 = 4%nat -> length v4 = 4%nat -> length f4 = 4%nat ->
  length c4 = 4%nat ->
  load_cxbin (h4 ++ pad ++ t4 ++ v4 ++ f4 ++ c4 ++ more) = Ok doc ->
  (unpack_i h4 <> 1 -> compressed_bytes doc = Some (unpack_i c4))
  /\ (unpack_i h4 = 1 -> compressed_bytes doc = None).
Proof.
  intros Hh Hp Ht Hv Hf Hc Hdoc.
  pose proof (@read_head_app h4 pad (t4 ++ v4 ++ f4 ++ c4 ++ more) Hh Hp) as Hhead.
  split; intros Hcode.
  - destruct (_parse_mesh_block (t4 ++ v4 ++ f4 ++ c4 ++ more))
      as [[[[vs fs] meta] f1]|e] eqn:Hg.
    + destruct (load_cxbin_versioned_fields _ Hhead Hcode Hg Hdoc)
        as (_ & _ & E & _).
      rewrite E. f_equal.
      eapply parse_mesh_block_compressed;
        [exact Ht|exact Hv|exact Hf|exact Hc|exact Hg].
    + rewrite (load_cxbin_versioned _ Hhead Hcode), Hg in Hdoc. discriminate.
  - rewrite Hcode in Hhead. rewrite (load_cxbin_legacy _ Hhead) in Hdoc.
    destruct (_parse_material_block_v1_old _) as [[[[mats vs] fs] ?]|];
      [|discriminate].
    injection Hdoc as <-. reflexivity.
Qed.

End Dispatcher.

(** The one-triangle file with nothing after its geometry block. *)
Lemma C7_geometry_only_file_witness :
  exists doc,
    load_cxbin (libs := example_libs) triangle_file = Ok doc
    /\ cxbin_version doc = None
    /\ materials doc = None /\ uvs doc = None /\ face_uvs doc = None
    /\ vertices doc = [[0; 1065353216; 1073741824]] /\ faces doc = [[0; 0; 0]].
Proof.
  assert (Hne : 7 <> 1) by discriminate.
  exact (@C7_geometry_only_file example_libs triangle_file
           (skipn 16 triangle_file) 7
           [[0; 1065353216; 1073741824]] [[0; 0; 0]]
           {| meta_compressed_bytes := 35; meta_uncompressed_bytes := 24 |}
           eq_refl Hne eq_refl).
Defined.

(** The one-triangle file followed by the version field 5. *)
Lemma C9_version_value_is_surfaced_witness :
  exists doc,
    load_cxbin (libs := example_libs) version5_file = Ok doc
    /\ cxbin_version doc = Some 5
    /\ materials doc = None /\ uvs doc = None /\ face_uvs doc = None.
Proof.
  assert (Hne : 7 <> 1) by discriminate.
  assert (Hv : 5 <> 1) by discriminate.
  exact (@C9_version_value_is_surfaced example_libs version5_file
           (skipn 16 version5_file) (pack_i 5) [] 7 5
           [[0; 1065353216; 1073741824]] [[0; 0; 0]]
           {| meta_compressed_bytes := 35; meta_uncompressed_bytes := 24 |}
           eq_refl Hne eq_refl eq_refl Hv).
Defined.

(** The one-triangle file with and without a version field of 0. *)
Lemma C3_version_zero_vs_no_version_witness :
  exists d_zero d_none,
    load_cxbin (libs := example_libs) (triangle_file ++ pack_i 0 ++ []) = Ok d_zero
    /\ load_cxbin (libs := example_libs) triangle_file = Ok d_none
    /\ vertices d_zero = vertices d_none /\ faces d_zero = faces d_none
    /\ compressed_bytes d_zero = compressed_bytes d_none
    /\ uncompressed_bytes d_zero = uncompressed_bytes d_none
    /\ materials d_zero = None /\ materials d_none = None
    /\ uvs d_zero = None /\ uvs d_none = None
    /\ face_uvs d_zero = None /\ face_uvs d_none = None
    /\ cxbin_version d_zero = Some 0 /\ cxbin_version d_none = None.
Proof.
  assert (Hne : 7 <> 1) by discriminate.
  exact (@C3_version_zero_vs_no_version example_libs triangle_file
           (skipn 16 triangle_file) (pack_i 0) [] 7
           [[0; 1065353216; 1073741824]] [[0; 0; 0]]
           {| meta_compressed_bytes := 35; meta_uncompressed_bytes := 24 |}
           eq_refl Hne eq_refl eq_refl eq_refl).
Defined.

(** C3 as stated fails: with the version field 0 the document is not the
    one of the file without the field, since its version is 0, not
    [None]. *)
Lemma C3_counterexample :
  version0_file = triangle_file ++ pack_i 0
  /\ unpack_i (pack_i 0) = 0
  /\ exists d_zero d_none,
       load_cxbin (libs := example_libs) version0_file = Ok d_zero
       /\ load_cxbin (libs := example_libs) triangle_file = Ok d_none
       /\ cxbin_version d_zero = Some 0
       /\ cxbin_version d_none = None
       /\ d_zero <> d_none.
Proof.
  split; [reflexivity|]. split; [reflexivity|].
  eexists. eexists.
  split; [vm_compute; reflexivity|]. split; [vm_compute; reflexivity|].
  split; [reflexivity|]. split; [reflexivity|].
  intros H. apply (f_equal cxbin_version) in H. discriminate.
Qed.

(** The empty legacy file. *)
Lemma C2_legacy_version_is_one_witness :
  exists doc,
    load_cxbin (libs := example_libs) legacy_file = Ok doc
    /\ cxbin_version doc = Some 1
    /\ compressed_bytes doc = None /\ uncompressed_bytes doc = None.
Proof.
  destruct (@C2_legacy_version_is_one example_libs legacy_file
              (skipn 16 legacy_file) eq_refl) as (_ & Hleg & _).
  eexists. split; [vm_compute; reflexivity|].
  apply Hleg. vm_compute. reflexivity.
Defined.

(** C2 as stated fails: a legacy file (header code 1) and a versioned file
    (header code 7) with version field 1 decode to documents with the
    same version. *)
Lemma C2_counterexample :
  read_head legacy_file = Ok (1, skipn 16 legacy_file)
  /\ read_head v1_file = Ok (7, skipn 16 v1_file)
  /\ v1_file = triangle_file ++ pack_i 1 ++ new_material_block 0 0 0 0 0 [] 0 0 []
  /\ unpack_i (pack_i 1) = 1
  /\ exists d_legacy d_v1,
       load_cxbin (libs := example_libs) legacy_file = Ok d_legacy
       /\ load_cxbin (libs := example_libs) v1_file = Ok d_v1
       /\ cxbin_version d_legacy = cxbin_version d_v1.
Proof.
  repeat (split; [reflexivity|]).
  eexists. eexists.
  split; [vm_compute; reflexivity|]. split; [vm_compute; reflexivity|].
  reflexivity.
Qed.

(** The one-triangle file reports its compressed length, 35; the empty
    legacy file reports none. *)
Lemma C4_compressed_bytes_witness :
  (exists doc,
     load_cxbin (libs := example_libs) triangle_file = Ok doc
     /\ compressed_bytes doc = Some 35)
  /\ (exists doc,
        load_cxbin (libs := example_libs) legacy_file = Ok doc
        /\ compressed_bytes doc = None).
Proof.
  split.
  - eexists. split; [vm_compute; reflexivity|].
    refine (proj1 (@C4_compressed_bytes example_libs
              (pack_i 7) pad12 (pack_i 24) (pack_i 1) (pack_i 1) (pack_i 35)
              (Stored.compress triangle_payload) _
              eq_refl eq_refl eq_refl eq_refl eq_refl eq_refl _) _).
    + vm_compute. reflexivity.
    + vm_compute. discriminate.
  - eexists. split; [vm_compute; reflexivity|].
    refine (proj2 (@C4_compressed_bytes example_libs
              (pack_i 1) pad12 (pack_i 0) (pack_i 0) (pack_i 0) (pack_i 0)
              (skipn 32 legacy_file) _
              eq_refl eq_refl eq_refl eq_refl eq_refl eq_refl _) _).
    + vm_compute. reflexivity.
    + vm_compute. reflexivity.
Defined.

(** C4 as stated fails on the legacy path: the empty legacy file declares
    a compressed length of 11 and decodes, yet its document reports no
    compressed-bytes counter. *)
Lemma C4_counterexample :
  read_head legacy_file = Ok (1, skipn 16 legacy_file)
  /\ legacy_file
     = pack_i 1 ++ pad12
       ++ flat_map pack_i [0; 0; 0; 0; 0; 0; 0; 0; 0]
       ++ pack_i 11 ++ Stored.compress []
  /\ len (Stored.compress []) = 11
  /\ exists doc,
       load_cxbin (libs := example_libs) legacy_file = Ok doc
       /\ compressed_bytes doc = None
       /\ compressed_bytes doc <> Some 11.
Proof.
  repeat (split; [reflexivity|]).
  eexists. split; [vm_compute; reflexivity|].
  split; [reflexivity|discriminate].
Qed.

(** ** The cursor of the payload walkers *)

Lemma keeps_ret {A : Type} (raw : bytes) (a : A) : keeps_cursor raw (ret a).
Proof. intros p p' a' Hp H. injection H as _ <-. exact Hp. Qed.

Lemma keeps_lift {A : Type} (raw : bytes) (r : result A) :
  keeps_cursor raw (lift r).
Proof.
  intros p p' a Hp H. unfold lift in H.
  destruct r; [injection H as _ <-; exact Hp|discriminate].
Qed.

Lemma keeps_bind {A B : Type} (raw : bytes) (c : M Z A) (k : A -> M Z B) :
  keeps_cursor raw c -> (forall a, keeps_cursor raw (k a)) ->
  keeps_cursor raw (bind c k).
Proof.
  intros Hc Hk p p' b Hp H. unfold bind in H.
  destruct (c p) as [[a p1]|] eqn:E; [|discriminate].
  eapply Hk; [|exact H]. eapply Hc; eauto.
Qed.

Lemma keeps_take (raw : bytes) (msg : ValueError_msg) (n : Z) :
  0 < n -> keeps_cursor raw (take raw msg n).
Proof.
  intros Hn p p' b [Hp0 Hp1] H.
  destruct (take_inv _ _ Hp0 Hn H) as (-> & Hfit & _).
  unfold in_payload. lia.
Qed.

Lemma keeps_take_if (raw : bytes) (msg : ValueError_msg) (n : Z) :
  keeps_cursor raw (if n >? 0 then take raw msg n else ret []).
Proof.
  destruct (Z.gtb_spec n 0); [apply keeps_take; lia|apply keeps_ret].
Qed.

Lemma keeps_read_blocks (raw : bytes) (msg : ValueError_msg) (sizes : list Z) :
  forall blocks, keeps_cursor raw (read_blocks raw msg sizes blocks).
Proof.
  induction sizes as [|size sizes IH]; intros blocks; simpl.
  - apply keeps_ret.
  - apply keeps_bind; [apply keeps_take_if|intros; apply IH].
Qed.

(** [struct.unpack_from] succeeds on four bytes inside the payload. *)
Lemma unpack_from_i_ok (raw : bytes) (ptr : Z) :
  0 <= ptr -> ptr + 4 <= len raw ->
  unpack_from_i raw ptr
  = Ok (unpack_i (firstn 4 (skipn (Z.to_nat ptr) raw))).
Proof.
  intros Hp Hfit. unfold unpack_from_i.
  destruct (Z.ltb_spec ptr 0); [lia|].
  destruct (Z.leb_spec 0 ptr); [|lia].
  destruct (Z.leb_spec (ptr + 4) (len raw)); [|lia]. reflexivity.
Qed.


(** [read_ints] on a stream that starts with [4 * n] bytes. *)
Lemma read_ints_app (n : nat) :
  forall (b : bytes) (s : stream),
    length b = (4 * n)%nat ->
    exists xs, read_ints n (b ++ s) = Ok (xs, s) /\ length xs = n.
Proof.
  induction n as [|n IH]; intros b s Hb; simpl.
  - destruct b; [|simpl in Hb; lia]. exists []. auto.
  - rewrite <- (firstn_skipn 4 b), <- app_assoc.
    rewrite bind_read_int by (rewrite length_firstn; lia).
    destruct (IH (skipn 4 b) s) as (xs & Hxs & Lxs);
      [rewrite length_skipn; lia|].
    unfold bind at 1. rewrite Hxs.
    eexists; split; [reflexivity|]. simpl. now rewrite Lxs.
Qed.

Section Walkers.

Context {libs : Libs}.

Lemma keeps_read_uvs (raw : bytes) (msg : ValueError_msg) (n : Z) :
  keeps_cursor raw (read_uvs raw msg n).
Proof.
  unfold read_uvs. destruct (Z.gtb_spec n 0); [|apply keeps_ret].
  apply keeps_bind; [apply keeps_take; lia|intros].
  apply keeps_bind; [apply keeps_lift|intros; apply keeps_ret].
Qed.

Lemma keeps_read_face_uvs (raw : bytes) (msg : ValueError_msg) (n : Z) :
  keeps_cursor raw (read_face_uvs raw msg n).
Proof.
  unfold read_face_uvs. destruct (Z.gtb_spec n 0); [|apply keeps_ret].
  apply keeps_bind; [apply keeps_take; lia|intros].
  apply keeps_bind; [apply keeps_lift|intros; apply keeps_ret].
Qed.

Lemma keeps_read_texture_ids (raw : bytes) (msg : ValueError_msg) (n : Z) :
  keeps_cursor raw (read_texture_ids raw msg n).
Proof.
  unfold read_texture_ids. destruct (Z.gtb_spec n 0); [|apply keeps_ret].
  apply keeps_bind; [apply keeps_take; lia|intros].
  apply keeps_bind; [apply keeps_lift|intros; apply keeps_ret].
Qed.

Lemma keeps_read_material_name (raw : bytes) (msg : ValueError_msg) (n : Z) :
  keeps_cursor raw (read_material_name raw msg n).
Proof.
  unfold read_material_name. destruct (Z.gtb_spec n 0); [|apply keeps_ret].
  apply keeps_bind; [apply keeps_take; lia|intros; apply keeps_ret].
Qed.

End Walkers.

(** ** The texture maps of the new material block (C5) *)

Lemma slice_empty {A : Type} (l : list A) (p : Z) : 0 <= p -> slice l p p = [].
Proof.
  intros Hp. unfold slice. rewrite Z.sub_diag. reflexivity.
Qed.

Lemma maps_v1_new_stop (raw : bytes) (n : nat) (texs : list Texture) (ptr : Z) :
  ptr + 4 > len raw -> maps_v1_new raw n texs ptr = Ok (texs, ptr).
Proof.
  intros Hp. destruct n; [reflexivity|]. simpl. unfold bind, get_ptr.
  destruct (Z.gtb_spec (ptr + 4) (len raw)); [reflexivity|lia].
Qed.

Lemma maps_v1_new_step (raw : bytes) (n : nat) (texs : list Texture) (ptr : Z) :
  0 <= ptr -> ptr + 4 <= len raw ->
  let declared := unpack_i (firstn 4 (skipn (Z.to_nat ptr) raw)) in
  let size := clamped declared (len raw - (ptr + 4)) in
  let buf := slice raw (ptr + 4) (ptr + 4 + size) in
  len buf = size
  /\ maps_v1_new raw (S n) texs ptr
     = maps_v1_new raw n (texs ++ [new_texture buf]) (ptr + 4 + size).
Proof.
  intros Hp Hfit declared size buf.
  assert (Hsize : 0 <= size <= len raw - (ptr + 4)).
  { unfold size, clamped. destruct (Z.ltb_spec declared 0); lia. }
  assert (Hlen : len buf = size).
  { unfold buf. rewrite len_slice by lia. lia. }
  split; [exact Hlen|].
  cbn [maps_v1_new]. unfold bind at 1, get_ptr.
  destruct (Z.gtb_spec (ptr + 4) (len raw)); [lia|].
  unfold bind at 1, unpack_at. rewrite unpack_from_i_ok by lia.
  cbn [lift]. unfold bind at 1, advance. unfold bind at 1.
  fold declared.
  set (b1 := if declared <? 0 then 0 else declared).
  set (b2 := if ptr + 4 + b1 >? len raw then Z.max 0 (len raw - (ptr + 4)) else b1).
  assert (Hb2 : b2 = size).
  { unfold b2, b1, size, clamped.
    destruct (Z.ltb_spec declared 0);
      match goal with |- context [?a >? ?b] => destruct (Z.gtb_spec a b) end;
      lia. }
  rewrite Hb2. unfold bind at 1.
  destruct (Z.eqb_spec size 0) as [E|E].
  - unfold ret at 1. fold buf.
    assert (buf = []) as Hnil by (unfold buf; rewrite E, Z.add_0_r; apply slice_empty; lia).
    rewrite Hnil, E, Z.add_0_r. reflexivity.
  - destruct (@take_ok raw MaterialBlockTruncated size (ptr + 4)) as [Ht _];
      [lia|lia|lia|].
    rewrite Ht. reflexivity.
Qed.

(** The map loop never raises: from a cursor inside the payload it
    returns the textures it was given followed by at most [n] more. *)
Lemma maps_v1_new_total (raw : bytes) (n : nat) :
  forall (texs : list Texture) (ptr : Z),
    in_payload raw ptr ->
    exists more ptr',
      maps_v1_new raw n texs ptr = Ok (texs ++ more, ptr')
      /\ (length more <= n)%nat /\ in_payload raw ptr'.
Proof.
  induction n as [|n IH]; intros texs ptr Hp.
  - exists [], ptr. rewrite app_nil_r. split; [reflexivity|]. split; [simpl; lia|exact Hp].
  - destruct (Z_gt_le_dec (ptr + 4) (len raw)) as [Hout|Hin].
    + exists [], ptr. rewrite app_nil_r, maps_v1_new_stop by assumption.
      split; [reflexivity|]. split; [simpl; lia|exact Hp].
    + destruct Hp as [Hp0 Hp1].
      destruct (@maps_v1_new_step raw n texs ptr Hp0 Hin) as [Hl Hstep].
      rewrite Hstep.
      set (size := clamped _ _) in *. set (buf := slice raw _ _) in *.
      assert (Hsize : 0 <= size <= len raw - (ptr + 4)).
      { unfold size, clamped.
        match goal with |- context [?a <? 0] => destruct (Z.ltb_spec a 0) end;
          lia. }
      destruct (IH (texs ++ [new_texture buf]) (ptr + 4 + size))
        as (more & ptr' & Hm & Hn & Hp'); [unfold in_payload; lia|].
      exists (new_texture buf :: more), ptr'.
      rewrite Hm, <- app_assoc. repeat split; try apply Hp'. simpl. lia.
Qed.

Section NewMaterialBlock.

Context {libs : Libs}.

(** Once the fields before the maps have been read, the walk of the new
    material block returns a value. *)
Lemma walk_v1_new_succeeds (raw : bytes)
      (uv_num face_uv_num texture_id_num : Z) (material_sizes : list Z)
      (mtl_name_len map_type_count : Z)
      u fu t b nm (p1 p2 p3 p4 p5 : Z) :
  let msg := MaterialBlockTruncated in
  read_uvs raw msg uv_num 0 = Ok (u, p1) ->
  read_face_uvs raw msg face_uv_num p1 = Ok (fu, p2) ->
  read_texture_ids raw msg texture_id_num p2 = Ok (t, p3) ->
  read_blocks raw msg material_sizes [] p3 = Ok (b, p4) ->
  read_material_name raw msg mtl_name_len p4 = Ok (nm, p5) ->
  exists texs p6,
    maps_v1_new raw (Z.to_nat (Z.max 0 map_type_count)) [] p5 = Ok (texs, p6)
    /\ walk_v1_new raw uv_num face_uv_num texture_id_num material_sizes
         mtl_name_len map_type_count 0
       = Ok ({| material_blocks := b; material_name := nm; textures := texs;
                texture_ids := t; _uvs_internal := u;
                _face_uvs_internal := fu |}, p6).
Proof.
  intros msg H1 H2 H3 H4 H5.
  assert (I0 : in_payload raw 0) by (split; [lia|apply len_nonneg]).
  pose proof (@keeps_read_uvs raw msg uv_num _ _ _ I0 H1) as I1.
  pose proof (@keeps_read_face_uvs raw msg face_uv_num _ _ _ I1 H2) as I2.
  pose proof (@keeps_read_texture_ids raw msg texture_id_num _ _ _ I2 H3) as I3.
  pose proof (@keeps_read_blocks raw msg material_sizes [] _ _ _ I3 H4) as I4.
  pose proof (@keeps_read_material_name _ raw msg mtl_name_len _ _ _ I4 H5) as I5.
  destruct (@maps_v1_new_total raw (Z.to_nat (Z.max 0 map_type_count)) [] p5 I5)
    as (texs & p6 & Hm & _ & _).
  exists texs, p6. split; [exact Hm|].
  unfold walk_v1_new, bind. fold msg. rewrite H1, H2, H3, H4, H5, Hm.
  reflexivity.
Qed.


End NewMaterialBlock.

(** ** The texture maps of the legacy block (C6) *)

Section LegacyBlock.

Context {libs : Libs}.

Lemma maps_v1_old_stop (raw : bytes) (n : nat) (texs : list Texture) (ptr : Z) :
  ptr + 8 > len raw -> maps_v1_old raw n texs ptr = Ok (texs, ptr).
Proof.
  intros Hp. destruct n; [reflexivity|]. simpl. unfold bind, get_ptr.
  destruct (Z.gtb_spec (ptr + 8) (len raw)); [reflexivity|lia].
Qed.

(** One iteration of the legacy map loop, up to the two dimensions. *)
Lemma maps_v1_old_dims (raw : bytes) (n : nat) (texs : list Texture)
      (ptr width height : Z) :
  0 <= ptr -> ptr + 8 <= len raw ->
  unpack_from_i raw ptr = Ok width ->
  unpack_from_i raw (ptr + 4) = Ok height ->
  maps_v1_old raw (S n) texs ptr =
  if (width <=? 0) || (height <=? 0)
  then maps_v1_old raw n
         (texs ++ [{| data := []; is_png := false;
                      size_hint := Some (width, height) |}]) (ptr + 4 + 4)
  else
    let byte_count := width * height * 4 in
    let byte_count := if ptr + 4 + 4 + byte_count >? len raw
                      then Z.max 0 (len raw - (ptr + 4 + 4)) else byte_count in
    match (if byte_count >? 0
           then take raw OldV1BlockTruncated byte_count
           else ret []) (ptr + 4 + 4) with
    | Raise e => Raise e
    | Ok (rgba, ptr') =>
        match _try_png_bytes_from_rgba width height rgba with
        | Some png =>
            maps_v1_old raw n
              (texs ++ [{| data := png; is_png := true;
                           size_hint := Some (width, height) |}]) ptr'
        | None =>
            maps_v1_old raw n
              (texs ++ [{| data := rgba; is_png := false;
                           size_hint := Some (width, height) |}]) ptr'
        end
    end.
Proof.
  intros Hp Hfit Hw Hh.
  cbn [maps_v1_old]. unfold bind at 1, get_ptr.
  destruct (Z.gtb_spec (ptr + 8) (len raw)); [lia|].
  unfold bind at 1, unpack_at. rewrite Hw. cbn [lift].
  unfold bind at 1, advance. unfold bind at 1. rewrite Hh. cbn [lift].
  unfold bind at 1.
  destruct ((width <=? 0) || (height <=? 0)); [reflexivity|].
  unfold bind at 1. unfold bind at 1. cbv zeta.
  match goal with
  | |- match ?c with _ => _ end = _ => destruct c as [[rgba p']|]; [|reflexivity]
  end.
  destruct (_try_png_bytes_from_rgba width height rgba); reflexivity.
Qed.

(** With positive dimensions the iteration reads the pixel bytes that are
    there, at most [width * height * 4] of them, and cannot raise. *)
Lemma maps_v1_old_step (raw : bytes) (n : nat) (texs : list Texture)
      (ptr width height : Z) :
  0 <= ptr -> ptr + 8 <= len raw ->
  unpack_from_i raw ptr = Ok width ->
  unpack_from_i raw (ptr + 4) = Ok height ->
  0 < width -> 0 < height ->
  let size := Z.min (width * height * 4) (len raw - (ptr + 8)) in
  let rgba := slice raw (ptr + 8) (ptr + 8 + size) in
  len rgba = size
  /\ maps_v1_old raw (S n) texs ptr =
     match png_encode width height rgba with
     | Some png =>
         maps_v1_old raw n
           (texs ++ [{| data := png; is_png := true;
                        size_hint := Some (width, height) |}]) (ptr + 8 + size)
     | None =>
         maps_v1_old raw n
           (texs ++ [{| data := rgba; is_png := false;
                        size_hint := Some (width, height) |}]) (ptr + 8 + size)
     end.
Proof.
  intros Hp Hfit Hw Hh Hwp Hhp size rgba.
  assert (Hsize : 0 <= size <= len raw - (ptr + 8)) by (unfold size; nia).
  assert (Hlen : len rgba = size).
  { unfold rgba. rewrite len_slice by lia. lia. }
  split; [exact Hlen|].
  rewrite (@maps_v1_old_dims raw n texs ptr width height Hp Hfit Hw Hh).
  destruct (Z.leb_spec width 0); [lia|].
  destruct (Z.leb_spec height 0); [lia|]. cbn [orb].
  replace (ptr + 4 + 4) with (ptr + 8) by lia.
  set (b := if ptr + 8 + width * height * 4 >? len raw
            then Z.max 0 (len raw - (ptr + 8)) else width * height * 4).
  assert (Hb : b = size).
  { unfold b, size.
    destruct (Z.gtb_spec (ptr + 8 + width * height * 4) (len raw)); lia. }
  cbv zeta. fold b. rewrite Hb. unfold _try_png_bytes_from_rgba.
  destruct (Z.gtb_spec size 0) as [E|E].
  - destruct (@take_ok raw OldV1BlockTruncated size (ptr + 8)) as [Ht _];
      [lia|lia|lia|].
    rewrite Ht. reflexivity.
  - assert (E0 : size = 0) by lia.
    assert (Hnil : rgba = [])
      by (unfold rgba; rewrite E0, Z.add_0_r; apply slice_empty; lia).
    unfold ret. fold rgba. rewrite Hnil, E0, Z.add_0_r. reflexivity.
Qed.

(** The legacy map loop never raises. *)
Lemma maps_v1_old_total (raw : bytes) (n : nat) :
  forall (texs : list Texture) (ptr : Z),
    in_payload raw ptr ->
    exists more ptr',
      maps_v1_old raw n texs ptr = Ok (texs ++ more, ptr')
      /\ (length more <= n)%nat /\ in_payload raw ptr'.
Proof.
  induction n as [|n IH]; intros texs ptr Hp.
  - exists [], ptr. rewrite app_nil_r.
    split; [reflexivity|]. split; [simpl; lia|exact Hp].
  - destruct (Z_gt_le_dec (ptr + 8) (len raw)) as [Hout|Hin].
    + exists [], ptr. rewrite app_nil_r, maps_v1_old_stop by assumption.
      split; [reflexivity|]. split; [simpl; lia|exact Hp].
    + destruct Hp as [Hp0 Hp1].
      pose proof (@unpack_from_i_ok raw ptr Hp0 ltac:(lia)) as Hw.
      pose proof (@unpack_from_i_ok raw (ptr + 4) ltac:(lia) ltac:(lia)) as Hh.
      set (width := unpack_i _) in Hw. set (height := unpack_i _) in Hh.
      assert (Hnext : forall t p, in_payload raw p ->
                exists more ptr',
                  maps_v1_old raw n (texs ++ [t]) p = Ok (texs ++ more, ptr')
                  /\ (length more <= S n)%nat /\ in_payload raw ptr').
      { intros t p Hpp. destruct (IH (texs ++ [t]) p Hpp) as (m & p' & Hm & Hn & Hp').
        exists (t :: m), p'. rewrite Hm, <- app_assoc.
        split; [reflexivity|]. split; [simpl; lia|exact Hp']. }
      destruct (Z_le_gt_dec width 0) as [Hw0|Hw0];
        [|destruct (Z_le_gt_dec height 0) as [Hh0|Hh0]].
      * rewrite (@maps_v1_old_dims raw n texs ptr width height Hp0 Hin Hw Hh).
        destruct (Z.leb_spec width 0); [|lia]. cbn [orb].
        apply Hnext. unfold in_payload. lia.
      * rewrite (@maps_v1_old_dims raw n texs ptr width height Hp0 Hin Hw Hh).
        destruct (Z.leb_spec height 0); [|lia]. rewrite orb_true_r.
        apply Hnext. unfold in_payload. lia.
      * destruct (@maps_v1_old_step raw n texs ptr width height
                    Hp0 Hin Hw Hh ltac:(lia) ltac:(lia)) as [Hl Hstep].
        rewrite Hstep.
        assert (in_payload raw
                  (ptr + 8 + Z.min (width * height * 4) (len raw - (ptr + 8))))
          by (unfold in_payload; nia).
        destruct (png_encode width height _); apply Hnext; assumption.
Qed.

(** Once the fields before the maps have been read, the walk of the
    legacy block returns a value. *)
Lemma walk_v1_old_succeeds (raw : bytes)
      (vert_num face_num uv_num face_uv_num texture_id_num : Z)
      (material_sizes : list Z) (mtl_name_len map_type_count : Z)
      vb vs fb fs u fu t b nm (p1 p2 p3 p4 p5 p6 p7 : Z) :
  let msg := OldV1BlockTruncated in
  (if vert_num >? 0 then take raw msg (vert_num * 3 * 4) else ret []) 0
  = Ok (vb, p1) ->
  (if vert_num >? 0 then frombuffer_reshape vb float32 vert_num 3 else Ok [])
  = Ok vs ->
  (if face_num >? 0 then take raw msg (face_num * 3 * 4) else ret []) p1
  = Ok (fb, p2) ->
  (if face_num >? 0 then frombuffer_reshape fb int32 face_num 3 else Ok [])
  = Ok fs ->
  read_uvs raw msg uv_num p2 = Ok (u, p3) ->
  read_face_uvs raw msg face_uv_num p3 = Ok (fu, p4) ->
  read_texture_ids raw msg texture_id_num p4 = Ok (t, p5) ->
  read_blocks raw msg material_sizes [] p5 = Ok (b, p6) ->
  read_material_name raw msg mtl_name_len p6 = Ok (nm, p7) ->
  exists texs p8,
    maps_v1_old raw (Z.to_nat (Z.max 0 map_type_count)) [] p7 = Ok (texs, p8)
    /\ walk_v1_old raw vert_num face_num uv_num face_uv_num texture_id_num
         material_sizes mtl_name_len map_type_count 0
       = Ok (({| material_blocks := b; material_name := nm; textures := texs;
                 texture_ids := t; _uvs_internal := u;
                 _face_uvs_internal := fu |}, vs, fs), p8).
Proof.
  intros msg Hvb Hvs Hfb Hfs H3 H4 H5 H6 H7.
  assert (I0 : in_payload raw 0) by (split; [lia|apply len_nonneg]).
  assert (I1 : in_payload raw p1).
  { revert Hvb. destruct (Z.gtb_spec vert_num 0).
    - apply keeps_take; [lia|exact I0].
    - apply keeps_ret; exact I0. }
  assert (I2 : in_payload raw p2).
  { revert Hfb. destruct (Z.gtb_spec face_num 0).
    - apply keeps_take; [lia|exact I1].
    - apply keeps_ret; exact I1. }
  pose proof (@keeps_read_uvs raw msg uv_num _ _ _ I2 H3) as I3.
  pose proof (@keeps_read_face_uvs raw msg face_uv_num _ _ _ I3 H4) as I4.
  pose proof (@keeps_read_texture_ids raw msg texture_id_num _ _ _ I4 H5) as I5.
  pose proof (@keeps_read_blocks raw msg material_sizes [] _ _ _ I5 H6) as I6.
  pose proof (@keeps_read_material_name _ raw msg mtl_name_len _ _ _ I6 H7) as I7.
  destruct (@maps_v1_old_total raw (Z.to_nat (Z.max 0 map_type_count)) [] p7 I7)
    as (texs & p8 & Hm & _ & _).
  exists texs, p8. split; [exact Hm|].
  unfold walk_v1_old. fold msg. unfold bind at 1. rewrite Hvb.
  unfold bind at 1, lift at 1. rewrite Hvs.
  unfold bind at 1. rewrite Hfb.
  unfold bind at 1, lift at 1. rewrite Hfs.
  unfold bind. rewrite H3, H4, H5, H6, H7, Hm. reflexivity.
Qed.


End LegacyBlock.

(** ** Decompression with an expected size, and the material blobs (C8, C10) *)

(** Peel the first [bind] of a computation known to succeed. *)
Ltac peel H :=
  unfold bind at 1 in H;
  match type of H with
  | match ?c with _ => _ end = _ =>
      let E := fresh "E" in
      destruct c as [[? ?]|] eqn:E; [|discriminate H]
  end.




Section MaterialParsers.

Context {libs : Libs}.

(** The new material parser on a laid-out block: what is left is the
    decompression of the payload and the walk over it. *)
Lemma parse_material_block_v1_new_app
      (T4 U4 FU4 TI4 M4 S4 N4 K4 C4 cdata rest : bytes) :
  length T4 = 4%nat -> length U4 = 4%nat -> length FU4 = 4%nat ->
  length TI4 = 4%nat -> length M4 = 4%nat ->
  length S4 = (4 * Z.to_nat (unpack_i M4))%nat ->
  length N4 = 4%nat -> length K4 = 4%nat -> length C4 = 4%nat ->
  len cdata = unpack_i C4 ->
  exists sizes,
    length sizes = Z.to_nat (unpack_i M4)
    /\ _parse_material_block_v1_new
         (T4 ++ U4 ++ FU4 ++ TI4 ++ M4 ++ S4 ++ N4 ++ K4 ++ C4 ++ cdata ++ rest)
       = match _zlib_decompress cdata (Some (unpack_i T4)) with
         | Raise e => Raise e
         | Ok raw =>
             match from_start
                     (walk_v1_new raw (unpack_i U4) (unpack_i FU4) (unpack_i TI4)
                        sizes (unpack_i N4) (unpack_i K4)) with
             | Raise e => Raise e
             | Ok mats => Ok (mats, rest)
             end
         end.
Proof.
  intros HT HU HFU HTI HM HS HN HK HC Hcd.
  destruct (@read_ints_app (Z.to_nat (unpack_i M4)) S4
              (N4 ++ K4 ++ C4 ++ cdata ++ rest) HS) as (sizes & Hsz & Lsz).
  exists sizes. split; [exact Lsz|].
  unfold _parse_material_block_v1_new. read_fields.
  unfold bind at 1. rewrite Hsz. read_fields.
  unfold bind, lift. destruct (_zlib_decompress cdata _); [|reflexivity].
  destruct (from_start _); reflexivity.
Qed.

(** The same for the legacy parser. *)
Lemma parse_material_block_v1_old_app
      (T4 V4 F4 U4 FU4 TI4 M4 S4 N4 K4 C4 cdata rest : bytes) :
  length T4 = 4%nat -> length V4 = 4%nat -> length F4 = 4%nat ->
  length U4 = 4%nat -> length FU4 = 4%nat ->
  length TI4 = 4%nat -> length M4 = 4%nat ->
  length S4 = (4 * Z.to_nat (unpack_i M4))%nat ->
  length N4 = 4%nat -> length K4 = 4%nat -> length C4 = 4%nat ->
  len cdata = unpack_i C4 ->
  exists sizes,
    length sizes = Z.to_nat (unpack_i M4)
    /\ _parse_material_block_v1_old
         (T4 ++ V4 ++ F4 ++ U4 ++ FU4 ++ TI4 ++ M4 ++ S4 ++ N4 ++ K4 ++ C4
          ++ cdata ++ rest)
       = match _zlib_decompress cdata (Some (unpack_i T4)) with
         | Raise e => Raise e
         | Ok raw =>
             match from_start
                     (walk_v1_old raw (unpack_i V4) (unpack_i F4) (unpack_i U4)
                        (unpack_i FU4) (unpack_i TI4) sizes (unpack_i N4)
                        (unpack_i K4)) with
             | Raise e => Raise e
             | Ok r => Ok (r, rest)
             end
         end.
Proof.
  intros HT HV HF HU HFU HTI HM HS HN HK HC Hcd.
  destruct (@read_ints_app (Z.to_nat (unpack_i M4)) S4
              (N4 ++ K4 ++ C4 ++ cdata ++ rest) HS) as (sizes & Hsz & Lsz).
  exists sizes. split; [exact Lsz|].
  unfold _parse_material_block_v1_old. read_fields.
  unfold bind at 1. rewrite Hsz. read_fields.
  unfold bind, lift. destruct (_zlib_decompress cdata _); [|reflexivity].
  destruct (from_start _); reflexivity.
Qed.

(** C8.  When [zlib.decompress] returns a buffer whose length is not the
    expected one, [_zlib_decompress] raises the size-mismatch error with
    the length got and the length expected.  Both material parsers
    decompress their payload with the declared total size as the expected
    length, so each of them raises that error, and [load_cxbin] passes on
    whatever the new material parser raises. *)
Theorem C8_decompressed_size_mismatch (buf raw : bytes) (expected : Z) :
  zlib_decompress buf = Some raw -> len raw <> expected ->
  let err := ValueError (DecompressedSizeMismatch (len raw) expected) in
  _zlib_decompress buf (Some expected) = Raise err
  /\ (forall T4 U4 FU4 TI4 M4 S4 N4 K4 C4 rest,
        length T4 = 4%nat -> length U4 = 4%nat -> length FU4 = 4%nat ->
        length TI4 = 4%nat -> length M4 = 4%nat ->
        length S4 = (4 * Z.to_nat (unpack_i M4))%nat ->
        length N4 = 4%nat -> length K4 = 4%nat -> length C4 = 4%nat ->
        len buf = unpack_i C4 -> unpack_i T4 = expected ->
        _parse_material_block_v1_new
          (T4 ++ U4 ++ FU4 ++ TI4 ++ M4 ++ S4 ++ N4 ++ K4 ++ C4 ++ buf ++ rest)
        = Raise err)
  /\ (forall T4 V4 F4 U4 FU4 TI4 M4 S4 N4 K4 C4 rest,
        length T4 = 4%nat -> length V4 = 4%nat -> length F4 = 4%nat ->
        length U4 = 4%nat -> length FU4 = 4%nat ->
        length TI4 = 4%nat -> length M4 = 4%nat ->
        length S4 = (4 * Z.to_nat (unpack_i M4))%nat ->
        length N4 = 4%nat -> length K4 = 4%nat -> length C4 = 4%nat ->
        len buf = unpack_i C4 -> unpack_i T4 = expected ->
        _parse_material_block_v1_old
          (T4 ++ V4 ++ F4 ++ U4 ++ FU4 ++ TI4 ++ M4 ++ S4 ++ N4 ++ K4 ++ C4
           ++ buf ++ rest)
        = Raise err)
  /\ (forall fp f f1 f2 head_code vs fs meta e,
        read_head fp = Ok (head_code, f) -> head_code <> 1 ->
        _parse_mesh_block f = Ok ((vs, fs, meta), f1) ->
        _read_int_le f1 = Ok (1, f2) ->
        _parse_material_block_v1_new f2 = Raise e ->
        load_cxbin fp = Raise e).
Proof.
  intros Hz Hne err.
  assert (Hd : _zlib_decompress buf (Some expected) = Raise err).
  { unfold _zlib_decompress. rewrite Hz.
    destruct (Z.eqb_spec (len raw) expected); [contradiction|]. reflexivity. }
  split; [exact Hd|]. split; [|split].
  - intros T4 U4 FU4 TI4 M4 S4 N4 K4 C4 rest HT HU HFU HTI HM HS HN HK HC Hb HTe.
    destruct (@parse_material_block_v1_new_app T4 U4 FU4 TI4 M4 S4 N4 K4 C4
                buf rest HT HU HFU HTI HM HS HN HK HC Hb) as (sizes & _ & ->).
    rewrite HTe, Hd. reflexivity.
  - intros T4 V4 F4 U4 FU4 TI4 M4 S4 N4 K4 C4 rest
           HT HV HF HU HFU HTI HM HS HN HK HC Hb HTe.
    destruct (@parse_material_block_v1_old_app T4 V4 F4 U4 FU4 TI4 M4 S4 N4 K4
                C4 buf rest HT HV HF HU HFU HTI HM HS HN HK HC Hb)
      as (sizes & _ & ->).
    rewrite HTe, Hd. reflexivity.
  - intros fp f f1 f2 h vs fs meta e Hh Hcode Hg Hv Hm.
    rewrite (load_cxbin_versioned _ Hh Hcode), Hg, Hv, Hm. reflexivity.
Qed.

End MaterialParsers.

Section MaterialBlobs.

Context {libs : Libs}.




End MaterialBlobs.



(** A material block that declares 5 decompressed bytes and holds 2. *)
Lemma C8_decompressed_size_mismatch_witness :
  let err := ValueError (DecompressedSizeMismatch 2 5) in
  _zlib_decompress (libs := example_libs) (Stored.compress [x61; x62]) (Some 5)
  = Raise err
  /\ _parse_material_block_v1_new (libs := example_libs) mismatch_block
     = Raise err
  /\ load_cxbin (libs := example_libs) mismatch_file = Raise err.
Proof.
  assert (Hne : len [x61; x62] <> 5) by (vm_compute; discriminate).
  destruct (@C8_decompressed_size_mismatch example_libs
              (Stored.compress [x61; x62]) [x61; x62] 5 eq_refl Hne)
    as (H1 & H2 & _ & H4).
  assert (Hblock : _parse_material_block_v1_new (libs := example_libs)
                     mismatch_block
                   = Raise (ValueError (DecompressedSizeMismatch 2 5))).
  { exact (H2 (pack_i 5) (pack_i 0) (pack_i 0) (pack_i 0) (pack_i 0) []
              (pack_i 0) (pack_i 0) (pack_i 13) []
              eq_refl eq_refl eq_refl eq_refl eq_refl eq_refl
              eq_refl eq_refl eq_refl eq_refl eq_refl). }
  split; [exact H1|]. split; [exact Hblock|].
  assert (Hcode : 7 <> 1) by discriminate.
  exact (H4 mismatch_file (skipn 16 mismatch_file)
            (pack_i 1 ++ mismatch_block) mismatch_block 7
            [[0; 1065353216; 1073741824]] [[0; 0; 0]]
            {| meta_compressed_bytes := 35; meta_uncompressed_bytes := 24 |}
            _ eq_refl Hcode eq_refl eq_refl Hblock).
Defined.



(** ** Whole files *)

(** The stored-block stream of the empty payload is the 11-byte stream
    [78 01 01 00 00 ff ff 00 00 00 01]. *)
Example stored_empty_stream :
  Stored.compress [] = [x78; x01; x01; x00; x00; xff; xff; x00; x00; x00; x01]
  /\ Stored.decompress (Stored.compress []) = Some [].
Proof. split; reflexivity. Qed.

Example stored_round_trip :
  Stored.decompress (Stored.compress legacy_texture_payload)
  = Some legacy_texture_payload.
Proof. vm_compute. reflexivity. Qed.

(** The versioned file with three texture maps decodes to three textures:
    the declared 2 bytes, nothing for the size -5, and the 3 bytes left of
    the declared 100. *)
Example texture_file_decodes :
  exists doc mats,
    load_cxbin (libs := example_libs) texture_file = Ok doc
    /\ materials doc = Some mats
    /\ map data (textures mats) = [[x61; x62]; []; [x63; x64; x65]]
    /\ map size_hint (textures mats) = [None; None; None].
Proof.
  eexists. eexists. split; [vm_compute; reflexivity|].
  split; [reflexivity|]. split; reflexivity.
Qed.

(** The legacy file with a complete 4 x 2 map and a truncated 2 x 2 map
    decodes; the first texture is PNG, the second keeps its 3 raw bytes. *)
Example legacy_texture_file_decodes :
  exists doc mats,
    load_cxbin (libs := example_libs) legacy_texture_file = Ok doc
    /\ materials doc = Some mats
    /\ map is_png (textures mats) = [true; false]
    /\ map size_hint (textures mats) = [Some (4, 2); Some (2, 2)]
    /\ nth_error (map data (textures mats)) 1 = Some [x01; x02; x03].
Proof.
  eexists. eexists. split; [vm_compute; reflexivity|].
  split; [reflexivity|]. repeat split; reflexivity.
Qed.

(** ** The byte cursor *)

Lemma firstn_app_exact {A : Type} (a b : list A) (n : nat) :
  length a = n -> firstn n (a ++ b) = a.
Proof.
  intros <-. rewrite firstn_app, Nat.sub_diag, firstn_all. simpl.
  apply app_nil_r.
Qed.

Lemma skipn_app_exact {A : Type} (a b : list A) (n : nat) :
  length a = n -> skipn n (a ++ b) = b.
Proof.
  intros <-. rewrite skipn_app, Nat.sub_diag, skipn_all. reflexivity.
Qed.

(** What a successful exact read returned and left. *)
Lemma read_exact_inv (n : Z) (s s' : stream) (b : bytes) :
  _read_exact n s = Ok (b, s') -> 0 <= n /\ len b = n /\ s = b ++ s'.
Proof.
  unfold _read_exact, file_read. destruct (Z.ltb_spec n 0) as [Hn|Hn].
  - pose proof (len_nonneg s).
    destruct (Z.eqb_spec (len s) n); [lia|discriminate].
  - destruct (Z.eqb_spec (len (firstn (Z.to_nat n) s)) n) as [E|E];
      [|discriminate].
    intros H. injection H as <- <-.
    split; [exact Hn|]. split; [exact E|]. symmetry. apply firstn_skipn.
Qed.

Lemma read_int_le_inv (s s' : stream) (x : Z) :
  _read_int_le s = Ok (x, s') ->
  exists b, length b = 4%nat /\ s = b ++ s' /\ x = unpack_i b.
Proof.
  unfold _read_int_le, bind, ret.
  destruct (_read_exact 4 s) as [[b s1]|] eqn:E; [|discriminate].
  intros H. injection H as <- <-.
  destruct (read_exact_inv _ _ E) as (_ & Hl & Hs).
  exists b. unfold len in Hl. repeat split; [lia|exact Hs].
Qed.

(** A negative length, or a stream that is too short, raises [EOFError]. *)
Lemma read_exact_short (n : Z) (s : stream) :
  n < 0 \/ len s < n -> _read_exact n s = Raise EOFError.
Proof.
  intros H. unfold _read_exact, file_read. pose proof (len_nonneg s) as Hs.
  destruct (Z.ltb_spec n 0) as [Hn|Hn].
  - destruct (Z.eqb_spec (len s) n); [lia|reflexivity].
  - assert (Hl : len (firstn (Z.to_nat n) s) = Z.min n (len s))
      by (unfold len; rewrite length_firstn; lia).
    rewrite Hl. destruct (Z.eqb_spec (Z.min n (len s)) n); [lia|reflexivity].
Qed.

(** A stream that holds [n] bytes or more gives them. *)
Lemma read_exact_enough (n : Z) (s : stream) :
  0 <= n <= len s ->
  _read_exact n s = Ok (firstn (Z.to_nat n) s, skipn (Z.to_nat n) s).
Proof.
  intros Hn. rewrite <- (firstn_skipn (Z.to_nat n) s) at 1.
  apply read_exact_app. unfold len in *. rewrite length_firstn. lia.
Qed.

(** X1.  [_read_exact(f, n)] succeeds exactly when [n] is non-negative
    and the stream starts with [n] bytes; it then returns those bytes and
    leaves the rest unread.  In every other case -- a negative [n], or a
    stream shorter than [n] -- it raises [EOFError]. *)
Theorem X1_read_exact_exactly (n : Z) (s s' : stream) (b : bytes) :
  (_read_exact n s = Ok (b, s') <-> 0 <= n /\ len b = n /\ s = b ++ s')
  /\ (_read_exact n s = Raise EOFError <-> n < 0 \/ len s < n)
  /\ (forall e, _read_exact n s = Raise e -> e = EOFError).
Proof.
  split; [|split].
  - split; [apply read_exact_inv|].
    intros (Hn & Hl & ->). now apply read_exact_app.
  - unfold _read_exact, file_read. pose proof (len_nonneg s) as Hs.
    destruct (Z.ltb_spec n 0) as [Hn|Hn].
    + destruct (Z.eqb_spec (len s) n); [lia|]. split; auto.
    + assert (Hl : len (firstn (Z.to_nat n) s) = Z.min n (len s))
        by (unfold len; rewrite length_firstn; lia).
      rewrite Hl. destruct (Z.eqb_spec (Z.min n (len s)) n).
      * split; [discriminate|lia].
      * split; [intros _; lia|reflexivity].
  - intros e. unfold _read_exact. destruct (file_read n s) as [b0 f0].
    destruct (len b0 =? n); [discriminate|]. intros H. now injection H as <-.
Qed.

Lemma X1_read_exact_exactly_witness :
  _read_exact 2 [x61; x62; x63] = Ok ([x61; x62], [x63])
  /\ _read_exact 4 [x61; x62; x63] = Raise EOFError
  /\ _read_exact (-1) [x61; x62; x63] = Raise EOFError.
Proof.
  split; [|split].
  - apply (proj1 (X1_read_exact_exactly 2 [x61; x62; x63] [x63] [x61; x62])).
    split; [lia|]. split; reflexivity.
  - apply (proj1 (proj2 (X1_read_exact_exactly 4 [x61; x62; x63] [] []))).
    right. vm_compute. reflexivity.
  - apply (proj1 (proj2 (X1_read_exact_exactly (-1) [x61; x62; x63] [] []))).
    left. lia.
Defined.

(** The unsigned value of [k] bytes is below [256 ^ k]. *)
Lemma byte_val_range (x : byte) : 0 <= byte_val x < 256.
Proof.
  unfold byte_val. pose proof (Byte.to_N_bounded x). lia.
Qed.

Lemma uint_le_range (b : bytes) : 0 <= uint_le b < 256 ^ len b.
Proof.
  induction b as [|x b IH].
  - simpl. lia.
  - cbn [uint_le]. pose proof (byte_val_range x).
    replace (len (x :: b)) with (Z.succ (len b)) by (unfold len; simpl; lia).
    rewrite Z.pow_succ_r by apply len_nonneg. lia.
Qed.

Lemma byte_val_of_Z (z : Z) : byte_val (byte_of_Z z) = z mod 256.
Proof.
  unfold byte_of_Z, byte_val.
  assert (Hm : 0 <= z mod 256 < 256) by (apply Z.mod_pos_bound; lia).
  destruct (Byte.of_N (Z.to_N (z mod 256))) as [b|] eqn:E.
  - apply Byte.to_of_N in E. rewrite E. lia.
  - apply Byte.of_N_None_iff in E. lia.
Qed.

(** Decoding the little-endian two's complement of a 32-bit value. *)
Lemma unpack_pack_i (z : Z) : - 2 ^ 31 <= z < 2 ^ 31 -> unpack_i (pack_i z) = z.
Proof.
  intros Hz. unfold unpack_i, pack_i. cbn [uint_le].
  rewrite !byte_val_of_Z.
  set (u := z mod 2 ^ 32).
  assert (Hu : 0 <= u < 2 ^ 32) by (apply Z.mod_pos_bound; lia).
  assert (E : u mod 256 + 256 * ((u / 2 ^ 8) mod 256
               + 256 * ((u / 2 ^ 16) mod 256
               + 256 * ((u / 2 ^ 24) mod 256 + 256 * 0))) = u).
  { change (2 ^ 8) with 256. change (2 ^ 16) with (256 * 256).
    change (2 ^ 24) with (256 * 256 * 256).
    rewrite <- !Z.div_div by lia.
    pose proof (Z.div_mod u 256). pose proof (Z.div_mod (u / 256) 256).
    pose proof (Z.div_mod (u / 256 / 256) 256).
    assert (u / 256 / 256 / 256 < 256).
    { apply Z.div_lt_upper_bound; [lia|].
      apply Z.div_lt_upper_bound; [lia|].
      apply Z.div_lt_upper_bound; lia. }
    assert (0 <= u / 256 / 256 / 256) by (repeat apply Z.div_pos; lia).
    rewrite (Z.mod_small (u / 256 / 256 / 256) 256) by lia. lia. }
  rewrite E. unfold u.
  destruct (Z.ltb_spec (z mod 2 ^ 32) (2 ^ 31)) as [H|H].
  - destruct (Z_lt_le_dec z 0).
    + rewrite <- (Z.mod_add z 1 (2 ^ 32)) in H by lia.
      rewrite Z.mod_small in H by lia. lia.
    + apply Z.mod_small. lia.
  - destruct (Z_lt_le_dec z 0).
    + rewrite <- (Z.mod_add z 1 (2 ^ 32)) by lia.
      rewrite Z.mod_small by lia. lia.
    + rewrite Z.mod_small in H by lia. lia.
Qed.

(** X2.  [_read_int_le] consumes exactly four bytes and returns a value in
    the signed 32-bit range; conversely every signed 32-bit value is read
    back from its little-endian two's-complement encoding, whatever
    follows it. *)
Theorem X2_read_int_le_signed_32 (s s' : stream) (x z : Z) :
  (_read_int_le s = Ok (x, s') ->
   - 2 ^ 31 <= x < 2 ^ 31
   /\ exists b, length b = 4%nat /\ s = b ++ s' /\ x = unpack_i b)
  /\ (- 2 ^ 31 <= z < 2 ^ 31 -> _read_int_le (pack_i z ++ s) = Ok (z, s))
  /\ (len s < 4 -> _read_int_le s = Raise EOFError).
Proof.
  split; [|split].
  - intros H. destruct (read_int_le_inv _ H) as (b & Hb & Hs & Hx).
    split; [|eauto]. subst x. unfold unpack_i.
    pose proof (uint_le_range b) as Hr.
    replace (len b) with 4 in Hr by (unfold len; lia).
    change (256 ^ 4) with (2 ^ 32) in Hr.
    destruct (Z.ltb_spec (uint_le b) (2 ^ 31)); lia.
  - intros Hz. rewrite read_int_le_app by reflexivity.
    now rewrite unpack_pack_i.
  - intros Hs. unfold _read_int_le, bind.
    rewrite read_exact_short by (right; exact Hs). reflexivity.
Qed.

Lemma X2_read_int_le_signed_32_witness :
  _read_int_le (pack_i (-2) ++ [x07]) = Ok (-2, [x07])
  /\ (- 2 ^ 31 <= -2 < 2 ^ 31)
  /\ _read_int_le [x01; x02; x03] = Raise EOFError.
Proof.
  assert (Hr : - 2 ^ 31 <= -2 < 2 ^ 31) by lia.
  destruct (X2_read_int_le_signed_32 [x07] [x07] (-2) (-2)) as (_ & H2 & _).
  destruct (X2_read_int_le_signed_32 (pack_i (-2) ++ [x07]) [x07] (-2) 0)
    as (H1 & _ & _).
  destruct (X2_read_int_le_signed_32 [x01; x02; x03] [] 0 0) as (_ & _ & H3).
  split; [exact (H2 Hr)|]. split; [exact (proj1 (H1 (H2 Hr)))|].
  apply H3. vm_compute. reflexivity.
Defined.

(** ** Any geometry block that parses *)

(** The length of any slice. *)
Lemma len_slice_any {A : Type} (l : list A) (lo hi : Z) :
  len (slice l lo hi)
  = Z.max 0 (norm_index (len l) hi - norm_index (len l) lo).
Proof.
  unfold slice. set (a := norm_index (len l) lo). set (b := norm_index (len l) hi).
  assert (Ha : 0 <= a <= len l).
  { unfold a, norm_index. pose proof (len_nonneg l). lia. }
  assert (Hb : 0 <= b <= len l).
  { unfold b, norm_index. pose proof (len_nonneg l). lia. }
  unfold len in *. rewrite length_firstn, length_skipn. lia.
Qed.

Lemma chunks_aux_rows {A : Type} (k : nat) :
  forall (m fuel : nat) (l : list A),
    length l = (m * k)%nat ->
    Forall (fun r => length r = k) (chunks_aux fuel k l).
Proof.
  induction m as [|m IH]; intros fuel l Hl.
  - destruct l; [|simpl in Hl; lia]. destruct fuel; constructor.
  - destruct fuel as [|fuel]; [constructor|].
    destruct l as [|x l]; [constructor|].
    cbn [chunks_aux]. constructor.
    + rewrite length_firstn, Hl. simpl. lia.
    + apply IH. rewrite length_skipn, Hl. simpl. lia.
Qed.

(** The rows of an array that holds a whole number of them. *)
Lemma chunks_exact {A : Type} (k : nat) (l : list A) :
  (0 < k)%nat -> len l mod Z.of_nat k = 0 ->
  len (chunks k l) = len l / Z.of_nat k
  /\ Forall (fun r => length r = k) (chunks k l).
Proof.
  intros Hk Hmod. pose proof (len_nonneg l) as Hl.
  assert (E : len l = len l / Z.of_nat k * Z.of_nat k).
  { rewrite Z.mul_comm. apply Z_div_exact_full_2; [lia|assumption]. }
  assert (Hq : 0 <= len l / Z.of_nat k) by (apply Z.div_pos; lia).
  split.
  - apply len_chunks; [assumption|assumption|exact E].
  - unfold chunks. apply (@chunks_aux_rows A k (Z.to_nat (len l / Z.of_nat k))).
    unfold len in *. nia.
Qed.

(** What a successful [np.frombuffer(...).reshape((rows, cols))] says
    about the buffer and the result. *)
Lemma frombuffer_reshape_inv (buf : bytes) (d : dtype) (rows : Z) (cols : nat)
      (r : ndarray) :
  (0 < cols)%nat ->
  frombuffer_reshape buf d rows cols = Ok r ->
  len buf mod 4 = 0
  /\ len r * Z.of_nat cols * 4 = len buf
  /\ Forall (fun row => length row = cols) r
  /\ (rows < 0 \/ (0 <= rows /\ len r = rows)).
Proof.
  intros Hc. unfold frombuffer_reshape, np_frombuffer.
  destruct (Z.eqb_spec (len buf mod 4) 0) as [Hm|]; [|discriminate].
  destruct (@chunks_exact byte 4 buf ltac:(lia) Hm) as [L4 _].
  set (a := map (item d) (chunks 4 buf)).
  assert (La : len a = len buf / 4).
  { unfold a, len. rewrite length_map. exact L4. }
  assert (Eb : len buf = 4 * (len buf / 4))
    by (apply Z_div_exact_full_2; [lia|assumption]).
  unfold reshape.
  destruct (Z.ltb_spec rows 0) as [Hr|Hr].
  - destruct (Z.eqb_spec (len a mod Z.of_nat cols) 0) as [Hm2|]; [|discriminate].
    intros Hok. injection Hok as <-.
    destruct (@chunks_exact Z cols a Hc Hm2) as [Lr Rr].
    assert (Ea : len a = Z.of_nat cols * (len a / Z.of_nat cols))
      by (apply Z_div_exact_full_2; [lia|assumption]).
    repeat split; [assumption|nia|exact Rr|left; assumption].
  - destruct (Z.eqb_spec (rows * Z.of_nat cols) (len a)) as [E|]; [|discriminate].
    intros Hok. injection Hok as <-.
    assert (Hm2 : len a mod Z.of_nat cols = 0)
      by (rewrite <- E; apply Z_mod_mult).
    destruct (@chunks_exact Z cols a Hc Hm2) as [Lr Rr].
    assert (Lrows : len (chunks cols a) = rows).
    { rewrite Lr, <- E. apply Z_div_mult. lia. }
    repeat split; [assumption|nia|exact Rr|right; split; assumption].
Qed.

Section GeometryInversion.

Context {libs : Libs}.

(** Everything a successful [_parse_mesh_block] went through. *)
Lemma parse_mesh_block_inv (f f1 : stream) (vs fs : ndarray) (meta : Meta) :
  _parse_mesh_block f = Ok ((vs, fs, meta), f1) ->
  exists t4 v4 f4 c4 cdata raw,
    f = t4 ++ v4 ++ f4 ++ c4 ++ cdata ++ f1
    /\ length t4 = 4%nat /\ length v4 = 4%nat /\ length f4 = 4%nat
    /\ length c4 = 4%nat /\ len cdata = unpack_i c4
    /\ zlib_decompress cdata = Some raw
    /\ len raw = unpack_i v4 * 12 + unpack_i f4 * 12
    /\ frombuffer_reshape (slice_to raw (unpack_i v4 * 12)) float32
         (unpack_i v4) 3 = Ok vs
    /\ frombuffer_reshape (slice_from raw (unpack_i v4 * 12)) int32
         (unpack_i f4) 3 = Ok fs
    /\ meta = {| meta_compressed_bytes := unpack_i c4;
                 meta_uncompressed_bytes := len raw |}.
Proof.
  unfold _parse_mesh_block. intros H.
  peel H. rename E into Ht. peel H. rename E into Hv.
  peel H. rename E into Hf. peel H. rename E into Hc.
  peel H. rename E into Hcd. peel H. rename E into Hz.
  destruct (read_int_le_inv _ Ht) as (t4 & Lt & -> & ->).
  destruct (read_int_le_inv _ Hv) as (v4 & Lv & -> & ->).
  destruct (read_int_le_inv _ Hf) as (f4 & Lf & -> & ->).
  destruct (read_int_le_inv _ Hc) as (c4 & Lc & -> & ->).
  destruct (read_exact_inv _ _ Hcd) as (_ & Lcd & ->).
  unfold lift, _zlib_decompress in Hz.
  destruct (zlib_decompress _) as [raw|] eqn:Hraw; [|discriminate].
  injection Hz as <- <-.
  match type of H with
  | (if negb (?a =? ?b) then _ else _) _ = _ =>
      destruct (Z.eqb_spec a b) as [Hlen|]; [|discriminate H]
  end.
  cbn [negb] in H. peel H. rename E into Hvs. peel H. rename E into Hfs.
  unfold lift in Hvs, Hfs.
  destruct (frombuffer_reshape _ float32 _ _) as [vs0|] eqn:Evs; [|discriminate].
  destruct (frombuffer_reshape _ int32 _ _) as [fs0|] eqn:Efs; [|discriminate].
  injection Hvs as <- <-. injection Hfs as <- <-.
  unfold ret in H. injection H as <- <- <- <-.
  exists t4, v4, f4, c4. eexists. exists raw.
  repeat split; try eassumption; try reflexivity; lia.
Qed.

(** The counts of a geometry block that parsed are non-negative, and the
    arrays have as many rows. *)
Lemma mesh_block_counts (raw : bytes) (V F : Z) (vs fs : ndarray) :
  len raw = V * 12 + F * 12 ->
  frombuffer_reshape (slice_to raw (V * 12)) float32 V 3 = Ok vs ->
  frombuffer_reshape (slice_from raw (V * 12)) int32 F 3 = Ok fs ->
  0 <= V /\ 0 <= F /\ len vs = V /\ len fs = F.
Proof.
  intros Hraw Hvs Hfs. pose proof (len_nonneg raw) as Hn.
  apply frombuffer_reshape_inv in Hvs; [|lia].
  apply frombuffer_reshape_inv in Hfs; [|lia].
  destruct Hvs as (_ & Lv & _ & Cv). destruct Hfs as (_ & Lf & _ & Cf).
  unfold slice_to in Lv. unfold slice_from in Lf.
  rewrite len_slice_any in Lv, Lf. unfold norm_index in Lv, Lf.
  change (Z.of_nat 3) with 3 in *.
  destruct (Z.ltb_spec 0 0); [lia|].
  destruct (Z.ltb_spec (len raw) 0); [lia|].
  destruct (Z.ltb_spec (V * 12) 0); destruct Cv as [Cv|Cv];
    destruct Cf as [Cf|Cf]; lia.
Qed.

(** X3.  A file shorter than the 16-byte header -- the empty file
    included -- is refused with [EOFError]. *)
Theorem X3_short_header (fp : stream) :
  len fp < 16 -> load_cxbin fp = Raise EOFError.
Proof.
  intros Hlen. unfold load_cxbin, read_head.
  unfold bind at 1.
  destruct (_read_int_le fp) as [[h f]|e] eqn:Eh.
  - destruct (read_int_le_inv _ Eh) as (b & Lb & -> & _).
    rewrite len_app in Hlen. unfold len in Hlen at 1.
    unfold bind, _read_bytes.
    rewrite read_exact_short by (right; lia). reflexivity.
  - unfold _read_int_le, bind in Eh.
    destruct (_read_exact 4 fp) as [[b s]|e'] eqn:E4; [discriminate|].
    injection Eh as <-.
    unfold _read_exact in E4. destruct (file_read 4 fp).
    destruct (len b =? 4); [discriminate|]. injection E4 as <-. reflexivity.
Qed.

(** X4.  Whenever [_parse_mesh_block] returns, it has consumed exactly the
    four header integers and [compress_num] payload bytes; both declared
    counts are non-negative; the vertex and face arrays have exactly
    [vert_num] and [face_num] rows of three items; and the two counters
    are [compress_num] and [vert_num*12 + face_num*12]. *)
Theorem X4_mesh_block_exact (f f1 : stream) (vs fs : ndarray) (meta : Meta) :
  _parse_mesh_block f = Ok ((vs, fs, meta), f1) ->
  exists t4 v4 f4 c4 cdata,
    f = t4 ++ v4 ++ f4 ++ c4 ++ cdata ++ f1
    /\ length t4 = 4%nat /\ length v4 = 4%nat /\ length f4 = 4%nat
    /\ length c4 = 4%nat
    /\ len cdata = unpack_i c4
    /\ 0 <= unpack_i v4 /\ 0 <= unpack_i f4
    /\ len vs = unpack_i v4 /\ len fs = unpack_i f4
    /\ Forall (fun row => length row = 3%nat) vs
    /\ Forall (fun row => length row = 3%nat) fs
    /\ meta_compressed_bytes meta = unpack_i c4
    /\ meta_uncompressed_bytes meta = unpack_i v4 * 12 + unpack_i f4 * 12.
Proof.
  intros H.
  destruct (parse_mesh_block_inv _ H)
    as (t4 & v4 & f4 & c4 & cdata & raw & Hf & Lt & Lv & Lf & Lc & Lcd
        & Hz & Hraw & Hvs & Hfs & ->).
  destruct (@mesh_block_counts raw _ _ _ _ Hraw Hvs Hfs) as (HV & HF & LV & LF).
  apply frombuffer_reshape_inv in Hvs; [|lia].
  apply frombuffer_reshape_inv in Hfs; [|lia].
  exists t4, v4, f4, c4, cdata.
  repeat split; try assumption; try apply Hvs; try apply Hfs; lia.
Qed.


(** X5.  On the versioned path the document has no version exactly when
    fewer than four bytes follow the geometry block: a version field cut
    short after one, two or three bytes is dropped without an error and
    the geometry-only document is returned. *)
Theorem X5_truncated_version_field (fp f f1 : stream) (head_code : Z)
        (vs fs : ndarray) (meta : Meta) :
  read_head fp = Ok (head_code, f) -> head_code <> 1 ->
  _parse_mesh_block f = Ok ((vs, fs, meta), f1) ->
  (len f1 < 4 -> load_cxbin fp = Ok (geometry_only vs fs meta))
  /\ (forall doc, load_cxbin fp = Ok doc ->
        (cxbin_version doc = None <-> len f1 < 4)).
Proof.
  intros Hh Hne Hg. rewrite (load_cxbin_versioned _ Hh Hne), Hg.
  assert (Hshort : len f1 < 4 -> _read_int_le f1 = Raise EOFError).
  { intros Hl. unfold _read_int_le, bind.
    rewrite read_exact_short by (right; exact Hl). reflexivity. }
  split.
  - intros Hl. rewrite (Hshort Hl). reflexivity.
  - intros doc. destruct (Z_lt_le_dec (len f1) 4) as [Hl|Hl].
    + rewrite (Hshort Hl). intros H. injection H as <-. simpl. tauto.
    + destruct (_read_int_le f1) as [[v f2]|e] eqn:Ev.
      * destruct (v =? 1).
        -- destruct (_parse_material_block_v1_new f2) as [[m ?]|];
             [|discriminate].
           intros H. injection H as <-. simpl. split; [discriminate|lia].
        -- intros H. injection H as <-. simpl. split; [discriminate|lia].
      * unfold _read_int_le, bind in Ev.
        rewrite read_exact_enough in Ev by lia. discriminate.
Qed.

End GeometryInversion.

Lemma X4_mesh_block_exact_witness :
  exists t4 v4 f4 c4 cdata,
    skipn 16 triangle_file = t4 ++ v4 ++ f4 ++ c4 ++ cdata ++ []
    /\ length t4 = 4%nat /\ length v4 = 4%nat /\ length f4 = 4%nat
    /\ length c4 = 4%nat
    /\ len cdata = unpack_i c4
    /\ 0 <= unpack_i v4 /\ 0 <= unpack_i f4
    /\ len [[0; 1065353216; 1073741824]] = unpack_i v4
    /\ len [[0; 0; 0]] = unpack_i f4
    /\ Forall (fun row => length row = 3%nat) [[0; 1065353216; 1073741824]]
    /\ Forall (fun row => length row = 3%nat) [[0; 0; 0]]
    /\ 35 = unpack_i c4
    /\ 24 = unpack_i v4 * 12 + unpack_i f4 * 12.
Proof.
  exact (@X4_mesh_block_exact example_libs (skipn 16 triangle_file) []
           [[0; 1065353216; 1073741824]] [[0; 0; 0]]
           {| meta_compressed_bytes := 35; meta_uncompressed_bytes := 24 |}
           eq_refl).
Defined.

Lemma X3_short_header_witness :
  load_cxbin (libs := example_libs) [] = Raise EOFError
  /\ load_cxbin (libs := example_libs) (pack_i 1 ++ repeat x00 11) = Raise EOFError.
Proof.
  split.
  - apply (@X3_short_header example_libs []). vm_compute. reflexivity.
  - apply (@X3_short_header example_libs (pack_i 1 ++ repeat x00 11)).
    vm_compute. reflexivity.
Defined.

(** The one-triangle file followed by two stray bytes. *)
Lemma X5_truncated_version_field_witness :
  load_cxbin (libs := example_libs) (triangle_file ++ [x01; x00])
  = Ok (geometry_only [[0; 1065353216; 1073741824]] [[0; 0; 0]]
          {| meta_compressed_bytes := 35; meta_uncompressed_bytes := 24 |}).
Proof.
  assert (Hne : 7 <> 1) by discriminate.
  destruct (@X5_truncated_version_field example_libs
              (triangle_file ++ [x01; x00])
              (skipn 16 (triangle_file ++ [x01; x00])) [x01; x00] 7
              [[0; 1065353216; 1073741824]] [[0; 0; 0]]
              {| meta_compressed_bytes := 35; meta_uncompressed_bytes := 24 |}
              eq_refl Hne eq_refl) as [H _].
  apply H. vm_compute. reflexivity.
Defined.

(** ** Trailing bytes *)

Lemma framed_read_ints (n : nat) : framed (read_ints n).
Proof.
  induction n as [|n IH]; simpl.
  - apply framed_ret.
  - apply framed_bind; [apply framed_read_int_le|intros].
    apply framed_bind; [exact IH|intros; apply framed_ret].
Qed.

Section TrailingBytes.

Context {libs : Libs}.

Lemma framed_parse_material_block_v1_new : framed _parse_material_block_v1_new.
Proof.
  unfold _parse_material_block_v1_new.
  repeat (apply framed_bind; [apply framed_read_int_le|intros]).
  apply framed_bind; [apply framed_read_ints|intros].
  repeat (apply framed_bind; [apply framed_read_int_le|intros]).
  apply framed_bind; [apply framed_read_exact|intros].
  apply framed_bind; [apply framed_lift|intros]. apply framed_lift.
Qed.

Lemma framed_parse_material_block_v1_old : framed _parse_material_block_v1_old.
Proof.
  unfold _parse_material_block_v1_old.
  repeat (apply framed_bind; [apply framed_read_int_le|intros]).
  apply framed_bind; [apply framed_read_ints|intros].
  repeat (apply framed_bind; [apply framed_read_int_le|intros]).
  apply framed_bind; [apply framed_read_exact|intros].
  apply framed_bind; [apply framed_lift|intros]. apply framed_lift.
Qed.

(** X6.  Once a file decodes to a document that has a version, bytes
    appended to the file are never read: the longer file decodes to the
    same document.  (A geometry-only document has no version, and bytes
    appended to its file are read as the version field.) *)
Theorem X6_trailing_bytes_ignored (fp t : stream) (doc : CxbinMesh) :
  load_cxbin fp = Ok doc -> cxbin_version doc <> None ->
  load_cxbin (fp ++ t) = Ok doc.
Proof.
  unfold load_cxbin. intros H Hv.
  destruct (read_head fp) as [[h f]|] eqn:Hh; [|discriminate].
  rewrite (framed_read_head _ t Hh).
  destruct (negb (h =? 1)).
  - destruct (_parse_mesh_block f) as [[[[vs fs] meta] f1]|] eqn:Hg;
      [|discriminate].
    rewrite (framed_parse_mesh_block _ t Hg).
    destruct (_read_int_le f1) as [[v f2]|e] eqn:Ev.
    + rewrite (framed_read_int_le _ t Ev).
      destruct (v =? 0); [exact H|]. destruct (v =? 1); [|exact H].
      destruct (_parse_material_block_v1_new f2) as [[m f3]|] eqn:Em;
        [|discriminate].
      rewrite (framed_parse_material_block_v1_new _ t Em). exact H.
    + destruct e; try discriminate. injection H as <-. now elim Hv.
  - destruct (_parse_material_block_v1_old f) as [[[[m vs] fs] f3]|] eqn:Em;
      [|discriminate].
    rewrite (framed_parse_material_block_v1_old _ t Em). exact H.
Qed.

End TrailingBytes.

Lemma X6_trailing_bytes_ignored_witness :
  load_cxbin (libs := example_libs) (texture_file ++ [xff; xff; xff; xff; xff])
  = load_cxbin (libs := example_libs) texture_file
  /\ exists doc, load_cxbin (libs := example_libs) texture_file = Ok doc
                 /\ cxbin_version doc = Some 1.
Proof.
  destruct texture_file_decodes as (doc & mats & Hd & Hm & _).
  assert (Hv : cxbin_version doc <> None).
  { intros E. revert Hd. vm_compute. intros Hd. injection Hd as <-.
    discriminate E. }
  split.
  - rewrite Hd.
    exact (@X6_trailing_bytes_ignored example_libs texture_file
             [xff; xff; xff; xff; xff] doc Hd Hv).
  - exists doc. split; [exact Hd|].
    revert Hd. vm_compute. intros Hd. injection Hd as <-. reflexivity.
Defined.

(** ** Triples for the readers and the walkers *)

Lemma hoare_ret {S A : Type} (pre : S -> Prop) (a : A)
      (post : A -> S -> Prop) (err : exn -> Prop) :
  (forall s, pre s -> post a s) -> hoare pre (ret a) post err.
Proof. intros H s Hs. simpl. auto. Qed.

Lemma hoare_lift {S A : Type} (pre : S -> Prop) (r : result A)
      (post : A -> S -> Prop) (err : exn -> Prop) :
  (forall s, pre s -> match r with Ok a => post a s | Raise e => err e end) ->
  hoare pre (lift r) post err.
Proof. intros H s Hs. unfold lift. specialize (H s Hs). destruct r; auto. Qed.

Lemma hoare_bind {S A B : Type} (pre : S -> Prop) (c : M S A) (k : A -> M S B)
      (mid : A -> S -> Prop) (post : B -> S -> Prop) (err : exn -> Prop) :
  hoare pre c mid err -> (forall a, hoare (mid a) (k a) post err) ->
  hoare pre (bind c k) post err.
Proof.
  intros Hc Hk s Hs. unfold bind. specialize (Hc s Hs).
  destruct (c s) as [[a s']|e]; [|exact Hc]. now apply Hk.
Qed.

Lemma hoare_conseq {S A : Type} (pre pre' : S -> Prop) (c : M S A)
      (post post' : A -> S -> Prop) (err err' : exn -> Prop) :
  hoare pre c post err ->
  (forall s, pre' s -> pre s) ->
  (forall a s, post a s -> post' a s) ->
  (forall e, err e -> err' e) ->
  hoare pre' c post' err'.
Proof.
  intros H Hpre Hpost Herr s Hs. specialize (H s (Hpre s Hs)).
  destruct (c s) as [[a s']|e]; auto.
Qed.

Lemma hoare_take (raw : bytes) (msg : ValueError_msg) (n : Z) :
  0 < n ->
  hoare (in_payload raw) (take raw msg n)
        (fun b p => in_payload raw p /\ len b = n)
        (eq (ValueError msg)).
Proof.
  intros Hn p [Hp0 Hp1]. unfold take.
  destruct (Z.eqb_spec (len (slice raw p (p + n))) n) as [E|E]; simpl;
    [|reflexivity].
  split; [|exact E]. apply len_slice_full in E; [|lia|lia].
  unfold in_payload. lia.
Qed.

Lemma hoare_read_uvs (raw : bytes) (msg : ValueError_msg) (n : Z) :
  hoare (in_payload raw) (read_uvs raw msg n)
        (fun u p => in_payload raw p /\ declared_rows n 2 u)
        (eq (ValueError msg)).
Proof.
  unfold read_uvs. destruct (Z.gtb_spec n 0) as [Hn|Hn].
  - eapply hoare_bind; [apply hoare_take; lia|]. intros b.
    eapply hoare_bind; [|intros a; apply hoare_ret; intros s Hs; exact Hs].
    apply hoare_lift. intros p [Hp Hb].
    destruct (@frombuffer_reshape_ok b float32 n 2) as (a & Ha & La);
      [lia|lia|rewrite Hb; lia|].
    rewrite Ha. split; [exact Hp|]. simpl.
    apply frombuffer_reshape_inv in Ha; [|lia].
    repeat split; [lia|exact La|apply Ha].
  - apply hoare_ret. intros p Hp. split; [exact Hp|]. simpl. lia.
Qed.

Lemma hoare_read_face_uvs (raw : bytes) (msg : ValueError_msg) (n : Z) :
  hoare (in_payload raw) (read_face_uvs raw msg n)
        (fun u p => in_payload raw p /\ declared_rows n 3 u)
        (eq (ValueError msg)).
Proof.
  unfold read_face_uvs. destruct (Z.gtb_spec n 0) as [Hn|Hn].
  - eapply hoare_bind; [apply hoare_take; lia|]. intros b.
    eapply hoare_bind; [|intros a; apply hoare_ret; intros s Hs; exact Hs].
    apply hoare_lift. intros p [Hp Hb].
    destruct (@frombuffer_reshape_ok b int32 n 3) as (a & Ha & La);
      [lia|lia|rewrite Hb; lia|].
    rewrite Ha. split; [exact Hp|]. simpl.
    apply frombuffer_reshape_inv in Ha; [|lia].
    repeat split; [lia|exact La|apply Ha].
  - apply hoare_ret. intros p Hp. split; [exact Hp|]. simpl. lia.
Qed.

Lemma hoare_read_texture_ids (raw : bytes) (msg : ValueError_msg) (n : Z) :
  hoare (in_payload raw) (read_texture_ids raw msg n)
        (fun t p => in_payload raw p /\ declared_items n t)
        (eq (ValueError msg)).
Proof.
  unfold read_texture_ids. destruct (Z.gtb_spec n 0) as [Hn|Hn].
  - eapply hoare_bind; [apply hoare_take; lia|]. intros b.
    eapply hoare_bind; [|intros a; apply hoare_ret; intros s Hs; exact Hs].
    apply hoare_lift. intros p [Hp Hb]. unfold np_frombuffer.
    assert (Hm : len b mod 4 = 0) by (rewrite Hb; apply Z_mod_mult).
    rewrite Hm. simpl. split; [exact Hp|]. split; [lia|].
    unfold len. rewrite length_map. fold (len (chunks 4 b)).
    apply len_chunks; lia.
  - apply hoare_ret. intros p Hp. split; [exact Hp|]. simpl. lia.
Qed.

Lemma hoare_read_blocks (raw : bytes) (msg : ValueError_msg) (sizes : list Z) :
  forall blocks,
    hoare (in_payload raw) (read_blocks raw msg sizes blocks)
          (fun out p =>
             in_payload raw p
             /\ exists new, out = blocks ++ new
                  /\ Forall2 (fun size b => len b = Z.max 0 size) sizes new)
          (eq (ValueError msg)).
Proof.
  induction sizes as [|size sizes IH]; intros blocks; simpl.
  - apply hoare_ret. intros p Hp. split; [exact Hp|].
    exists []. rewrite app_nil_r. split; [reflexivity|constructor].
  - eapply hoare_bind with
      (mid := fun b p => in_payload raw p /\ len b = Z.max 0 size).
    + destruct (Z.gtb_spec size 0) as [Hs|Hs].
      * eapply hoare_conseq; [apply hoare_take; lia| | |]; auto.
        intros b p [Hp Hb]. split; [exact Hp|lia].
      * apply hoare_ret. intros p Hp. split; [exact Hp|].
        rewrite len_nil. lia.
    + intros b p [Hp Hb]. cbv beta.
      match goal with
      | |- match ?c with _ => _ end => remember c as r eqn:Er
      end.
      assert (IH' : match r with
                    | Ok (out, p') =>
                        in_payload raw p'
                        /\ exists new, out = (blocks ++ [b]) ++ new
                             /\ Forall2 (fun size b => len b = Z.max 0 size)
                                  sizes new
                    | Raise e => ValueError msg = e
                    end) by (subst r; exact (IH (blocks ++ [b]) p Hp)).
      destruct r as [[out p']|e]; [|exact IH'].
      destruct IH' as (Hp' & new & -> & Hall). split; [exact Hp'|].
      exists (b :: new). rewrite <- app_assoc. split; [reflexivity|].
      constructor; assumption.
Qed.

Lemma hoare_assume {S A : Type} (P : Prop) (pre : S -> Prop) (c : M S A)
      (post : A -> S -> Prop) (err : exn -> Prop) :
  (P -> hoare pre c post err) -> hoare (fun s => pre s /\ P) c post err.
Proof. intros H s [Hs HP]. now apply H. Qed.

Lemma hoare_from_start {A : Type} (c : M Z A)
      (post : A -> Prop) (err : exn -> Prop) :
  hoare (eq 0) c (fun a _ => post a) err ->
  match from_start c with
  | Ok a => post a
  | Raise e => err e
  end.
Proof.
  intros H. unfold from_start. specialize (H 0 eq_refl).
  destruct (c 0) as [[a p]|e]; exact H.
Qed.

Lemma hoare_maps_v1_new (raw : bytes) (n : nat) (texs : list Texture) :
  hoare (in_payload raw) (maps_v1_new raw n texs)
        (fun out p => in_payload raw p
           /\ exists more, out = texs ++ more /\ (length more <= n)%nat)
        (fun _ => False).
Proof.
  intros p Hp.
  destruct (@maps_v1_new_total raw n texs p Hp) as (more & p' & -> & Hn & Hp').
  split; [exact Hp'|]. exists more. auto.
Qed.

Section WalkTriples.

Context {libs : Libs}.

Lemma hoare_read_material_name (raw : bytes) (msg : ValueError_msg) (n : Z) :
  hoare (in_payload raw) (read_material_name raw msg n)
        (fun nm p => in_payload raw p /\ (nm = None <-> n <= 0))
        (eq (ValueError msg)).
Proof.
  unfold read_material_name. destruct (Z.gtb_spec n 0) as [Hn|Hn].
  - eapply hoare_bind; [apply hoare_take; lia|]. intros b.
    apply hoare_ret. intros p [Hp _]. split; [exact Hp|].
    split; [discriminate|lia].
  - apply hoare_ret. intros p Hp. split; [exact Hp|]. tauto.
Qed.

Lemma hoare_maps_v1_old (raw : bytes) (n : nat) (texs : list Texture) :
  hoare (in_payload raw) (maps_v1_old raw n texs)
        (fun out p => in_payload raw p
           /\ exists more, out = texs ++ more /\ (length more <= n)%nat)
        (fun _ => False).
Proof.
  intros p Hp.
  destruct (@maps_v1_old_total _ raw n texs p Hp) as (more & p' & -> & Hn & Hp').
  split; [exact Hp'|]. exists more. auto.
Qed.

(** The walk of the new material block: what it returns, and the one
    exception it can raise. *)
Lemma hoare_walk_v1_new (raw : bytes)
      (uv_num face_uv_num texture_id_num : Z) (material_sizes : list Z)
      (mtl_name_len map_type_count : Z) :
  hoare (eq 0)
        (walk_v1_new raw uv_num face_uv_num texture_id_num material_sizes
           mtl_name_len map_type_count)
        (fun mats _ =>
           material_counts uv_num face_uv_num texture_id_num material_sizes
             mtl_name_len map_type_count mats)
        (eq (ValueError MaterialBlockTruncated)).
Proof.
  unfold walk_v1_new. cbv zeta.
  eapply hoare_conseq with (pre := in_payload raw) (err := eq (ValueError MaterialBlockTruncated));
    [|intros s <-; split; [lia|apply len_nonneg]|intros a s H; exact H|intros e H; exact H].
  eapply hoare_bind; [apply hoare_read_uvs|]. intros u.
  apply hoare_assume. intros Hu.
  eapply hoare_bind; [apply hoare_read_face_uvs|]. intros fu.
  apply hoare_assume. intros Hfu.
  eapply hoare_bind; [apply hoare_read_texture_ids|]. intros t.
  apply hoare_assume. intros Ht.
  eapply hoare_bind; [apply hoare_read_blocks|]. intros b.
  apply hoare_assume. intros (new & Hb & Hall). simpl in Hb. subst new.
  eapply hoare_bind; [apply hoare_read_material_name|]. intros nm.
  apply hoare_assume. intros Hnm.
  eapply hoare_bind;
    [eapply hoare_conseq;
       [apply hoare_maps_v1_new|auto|intros a s H; exact H|contradiction]|].
  intros texs. apply hoare_assume. intros (more & Hm & Hn). simpl in Hm.
  subst more. apply hoare_ret. intros p _.
  unfold material_counts. simpl. repeat split; try assumption; try apply Hnm.
  unfold len. lia.
Qed.

(** The geometry read by the legacy walk: [rows] rows of three items
    when the count is positive, none otherwise. *)
Lemma hoare_legacy_rows (raw : bytes) (d : dtype) (n : Z)
      (k : ndarray -> M Z (CxbinMaterials * ndarray * ndarray))
      (post : CxbinMaterials * ndarray * ndarray -> Z -> Prop) :
  (forall a, len a = Z.max 0 n -> Forall (fun row => length row = 3%nat) a ->
             hoare (in_payload raw) (k a) post
                   (eq (ValueError OldV1BlockTruncated))) ->
  hoare (in_payload raw)
        (bind (if n >? 0 then take raw OldV1BlockTruncated (n * 3 * 4)
               else ret [])
           (fun b =>
              bind (lift (if n >? 0 then frombuffer_reshape b d n 3 else Ok []))
                   k))
        post (eq (ValueError OldV1BlockTruncated)).
Proof.
  intros Hk. destruct (Z.gtb_spec n 0) as [Hn|Hn].
  - eapply hoare_bind; [apply hoare_take; lia|]. intros b.
    intros p [Hp Hb]. unfold bind, lift.
    destruct (@frombuffer_reshape_ok b d n 3) as (a & Ha & La);
      [lia|lia|rewrite Hb; lia|].
    rewrite Ha.
    apply frombuffer_reshape_inv in Ha; [|lia].
    apply Hk; [lia|apply Ha|exact Hp].
  - intros p Hp. unfold bind, lift, ret.
    apply Hk; [rewrite len_nil; lia|constructor|exact Hp].
Qed.

(** The walk of the legacy block. *)
Lemma hoare_walk_v1_old (raw : bytes)
      (vert_num face_num uv_num face_uv_num texture_id_num : Z)
      (material_sizes : list Z) (mtl_name_len map_type_count : Z) :
  hoare (eq 0)
        (walk_v1_old raw vert_num face_num uv_num face_uv_num texture_id_num
           material_sizes mtl_name_len map_type_count)
        (fun r _ =>
           let '(mats, vs, fs) := r in
           len vs = Z.max 0 vert_num
           /\ Forall (fun row => length row = 3%nat) vs
           /\ len fs = Z.max 0 face_num
           /\ Forall (fun row => length row = 3%nat) fs
           /\ material_counts uv_num face_uv_num texture_id_num material_sizes
                mtl_name_len map_type_count mats)
        (eq (ValueError OldV1BlockTruncated)).
Proof.
  unfold walk_v1_old. cbv zeta.
  eapply hoare_conseq with (pre := in_payload raw) (err := eq (ValueError OldV1BlockTruncated));
    [|intros s <-; split; [lia|apply len_nonneg]|intros a s H; exact H|intros e H; exact H].
  apply hoare_legacy_rows. intros vs Lvs Rvs.
  apply hoare_legacy_rows. intros fs Lfs Rfs.
  eapply hoare_bind; [apply hoare_read_uvs|]. intros u.
  apply hoare_assume. intros Hu.
  eapply hoare_bind; [apply hoare_read_face_uvs|]. intros fu.
  apply hoare_assume. intros Hfu.
  eapply hoare_bind; [apply hoare_read_texture_ids|]. intros t.
  apply hoare_assume. intros Ht.
  eapply hoare_bind; [apply hoare_read_blocks|]. intros b.
  apply hoare_assume. intros (new & Hb & Hall). simpl in Hb. subst new.
  eapply hoare_bind; [apply hoare_read_material_name|]. intros nm.
  apply hoare_assume. intros Hnm.
  eapply hoare_bind;
    [eapply hoare_conseq;
       [apply hoare_maps_v1_old|auto|intros a s H; exact H|contradiction]|].
  intros texs. apply hoare_assume. intros (more & Hm & Hn). simpl in Hm.
  subst more. apply hoare_ret. intros p _.
  unfold material_counts. simpl. repeat split; try assumption; try apply Hnm.
  unfold len. lia.
Qed.

End WalkTriples.

(** ** What the material parsers return, and what they raise *)

Lemma chunks_aux_fuel {A : Type} (k : nat) :
  (0 < k)%nat ->
  forall (m fuel1 fuel2 : nat) (l : list A),
    length l = (m * k)%nat -> (m <= fuel1)%nat -> (m <= fuel2)%nat ->
    chunks_aux fuel1 k l = chunks_aux fuel2 k l.
Proof.
  intros Hk. induction m as [|m IH]; intros fuel1 fuel2 l Hl H1 H2.
  - destruct l; [|simpl in Hl; lia]. destruct fuel1, fuel2; reflexivity.
  - destruct fuel1 as [|fuel1]; [lia|]. destruct fuel2 as [|fuel2]; [lia|].
    destruct l as [|x l]; [reflexivity|].
    cbn [chunks_aux]. f_equal. apply IH; [|lia|lia].
    rewrite length_skipn, Hl. simpl. lia.
Qed.

(** The integers [read_ints] returns are those of the bytes it consumed. *)
Lemma read_ints_app_ints (n : nat) :
  forall (b : bytes) (s : stream),
    length b = (4 * n)%nat -> read_ints n (b ++ s) = Ok (ints_of b, s).
Proof.
  induction n as [|n IH]; intros b s Hb; simpl.
  - destruct b; [reflexivity|simpl in Hb; lia].
  - rewrite <- (firstn_skipn 4 b) at 1. rewrite <- app_assoc.
    rewrite bind_read_int by (rewrite length_firstn; lia).
    unfold bind at 1. rewrite IH by (rewrite length_skipn; lia).
    unfold bind, ret. do 2 f_equal.
    unfold ints_of, chunks.
    destruct b as [|x b]; [simpl in Hb; lia|].
    replace (length (x :: b)) with (S (length b)) by reflexivity.
    cbn [chunks_aux map]. f_equal. f_equal.
    apply (@chunks_aux_fuel byte 4 ltac:(lia) n);
      rewrite ?length_skipn; simpl in Hb |- *; lia.
Qed.

Lemma hoare_read_exact (n : Z) :
  hoare (fun _ : stream => True) (_read_exact n) (fun _ _ => True) (eq EOFError).
Proof.
  intros s _. unfold _read_exact. destruct (file_read n s).
  destruct (len b =? n); [exact I|reflexivity].
Qed.

Lemma hoare_read_int_le :
  hoare (fun _ : stream => True) _read_int_le (fun _ _ => True) (eq EOFError).
Proof.
  unfold _read_int_le. eapply hoare_bind; [apply hoare_read_exact|].
  intros b. apply hoare_ret. auto.
Qed.

Lemma hoare_read_ints (n : nat) :
  hoare (fun _ : stream => True) (read_ints n) (fun _ _ => True) (eq EOFError).
Proof.
  induction n as [|n IH]; simpl.
  - apply hoare_ret. auto.
  - eapply hoare_bind; [apply hoare_read_int_le|]. intros x.
    eapply hoare_bind; [apply IH|]. intros xs. apply hoare_ret. auto.
Qed.

(** Reading an integer inside a parser that may raise more. *)
Ltac hoare_int :=
  eapply hoare_bind;
  [eapply hoare_conseq;
     [apply hoare_read_int_le|auto|intros ? ? H; exact H
     |intros ? <-; left; reflexivity]
  |intros ?].

Section MaterialParserResults.

Context {libs : Libs}.

Lemma zlib_decompress_errors (buf : bytes) (expected : Z) (msg : ValueError_msg) :
  match _zlib_decompress buf (Some expected) with
  | Ok raw => len raw = expected
  | Raise e => material_parser_error msg e
  end.
Proof.
  unfold _zlib_decompress, material_parser_error.
  destruct (zlib_decompress buf) as [raw|]; [|auto].
  destruct (Z.eqb_spec (len raw) expected); simpl; [assumption|].
  right. right. left. eauto.
Qed.

(** The new material parser on a laid-out block, with the sizes it read. *)
Lemma parse_material_block_v1_new_layout
      (T4 U4 FU4 TI4 M4 S4 N4 K4 C4 cdata rest : bytes) :
  length T4 = 4%nat -> length U4 = 4%nat -> length FU4 = 4%nat ->
  length TI4 = 4%nat -> length M4 = 4%nat ->
  length S4 = (4 * Z.to_nat (unpack_i M4))%nat ->
  length N4 = 4%nat -> length K4 = 4%nat -> length C4 = 4%nat ->
  len cdata = unpack_i C4 ->
  _parse_material_block_v1_new
    (T4 ++ U4 ++ FU4 ++ TI4 ++ M4 ++ S4 ++ N4 ++ K4 ++ C4 ++ cdata ++ rest)
  = match _zlib_decompress cdata (Some (unpack_i T4)) with
    | Raise e => Raise e
    | Ok raw =>
        match from_start
                (walk_v1_new raw (unpack_i U4) (unpack_i FU4) (unpack_i TI4)
                   (ints_of S4) (unpack_i N4) (unpack_i K4)) with
        | Raise e => Raise e
        | Ok mats => Ok (mats, rest)
        end
    end.
Proof.
  intros HT HU HFU HTI HM HS HN HK HC Hcd.
  unfold _parse_material_block_v1_new. read_fields.
  unfold bind at 1. rewrite read_ints_app_ints by assumption. read_fields.
  unfold bind, lift. destruct (_zlib_decompress cdata _); [|reflexivity].
  destruct (from_start _); reflexivity.
Qed.

Lemma parse_material_block_v1_old_layout
      (T4 V4 F4 U4 FU4 TI4 M4 S4 N4 K4 C4 cdata rest : bytes) :
  length T4 = 4%nat -> length V4 = 4%nat -> length F4 = 4%nat ->
  length U4 = 4%nat -> length FU4 = 4%nat ->
  length TI4 = 4%nat -> length M4 = 4%nat ->
  length S4 = (4 * Z.to_nat (unpack_i M4))%nat ->
  length N4 = 4%nat -> length K4 = 4%nat -> length C4 = 4%nat ->
  len cdata = unpack_i C4 ->
  _parse_material_block_v1_old
    (T4 ++ V4 ++ F4 ++ U4 ++ FU4 ++ TI4 ++ M4 ++ S4 ++ N4 ++ K4 ++ C4
     ++ cdata ++ rest)
  = match _zlib_decompress cdata (Some (unpack_i T4)) with
    | Raise e => Raise e
    | Ok raw =>
        match from_start
                (walk_v1_old raw (unpack_i V4) (unpack_i F4) (unpack_i U4)
                   (unpack_i FU4) (unpack_i TI4) (ints_of S4) (unpack_i N4)
                   (unpack_i K4)) with
        | Raise e => Raise e
        | Ok r => Ok (r, rest)
        end
    end.
Proof.
  intros HT HV HF HU HFU HTI HM HS HN HK HC Hcd.
  unfold _parse_material_block_v1_old. read_fields.
  unfold bind at 1. rewrite read_ints_app_ints by assumption. read_fields.
  unfold bind, lift. destruct (_zlib_decompress cdata _); [|reflexivity].
  destruct (from_start _); reflexivity.
Qed.

End MaterialParserResults.

Section MaterialParserTheorems.

Context {libs : Libs}.

(** X7.  When the new material parser returns on a laid-out block, it has
    consumed exactly the block, and the record agrees with the header:
    UVs and face UVs are present exactly when their count is positive and
    then have that many rows of 2 and 3 items, the texture ids likewise,
    there is one blob per declared size and its length is that size (0 for
    a non-positive one), the name is absent exactly when its length is
    not positive, and there are at most [max 0 map_type_count] textures. *)
Theorem X7_new_material_block_counts
        (T4 U4 FU4 TI4 M4 S4 N4 K4 C4 cdata rest rest' : bytes)
        (mats : CxbinMaterials) :
  length T4 = 4%nat -> length U4 = 4%nat -> length FU4 = 4%nat ->
  length TI4 = 4%nat -> length M4 = 4%nat ->
  length S4 = (4 * Z.to_nat (unpack_i M4))%nat ->
  length N4 = 4%nat -> length K4 = 4%nat -> length C4 = 4%nat ->
  len cdata = unpack_i C4 ->
  _parse_material_block_v1_new
    (T4 ++ U4 ++ FU4 ++ TI4 ++ M4 ++ S4 ++ N4 ++ K4 ++ C4 ++ cdata ++ rest)
  = Ok (mats, rest') ->
  rest' = rest
  /\ material_counts (unpack_i U4) (unpack_i FU4) (unpack_i TI4) (ints_of S4)
       (unpack_i N4) (unpack_i K4) mats.
Proof.
  intros HT HU HFU HTI HM HS HN HK HC Hcd.
  rewrite parse_material_block_v1_new_layout by assumption.
  destruct (_zlib_decompress cdata _) as [raw|]; [|discriminate].
  pose proof (@hoare_from_start _ _ _ _
                (@hoare_walk_v1_new _ raw (unpack_i U4) (unpack_i FU4)
                   (unpack_i TI4) (ints_of S4) (unpack_i N4) (unpack_i K4)))
    as Hw.
  destruct (from_start _) as [m|]; [|discriminate].
  intros H. injection H as <- <-. split; [reflexivity|exact Hw].
Qed.

(** X8.  When the legacy parser returns on a laid-out block, the vertex
    and face arrays have [max 0 vert_num] and [max 0 face_num] rows of
    three items -- a non-positive count gives an empty array, not an
    error -- and the material record agrees with the header as in the new
    layout. *)
Theorem X8_legacy_block_counts
        (T4 V4 F4 U4 FU4 TI4 M4 S4 N4 K4 C4 cdata rest rest' : bytes)
        (mats : CxbinMaterials) (vs fs : ndarray) :
  length T4 = 4%nat -> length V4 = 4%nat -> length F4 = 4%nat ->
  length U4 = 4%nat -> length FU4 = 4%nat ->
  length TI4 = 4%nat -> length M4 = 4%nat ->
  length S4 = (4 * Z.to_nat (unpack_i M4))%nat ->
  length N4 = 4%nat -> length K4 = 4%nat -> length C4 = 4%nat ->
  len cdata = unpack_i C4 ->
  _parse_material_block_v1_old
    (T4 ++ V4 ++ F4 ++ U4 ++ FU4 ++ TI4 ++ M4 ++ S4 ++ N4 ++ K4 ++ C4
     ++ cdata ++ rest)
  = Ok ((mats, vs, fs), rest') ->
  rest' = rest
  /\ len vs = Z.max 0 (unpack_i V4)
  /\ Forall (fun row => length row = 3%nat) vs
  /\ len fs = Z.max 0 (unpack_i F4)
  /\ Forall (fun row => length row = 3%nat) fs
  /\ material_counts (unpack_i U4) (unpack_i FU4) (unpack_i TI4) (ints_of S4)
       (unpack_i N4) (unpack_i K4) mats.
Proof.
  intros HT HV HF HU HFU HTI HM HS HN HK HC Hcd.
  rewrite parse_material_block_v1_old_layout by assumption.
  destruct (_zlib_decompress cdata _) as [raw|]; [|discriminate].
  pose proof (@hoare_from_start _ _ _ _
                (@hoare_walk_v1_old _ raw (unpack_i V4) (unpack_i F4)
                   (unpack_i U4) (unpack_i FU4) (unpack_i TI4) (ints_of S4)
                   (unpack_i N4) (unpack_i K4)))
    as Hw.
  destruct (from_start _) as [[[m v] f]|]; [|discriminate].
  intros H. injection H as <- <- <- <-. split; [reflexivity|exact Hw].
Qed.

Lemma hoare_parse_material_block_v1_new :
  hoare (fun _ : stream => True) _parse_material_block_v1_new
        (fun _ _ => True) (material_parser_error MaterialBlockTruncated).
Proof.
  unfold _parse_material_block_v1_new.
  do 5 hoare_int.
  eapply hoare_bind;
    [eapply hoare_conseq;
       [apply hoare_read_ints|auto|intros ? ? H; exact H
       |intros ? <-; left; reflexivity]|intros sizes].
  do 3 hoare_int.
  eapply hoare_bind;
    [eapply hoare_conseq;
       [apply hoare_read_exact|auto|intros ? ? H; exact H
       |intros ? <-; left; reflexivity]|intros cdata].
  eapply hoare_bind with (mid := fun _ _ => True).
  - apply hoare_lift. intros s _.
    pose proof (zlib_decompress_errors cdata a MaterialBlockTruncated) as H.
    destruct (_zlib_decompress cdata (Some a)); [exact I|exact H].
  - intros raw. apply hoare_lift. intros s _.
    pose proof (@hoare_from_start _ _ _ _
                  (@hoare_walk_v1_new _ raw a0 a1 a2 sizes a4 a5)) as Hw.
    destruct (from_start _); [exact I|].
    right. right. right. symmetry. exact Hw.
Qed.

Lemma hoare_parse_material_block_v1_old :
  hoare (fun _ : stream => True) _parse_material_block_v1_old
        (fun _ _ => True) (material_parser_error OldV1BlockTruncated).
Proof.
  unfold _parse_material_block_v1_old.
  do 7 hoare_int.
  eapply hoare_bind;
    [eapply hoare_conseq;
       [apply hoare_read_ints|auto|intros ? ? H; exact H
       |intros ? <-; left; reflexivity]|intros sizes].
  do 3 hoare_int.
  eapply hoare_bind;
    [eapply hoare_conseq;
       [apply hoare_read_exact|auto|intros ? ? H; exact H
       |intros ? <-; left; reflexivity]|intros cdata].
  eapply hoare_bind with (mid := fun _ _ => True).
  - apply hoare_lift. intros s _.
    pose proof (zlib_decompress_errors cdata a OldV1BlockTruncated) as H.
    destruct (_zlib_decompress cdata (Some a)); [exact I|exact H].
  - intros raw. apply hoare_lift. intros s _.
    pose proof (@hoare_from_start _ _ _ _
                  (@hoare_walk_v1_old _ raw a0 a1 a2 a3 a4 sizes a6 a7)) as Hw.
    destruct (from_start _); [exact I|].
    right. right. right. symmetry. exact Hw.
Qed.

Lemma material_parser_errors (f : stream) (e : exn) :
  (_parse_material_block_v1_new f = Raise e ->
   material_parser_error MaterialBlockTruncated e)
  /\ (_parse_material_block_v1_old f = Raise e ->
      material_parser_error OldV1BlockTruncated e).
Proof.
  split; intros H.
  - pose proof hoare_parse_material_block_v1_new as Hh.
    unfold hoare in Hh. specialize (Hh f I).
    rewrite H in Hh. exact Hh.
  - pose proof hoare_parse_material_block_v1_old as Hh.
    unfold hoare in Hh. specialize (Hh f I).
    rewrite H in Hh. exact Hh.
Qed.

(** X9.  On an in-memory stream (io.BytesIO), whatever it holds, a
    material parser raises only [EOFError], a zlib error, the
    decompressed-size mismatch or its own truncation error: a negative
    length read from the header makes [read] return everything and
    [_read_exact] raise [EOFError], and inside the decompressed payload every
    [struct.unpack_from] and every numpy conversion is guarded, and the
    texture loop never raises. *)
Theorem X9_material_parser_errors (f : stream) (e : exn) :
  (_parse_material_block_v1_new f = Raise e ->
   material_parser_error MaterialBlockTruncated e)
  /\ (_parse_material_block_v1_old f = Raise e ->
      material_parser_error OldV1BlockTruncated e).
Proof. exact (material_parser_errors f e). Qed.

End MaterialParserTheorems.

(** The block with every field present. *)
Lemma X7_new_material_block_counts_witness :
  exists mats,
    _parse_material_block_v1_new (libs := example_libs) full_material_block
    = Ok (mats, [])
    /\ material_counts 1 1 2 [3; 0] 4 1 mats.
Proof.
  eexists.
  assert (Hrun : _parse_material_block_v1_new (libs := example_libs)
                   full_material_block
                 = Ok ({| material_blocks := [[x6d; x6d; x6d]; []];
                          material_name :=
                            Some (String.string_of_list_byte [x61; x62]);
                          textures := [{| data := [x50; x51]; is_png := false;
                                          size_hint := None |}];
                          texture_ids := Some [5; 6];
                          _uvs_internal := Some [[0; 0]];
                          _face_uvs_internal := Some [[0; 0; 0]] |}, []))
    by (vm_compute; reflexivity).
  split; [exact Hrun|].
  exact (proj2 (@X7_new_material_block_counts example_libs
                  (pack_i 41) (pack_i 1) (pack_i 1) (pack_i 2) (pack_i 2)
                  (pack_i 3 ++ pack_i 0) (pack_i 4) (pack_i 1) (pack_i 52)
                  (Stored.compress full_material_payload) [] [] _
                  eq_refl eq_refl eq_refl eq_refl eq_refl eq_refl
                  eq_refl eq_refl eq_refl eq_refl Hrun)).
Defined.

(** The legacy body that declares one vertex and -2 faces. *)
Lemma X8_legacy_block_counts_witness :
  exists mats vs fs,
    _parse_material_block_v1_old (libs := example_libs)
      legacy_negative_faces_block = Ok ((mats, vs, fs), [])
    /\ len vs = 1 /\ len fs = 0.
Proof.
  eexists. exists [[0; 0; 0]], [].
  assert (Hrun : _parse_material_block_v1_old (libs := example_libs)
                   legacy_negative_faces_block
                 = Ok (({| material_blocks := []; material_name := None;
                           textures := []; texture_ids := None;
                           _uvs_internal := None;
                           _face_uvs_internal := None |},
                        [[0; 0; 0]], []), []))
    by (vm_compute; reflexivity).
  split; [exact Hrun|].
  destruct (@X8_legacy_block_counts example_libs
              (pack_i 12) (pack_i 1) (pack_i (-2)) (pack_i 0) (pack_i 0)
              (pack_i 0) (pack_i 0) [] (pack_i 0) (pack_i 0) (pack_i 23)
              (Stored.compress (repeat x00 12)) [] [] _ _ _
              eq_refl eq_refl eq_refl eq_refl eq_refl eq_refl eq_refl
              eq_refl eq_refl eq_refl eq_refl eq_refl Hrun)
    as (_ & Lv & _ & Lf & _).
  split; [exact Lv|exact Lf].
Defined.

(** The block that declares 5 decompressed bytes and holds 2. *)
Lemma X9_material_parser_errors_witness :
  _parse_material_block_v1_new (libs := example_libs) mismatch_block
  = Raise (ValueError (DecompressedSizeMismatch 2 5))
  /\ material_parser_error MaterialBlockTruncated
       (ValueError (DecompressedSizeMismatch 2 5)).
Proof.
  assert (Hrun : _parse_material_block_v1_new (libs := example_libs)
                   mismatch_block
                 = Raise (ValueError (DecompressedSizeMismatch 2 5)))
    by (vm_compute; reflexivity).
  split; [exact Hrun|].
  exact (proj1 (@X9_material_parser_errors example_libs mismatch_block _) Hrun).
Defined.

(** ** What [load_cxbin] raises *)

Lemma norm_index_divide (n i : Z) :
  (4 | n) -> (4 | i) -> (4 | norm_index n i).
Proof.
  intros Hn Hi. unfold norm_index.
  assert (Hj : (4 | if i <? 0 then i + n else i))
    by (destruct (i <? 0); [apply Z.divide_add_r|]; assumption).
  set (j := if i <? 0 then i + n else i) in *.
  destruct (Z.max_spec 0 (Z.min n j)) as [[_ ->]|[_ ->]];
    [|apply Z.divide_0_r].
  destruct (Z.min_spec n j) as [[_ ->]|[_ ->]]; assumption.
Qed.

Lemma len_slice_mod4 {A : Type} (l : list A) (lo hi : Z) :
  len l mod 4 = 0 -> (4 | lo) -> (4 | hi) -> len (slice l lo hi) mod 4 = 0.
Proof.
  intros Hl Hlo Hhi. apply Z.mod_divide in Hl; [|lia].
  apply Z.mod_divide; [lia|]. rewrite len_slice_any.
  destruct (Z.max_spec 0 (norm_index (len l) hi - norm_index (len l) lo))
    as [[_ ->]|[_ ->]]; [|apply Z.divide_0_r].
  apply Z.divide_sub_r; apply norm_index_divide; assumption.
Qed.

(** On a buffer of whole items only the reshape can fail. *)
Lemma frombuffer_reshape_raise (buf : bytes) (d : dtype) (rows : Z) (cols : nat)
      (e : exn) :
  len buf mod 4 = 0 ->
  frombuffer_reshape buf d rows cols = Raise e -> e = ValueError NumpyReshape.
Proof.
  intros Hm. unfold frombuffer_reshape, np_frombuffer. rewrite Hm. simpl.
  unfold reshape.
  repeat match goal with
         | |- context [if ?b then _ else _] => destruct b
         end; intros H; try discriminate; now injection H as <-.
Qed.

Section LoadErrors.

Context {libs : Libs}.

(** What [_parse_mesh_block] raises. *)
Lemma parse_mesh_block_errors (f : stream) (e : exn) :
  _parse_mesh_block f = Raise e ->
  e = EOFError \/ e = zlib_error
  \/ (exists got expected, e = ValueError (GeometryBlockSizeMismatch got expected))
  \/ e = ValueError NumpyReshape.
Proof.
  assert (Hint : forall s e', _read_int_le s = Raise e' -> e' = EOFError).
  { intros s e' H. pose proof (hoare_read_int_le) as Hh. unfold hoare in Hh.
    specialize (Hh s I). rewrite H in Hh. now symmetry. }
  unfold _parse_mesh_block. intros H.
  unfold bind at 1 in H.
  destruct (_read_int_le f) as [[t s1]|] eqn:E1;
    [|injection H as <-; left; eauto].
  unfold bind at 1 in H.
  destruct (_read_int_le s1) as [[V s2]|] eqn:E2;
    [|injection H as <-; left; eauto].
  unfold bind at 1 in H.
  destruct (_read_int_le s2) as [[F s3]|] eqn:E3;
    [|injection H as <-; left; eauto].
  unfold bind at 1 in H.
  destruct (_read_int_le s3) as [[C s4]|] eqn:E4;
    [|injection H as <-; left; eauto].
  unfold bind at 1 in H.
  destruct (_read_bytes C s4) as [[cdata s5]|] eqn:E5.
  2:{ injection H as <-. left.
      pose proof (hoare_read_exact C) as Hh. unfold hoare in Hh.
      specialize (Hh s4 I). unfold _read_bytes in E5. rewrite E5 in Hh.
      now symmetry. }
  unfold bind at 1, lift, _zlib_decompress in H.
  destruct (zlib_decompress cdata) as [raw|]; [|injection H as <-; auto].
  destruct (Z.eqb_spec (len raw) (V * 3 * 4 + F * 3 * 4)) as [Hlen|Hlen];
    cbn [negb] in H.
  2:{ unfold raise in H. injection H as <-. right. right. left. eauto. }
  assert (Hmod : len raw mod 4 = 0).
  { rewrite Hlen. replace (V * 3 * 4 + F * 3 * 4) with ((V * 3 + F * 3) * 4)
      by lia. apply Z_mod_mult. }
  assert (HV : (4 | V * 12)) by (exists (V * 3); lia).
  assert (HL : (4 | len raw)) by (apply Z.mod_divide; [lia|assumption]).
  unfold bind at 1 in H.
  destruct (frombuffer_reshape (slice_to raw (V * 12)) float32 V 3)
    as [vs|e1] eqn:Ev; cbn [lift] in H.
  2:{ injection H as <-. right. right. right.
      eapply frombuffer_reshape_raise; [|exact Ev].
      unfold slice_to. apply len_slice_mod4;
        [assumption|apply Z.divide_0_r|assumption]. }
  unfold bind at 1 in H.
  destruct (frombuffer_reshape (slice_from raw (V * 12)) int32 F 3)
    as [fs|e2] eqn:Ef; cbn [lift] in H.
  2:{ injection H as <-. right. right. right.
      eapply frombuffer_reshape_raise; [|exact Ef].
      unfold slice_from. apply len_slice_mod4; assumption. }
  discriminate.
Qed.

(** The numpy error of the mesh block needs a negative count. *)
Lemma parse_mesh_block_reshape_error (t4 v4 f4 more : bytes) :
  length t4 = 4%nat -> length v4 = 4%nat -> length f4 = 4%nat ->
  _parse_mesh_block (t4 ++ v4 ++ f4 ++ more) = Raise (ValueError NumpyReshape) ->
  unpack_i v4 < 0 \/ unpack_i f4 < 0.
Proof.
  intros Ht Hv Hf H.
  destruct (Z_lt_le_dec (unpack_i v4) 0) as [|HV]; [auto|].
  destruct (Z_lt_le_dec (unpack_i f4) 0) as [|HF]; [auto|].
  exfalso. revert H. unfold _parse_mesh_block. read_fields.
  unfold bind at 1.
  destruct (_read_int_le more) as [[C s4]|e4] eqn:E4.
  2:{ intros H. injection H as ->.
      pose proof (hoare_read_int_le) as Hh. unfold hoare in Hh.
      specialize (Hh more I). rewrite E4 in Hh. discriminate. }
  destruct (read_int_le_inv _ E4) as (c4 & Lc & -> & ->).
  unfold bind at 1.
  destruct (_read_bytes (unpack_i c4) s4) as [[cdata s5]|e5] eqn:E5.
  2:{ intros H. injection H as ->.
      pose proof (hoare_read_exact (unpack_i c4)) as Hh. unfold hoare in Hh.
      specialize (Hh s4 I). unfold _read_bytes in E5. rewrite E5 in Hh.
      discriminate. }
  unfold bind at 1, lift, _zlib_decompress.
  destruct (zlib_decompress cdata) as [raw|] eqn:Hz; [|discriminate].
  destruct (Z.eqb_spec (len raw) (unpack_i v4 * 3 * 4 + unpack_i f4 * 3 * 4))
    as [Hlen|Hlen]; cbn [negb]; [|discriminate].
  destruct (@frombuffer_reshape_ok (slice_to raw (unpack_i v4 * 12)) float32
              (unpack_i v4) 3) as (vs & Hvs & _); [lia|lia| |].
  { unfold slice_to. rewrite len_slice by lia. lia. }
  destruct (@frombuffer_reshape_ok (slice_from raw (unpack_i v4 * 12)) int32
              (unpack_i f4) 3) as (fs & Hfs & _); [lia|lia| |].
  { unfold slice_from. rewrite len_slice by lia. lia. }
  unfold bind, lift, ret. rewrite Hvs, Hfs. discriminate.
Qed.

(** X10.  [load_cxbin] raises only [EOFError], a zlib error, one of the
    two size-mismatch errors, one of the two truncation errors, or numpy's
    reshape error: it never raises [struct.error] and never numpy's
    buffer-size error. *)
Theorem X10_load_cxbin_errors (fp : stream) (e : exn) :
  load_cxbin fp = Raise e ->
  load_cxbin_error e
  /\ e <> struct_error /\ e <> ValueError NumpyBufferSize.
Proof.
  intros H.
  assert (He : load_cxbin_error e).
  { unfold load_cxbin in H. unfold load_cxbin_error.
    destruct (read_head fp) as [[h f]|e0] eqn:Hh.
    - destruct (negb (h =? 1)).
      + destruct (_parse_mesh_block f) as [[[[vs fs] meta] f1]|e1] eqn:Hg.
        * destruct (_read_int_le f1) as [[v f2]|e2] eqn:Ev.
          -- destruct (v =? 0); [discriminate|].
             destruct (v =? 1); [|discriminate].
             destruct (_parse_material_block_v1_new f2) as [[m ?]|e3] eqn:Em;
               [discriminate|].
             injection H as <-.
             destruct (proj1 (material_parser_errors f2 e3) Em)
               as [->|[->|[(g & x & ->)| ->]]]; eauto 10.
          -- pose proof (hoare_read_int_le) as Hr. unfold hoare in Hr.
             specialize (Hr f1 I). rewrite Ev in Hr. subst e2. discriminate.
        * injection H as <-.
          destruct (parse_mesh_block_errors _ Hg)
            as [->|[->|[(g & x & ->)| ->]]]; eauto 10.
      + destruct (_parse_material_block_v1_old f) as [[[[m vs] fs] ?]|e3] eqn:Em;
          [discriminate|].
        injection H as <-.
        destruct (proj2 (material_parser_errors f e3) Em)
          as [->|[->|[(g & x & ->)| ->]]]; eauto 10.
    - injection H as <-. left.
      pose proof (@hoare_bind stream Z Z (fun _ => True) _read_int_le
                    (fun head_code => bind (_read_bytes 12)
                                        (fun _ => ret head_code))
                    (fun _ _ => True) (fun _ _ => True) (eq EOFError)
                    hoare_read_int_le) as Hb.
      assert (Hr : hoare (fun _ : stream => True) read_head (fun _ _ => True)
                         (eq EOFError)).
      { apply Hb. intros a. eapply hoare_bind; [apply hoare_read_exact|].
        intros b. apply hoare_ret. auto. }
      unfold hoare in Hr. specialize (Hr fp I). rewrite Hh in Hr.
      now symmetry. }
  split; [exact He|].
  unfold load_cxbin_error in He.
  destruct He as [->|[->|[(g & x & ->)|[(g & x & ->)|[->|[->| ->]]]]]];
    split; discriminate.
Qed.

End LoadErrors.

Lemma X10_load_cxbin_errors_witness :
  load_cxbin (libs := example_libs) negative_count_file
  = Raise (ValueError NumpyReshape)
  /\ load_cxbin_error (ValueError NumpyReshape).
Proof.
  assert (Hrun : load_cxbin (libs := example_libs) negative_count_file
                 = Raise (ValueError NumpyReshape)) by (vm_compute; reflexivity).
  split; [exact Hrun|].
  exact (proj1 (@X10_load_cxbin_errors example_libs negative_count_file _ Hrun)).
Defined.

Section ReshapeError.

Context {libs : Libs}.

(** X11.  numpy's reshape error comes out of [load_cxbin] only on the
    versioned path and only when the geometry block declares a negative
    vertex or face count; a legacy file never raises it. *)
Theorem X11_reshape_error_needs_negative_count (h4 pad t4 v4 f4 more : bytes) :
  length h4 = 4%nat -> length pad = 12%nat ->
  length t4 = 4%nat -> length v4 = 4%nat -> length f4 = 4%nat ->
  load_cxbin (h4 ++ pad ++ t4 ++ v4 ++ f4 ++ more)
  = Raise (ValueError NumpyReshape) ->
  unpack_i h4 <> 1 /\ (unpack_i v4 < 0 \/ unpack_i f4 < 0).
Proof.
  intros Hh Hp Ht Hv Hf H.
  pose proof (@read_head_app h4 pad (t4 ++ v4 ++ f4 ++ more) Hh Hp) as Hhead.
  assert (Hmat : forall msg, ~ material_parser_error msg (ValueError NumpyReshape)
                             \/ msg = NumpyReshape).
  { intros msg. destruct msg; [left|left|left|left|left|right; reflexivity];
      intros [E|[E|[(g & x & E)|E]]]; discriminate. }
  destruct (Z.eq_dec (unpack_i h4) 1) as [E1|Hne].
  - exfalso. rewrite E1 in Hhead. rewrite (load_cxbin_legacy _ Hhead) in H.
    destruct (_parse_material_block_v1_old _) as [[[[m vs] fs] ?]|e] eqn:Em;
      [discriminate|].
    injection H as ->.
    apply (proj2 (material_parser_errors _ _)) in Em.
    destruct (Hmat OldV1BlockTruncated) as [Hn|Hn]; [auto|discriminate].
  - split; [exact Hne|].
    rewrite (load_cxbin_versioned _ Hhead Hne) in H.
    destruct (_parse_mesh_block (t4 ++ v4 ++ f4 ++ more))
      as [[[[vs fs] meta] f1]|e] eqn:Hg.
    + exfalso.
      destruct (_read_int_le f1) as [[v f2]|e2] eqn:Ev.
      * destruct (v =? 1); [|discriminate].
        destruct (_parse_material_block_v1_new f2) as [[m ?]|e3] eqn:Em;
          [discriminate|].
        injection H as ->.
        apply (proj1 (material_parser_errors _ _)) in Em.
        destruct (Hmat MaterialBlockTruncated) as [Hn|Hn]; [auto|discriminate].
      * pose proof hoare_read_int_le as Hr. unfold hoare in Hr.
        specialize (Hr f1 I). rewrite Ev in Hr. subst e2. discriminate.
    + injection H as ->.
      eapply parse_mesh_block_reshape_error; [exact Ht|exact Hv|exact Hf|exact Hg].
Qed.

End ReshapeError.

Lemma X11_reshape_error_needs_negative_count_witness :
  unpack_i (pack_i 7) <> 1
  /\ (unpack_i (pack_i (-1)) < 0 \/ unpack_i (pack_i 1) < 0).
Proof.
  exact (@X11_reshape_error_needs_negative_count example_libs
           (pack_i 7) pad12 (pack_i 0) (pack_i (-1)) (pack_i 1)
           (pack_i 11 ++ Stored.compress [])
           eq_refl eq_refl eq_refl eq_refl eq_refl eq_refl).
Defined.

(** ** The legacy map loop on a non-positive dimension *)

Section LegacyDims.

Context {libs : Libs}.

(** X12.  In the legacy map loop a width or height that is zero or
    negative stores an empty, non-PNG texture that carries the two
    dimensions as its size hint; only the eight bytes of the dimensions
    are consumed and the loop goes on with the next map. *)
Theorem X12_legacy_non_positive_dimension (raw : bytes) (n : nat)
        (texs : list Texture) (ptr width height : Z) :
  in_payload raw ptr -> ptr + 8 <= len raw ->
  unpack_from_i raw ptr = Ok width ->
  unpack_from_i raw (ptr + 4) = Ok height ->
  width <= 0 \/ height <= 0 ->
  maps_v1_old raw (S n) texs ptr
  = maps_v1_old raw n
      (texs ++ [{| data := []; is_png := false;
                   size_hint := Some (width, height) |}])
      (ptr + 8).
Proof.
  intros [Hp _] Hfit Hw Hh Hdim.
  rewrite (@maps_v1_old_dims _ raw n texs ptr width height Hp Hfit Hw Hh).
  replace (ptr + 4 + 4) with (ptr + 8) by lia.
  destruct (Z.leb_spec width 0); [reflexivity|].
  destruct (Z.leb_spec height 0); [reflexivity|lia].
Qed.

End LegacyDims.

Lemma X12_legacy_non_positive_dimension_witness :
  maps_v1_old (libs := example_libs) (pack_i 0 ++ pack_i 5 ++ [x01]) 1 [] 0
  = Ok ([{| data := []; is_png := false; size_hint := Some (0, 5) |}], 8).
Proof.
  assert (Hp : in_payload (pack_i 0 ++ pack_i 5 ++ [x01]) 0)
    by (unfold in_payload; change (len (pack_i 0 ++ pack_i 5 ++ [x01])) with 9;
        lia).
  assert (Hfit : 0 + 8 <= len (pack_i 0 ++ pack_i 5 ++ [x01]))
    by (change (len (pack_i 0 ++ pack_i 5 ++ [x01])) with 9; lia).
  rewrite (@X12_legacy_non_positive_dimension example_libs
             (pack_i 0 ++ pack_i 5 ++ [x01]) 0 [] 0 0 5
             Hp Hfit eq_refl eq_refl (or_introl (Z.le_refl 0))).
  reflexivity.
Defined.

(** ** The stand-alone converter against the reader *)

(** Split a list of a known short length into its items. *)
Ltac explode H :=
  match type of H with
  | length ?l = _ =>
      repeat (let x := fresh "x" in
              destruct l as [|x l]; simpl in H; try discriminate H);
      clear H
  end.

Lemma buffered_read_app (n : Z) (b : bytes) (s : stream) :
  len b = n -> buffered_read n (b ++ s) = Some (b, s).
Proof.
  intros Hn. unfold buffered_read. pose proof (len_nonneg b).
  destruct (Z.ltb_spec n (-1)); [lia|]. destruct (Z.eqb_spec n (-1)); [lia|].
  assert (E : Z.to_nat n = length b) by (unfold len in Hn; lia).
  rewrite E, firstn_app_exact, skipn_app_exact; reflexivity.
Qed.

Lemma read_head_inv (fp f : stream) (head_code : Z) :
  read_head fp = Ok (head_code, f) ->
  exists h4 pad, fp = h4 ++ pad ++ f /\ length h4 = 4%nat
                 /\ length pad = 12%nat /\ head_code = unpack_i h4.
Proof.
  unfold read_head. intros H. peel H. rename E into Eh. peel H.
  rename E into Ep. unfold ret in H. injection H as <- <-.
  destruct (read_int_le_inv _ Eh) as (h4 & Lh & -> & ->).
  destruct (read_exact_inv _ _ Ep) as (_ & Lp & ->).
  exists h4. eexists. repeat split; [exact Lh|unfold len in Lp; lia].
Qed.

Section ConverterProperties.

Context {libs : Libs}.
Variable mesh : Type.
Variable Trimesh : ndarray -> ndarray -> option mesh.

(** [parse_cxbin] on a file that holds 16 bytes, the four integers and
    the declared payload. *)
Lemma parse_cxbin_layout (hdr t4 v4 f4 c4 cdata rest : bytes) :
  length hdr = 16%nat ->
  length t4 = 4%nat -> length v4 = 4%nat -> length f4 = 4%nat ->
  length c4 = 4%nat -> len cdata = unpack_i c4 ->
  parse_cxbin Trimesh (hdr ++ t4 ++ v4 ++ f4 ++ c4 ++ cdata ++ rest)
  = match zlib_decompress cdata with
    | None => Raises zlib_error
    | Some raw =>
        if negb (len raw =? unpack_i v4 * 12 + unpack_i f4 * 12)
        then Returns None
        else
          match frombuffer_reshape (slice_to raw (unpack_i v4 * 12))
                  float32 (unpack_i v4) 3 with
          | Raise e => Raises e
          | Ok vertices =>
              match frombuffer_reshape (slice_from raw (unpack_i v4 * 12))
                      int32 (unpack_i f4) 3 with
              | Raise e => Raises e
              | Ok faces =>
                  match Trimesh vertices faces with
                  | None => RaisesTrimesh
                  | Some m =>
                      Returns
                        (Some (m,
                               {| md_vertices := unpack_i v4;
                                  md_faces := unpack_i f4;
                                  md_compressed_bytes := unpack_i c4;
                                  md_uncompressed_bytes := len raw |}))
                  end
              end
          end
    end.
Proof.
  intros Hh Ht Hv Hf Hc Hcd. unfold parse_cxbin.
  rewrite (skipn_app_exact hdr _ Hh).
  explode Ht. explode Hv. explode Hf. explode Hc.
  cbn [app firstn skipn]. change (len [_; _; _; _; _; _; _; _; _; _; _; _]) with 12.
  change (len [x8; x9; x10; x11]) with 4. cbn [Z.ltb Z.eqb Z.compare Pos.compare
    Pos.compare_cont negb].
  rewrite buffered_read_app by assumption. reflexivity.
Qed.

(** X13.  Where [load_cxbin] decodes a versioned file, the stand-alone
    [parse_cxbin] builds its mesh from the same vertex and face arrays and
    reports the counts and the two byte counters of the document.  It
    never looks at the first 16 bytes: the same holds when they are
    replaced by any other 16 bytes, a legacy head code included. *)
Theorem X13_parse_cxbin_agrees_with_load_cxbin (hdr hdr' body : bytes)
        (doc : CxbinMesh) :
  length hdr = 16%nat -> length hdr' = 16%nat ->
  unpack_i (firstn 4 hdr) <> 1 ->
  load_cxbin (hdr ++ body) = Ok doc ->
  exists c u,
    compressed_bytes doc = Some c /\ uncompressed_bytes doc = Some u
    /\ parse_cxbin Trimesh (hdr' ++ body)
       = match Trimesh (vertices doc) (faces doc) with
         | None => RaisesTrimesh
         | Some m =>
             Returns (Some (m, {| md_vertices := len (vertices doc);
                                  md_faces := len (faces doc);
                                  md_compressed_bytes := c;
                                  md_uncompressed_bytes := u |}))
         end.
Proof.
  intros Hh Hh' Hne Hdoc.
  assert (Hhead : read_head (hdr ++ body) = Ok (unpack_i (firstn 4 hdr), body)).
  { rewrite <- (firstn_skipn 4 hdr) at 1. rewrite <- app_assoc.
    apply read_head_app; [rewrite length_firstn|rewrite length_skipn]; lia. }
  destruct (_parse_mesh_block body) as [[[[vs fs] meta] f1]|e] eqn:Hg.
  2:{ rewrite (load_cxbin_versioned _ Hhead Hne), Hg in Hdoc. discriminate. }
  destruct (load_cxbin_versioned_fields _ Hhead Hne Hg Hdoc)
    as (-> & -> & Ec & Eu).
  destruct (parse_mesh_block_inv _ Hg)
    as (t4 & v4 & f4 & c4 & cdata & raw & -> & Lt & Lv & Lf & Lc & Lcd
        & Hz & Hraw & Hvs & Hfs & ->).
  destruct (@mesh_block_counts raw _ _ _ _ Hraw Hvs Hfs) as (_ & _ & LV & LF).
  exists (unpack_i c4), (len raw). split; [exact Ec|]. split; [exact Eu|].
  rewrite parse_cxbin_layout by assumption.
  rewrite Hz.
  destruct (Z.eqb_spec (len raw) (unpack_i v4 * 12 + unpack_i f4 * 12));
    [|contradiction].
  cbn [negb]. rewrite Hvs, Hfs, LV, LF. reflexivity.
Qed.

(** X14.  On a geometry payload whose decompressed length disagrees with
    the counts, [parse_cxbin] returns [(None, None)] whatever the head
    code, whereas [load_cxbin] raises the geometry-size-mismatch error on
    the versioned path. *)
Theorem X14_parse_cxbin_size_mismatch (h4 pad t4 v4 f4 c4 cdata rest raw : bytes) :
  length h4 = 4%nat -> length pad = 12%nat ->
  length t4 = 4%nat -> length v4 = 4%nat -> length f4 = 4%nat ->
  length c4 = 4%nat -> len cdata = unpack_i c4 ->
  zlib_decompress cdata = Some raw ->
  len raw <> unpack_i v4 * 12 + unpack_i f4 * 12 ->
  parse_cxbin Trimesh (h4 ++ pad ++ t4 ++ v4 ++ f4 ++ c4 ++ cdata ++ rest)
  = Returns None
  /\ (unpack_i h4 <> 1 ->
      load_cxbin (h4 ++ pad ++ t4 ++ v4 ++ f4 ++ c4 ++ cdata ++ rest)
      = Raise (ValueError (GeometryBlockSizeMismatch (len raw)
                             (unpack_i v4 * 12 + unpack_i f4 * 12)))).
Proof.
  intros Hh Hp Ht Hv Hf Hc Hcd Hz Hraw. split.
  - rewrite (app_assoc h4 pad).
    rewrite parse_cxbin_layout;
      try assumption; [|rewrite length_app; lia].
    rewrite Hz.
    destruct (Z.eqb_spec (len raw) (unpack_i v4 * 12 + unpack_i f4 * 12));
      [contradiction|reflexivity].
  - intros Hne.
    pose proof (@read_head_app h4 pad
                  (t4 ++ v4 ++ f4 ++ c4 ++ cdata ++ rest) Hh Hp) as Hhead.
    rewrite (load_cxbin_versioned _ Hhead Hne).
    rewrite (@parse_mesh_block_mismatch _ t4 v4 f4 c4 cdata rest raw);
      auto.
Qed.

(** X15.  [parse_cxbin] returns [(None, None)] for a file of fewer than
    28 bytes (the empty file included), and raises [struct.error] when the
    file stops inside the compressed-length field. *)
Theorem X15_parse_cxbin_short_file (file : stream) :
  (len file < 28 -> parse_cxbin Trimesh file = Returns None)
  /\ (28 <= len file < 32 -> parse_cxbin Trimesh file = Raises struct_error).
Proof.
  unfold parse_cxbin. split; intros Hl.
  - assert (E : (len (firstn 12 (skipn 16 file)) <? 12) = true).
    { apply Z.ltb_lt. unfold len in *.
      rewrite length_firstn, length_skipn. lia. }
    rewrite E. reflexivity.
  - assert (E : (len (firstn 12 (skipn 16 file)) <? 12) = false).
    { apply Z.ltb_ge. unfold len in *.
      rewrite length_firstn, length_skipn. lia. }
    rewrite E.
    assert (E4 : (len (firstn 4 (skipn 12 (skipn 16 file))) =? 4) = false).
    { apply Z.eqb_neq. unfold len in *.
      rewrite length_firstn, !length_skipn. lia. }
    rewrite E4. reflexivity.
Qed.

End ConverterProperties.

(** The one-triangle file, also behind a legacy head code. *)
Lemma X13_parse_cxbin_agrees_with_load_cxbin_witness :
  parse_cxbin (libs := example_libs) example_Trimesh
    ((pack_i 1 ++ pad12) ++ skipn 16 triangle_file)
  = Returns (Some (([[0; 1065353216; 1073741824]], [[0; 0; 0]]),
                   {| md_vertices := 1; md_faces := 1;
                      md_compressed_bytes := 35;
                      md_uncompressed_bytes := 24 |})).
Proof.
  assert (Hne : unpack_i (firstn 4 (pack_i 7 ++ pad12)) <> 1)
    by (vm_compute; discriminate).
  destruct (@X13_parse_cxbin_agrees_with_load_cxbin example_libs _
              example_Trimesh (pack_i 7 ++ pad12) (pack_i 1 ++ pad12)
              (skipn 16 triangle_file)
              (geometry_only [[0; 1065353216; 1073741824]] [[0; 0; 0]]
                 {| meta_compressed_bytes := 35;
                    meta_uncompressed_bytes := 24 |})
              eq_refl eq_refl Hne eq_refl) as (c & u & Hc & Hu & Hp).
  injection Hc as <-. injection Hu as <-. exact Hp.
Defined.

(** The one-triangle block with a face count of 2. *)
Lemma X14_parse_cxbin_size_mismatch_witness :
  parse_cxbin (libs := example_libs) example_Trimesh
    (pack_i 7 ++ pad12 ++ pack_i 24 ++ pack_i 1 ++ pack_i 2 ++ pack_i 35
     ++ Stored.compress triangle_payload ++ [])
  = Returns None.
Proof.
  assert (Hne : len triangle_payload
                <> unpack_i (pack_i 1) * 12 + unpack_i (pack_i 2) * 12)
    by (vm_compute; discriminate).
  exact (proj1 (@X14_parse_cxbin_size_mismatch example_libs _ example_Trimesh
                  (pack_i 7) pad12 (pack_i 24) (pack_i 1) (pack_i 2)
                  (pack_i 35) (Stored.compress triangle_payload) []
                  triangle_payload
                  eq_refl eq_refl eq_refl eq_refl eq_refl eq_refl eq_refl
                  eq_refl Hne)).
Defined.

Lemma X15_parse_cxbin_short_file_witness :
  parse_cxbin (libs := example_libs) example_Trimesh [] = Returns None
  /\ parse_cxbin (libs := example_libs) example_Trimesh (firstn 30 triangle_file)
     = Raises struct_error.
Proof.
  split.
  - apply (proj1 (@X15_parse_cxbin_short_file example_libs _ example_Trimesh [])).
    vm_compute. reflexivity.
  - apply (proj2 (@X15_parse_cxbin_short_file example_libs _ example_Trimesh
                    (firstn 30 triangle_file))).
    change (len (firstn 30 triangle_file)) with 30. lia.
Defined.

(** ** When a material block parses *)

Lemma costs_ret {A : Type} (raw : bytes) (msg : ValueError_msg) (a : A)
      (Q : A -> Prop) :
  Q a -> costs raw msg (ret a) 0 Q.
Proof.
  intros HQ. split; [lia|]. intros p [Hp0 Hp1]. simpl.
  repeat split; [exact HQ|lia|lia].
Qed.

Lemma costs_bind {A B : Type} (raw : bytes) (msg : ValueError_msg)
      (c : M Z A) (k : A -> M Z B) (a b : Z) (Q : A -> Prop) (R : B -> Prop) :
  costs raw msg c a Q -> (forall x, Q x -> costs raw msg (k x) b R) ->
  0 <= b ->
  costs raw msg (bind c k) (a + b) R.
Proof.
  intros [Ha Hc] Hk Hb. split; [lia|]. intros p Hp. unfold bind.
  specialize (Hc p Hp). destruct (c p) as [[x p1]|e].
  - destruct Hc as (HQ & -> & Hfit). destruct (Hk x HQ) as [_ Hk'].
    assert (Hp1 : in_payload raw (p + a)) by (destruct Hp; split; lia).
    specialize (Hk' (p + a) Hp1).
    destruct (k x (p + a)) as [[y p2]|e].
    + destruct Hk' as (HR & -> & Hfit2). repeat split; [exact HR|lia|lia].
    + destruct Hk' as [-> Hl]. split; [reflexivity|lia].
  - destruct Hc as [-> Hl]. split; [reflexivity|lia].
Qed.

Lemma costs_take (raw : bytes) (msg : ValueError_msg) (n : Z) :
  0 < n -> costs raw msg (take raw msg n) n (fun b => len b = n).
Proof.
  intros Hn. split; [lia|]. intros p [Hp0 Hp1]. unfold take.
  destruct (Z.eqb_spec (len (slice raw p (p + n))) n) as [E|E]; simpl.
  - split; [exact E|]. split; [reflexivity|]. apply len_slice_full in E; lia.
  - split; [reflexivity|].
    destruct (Z_lt_le_dec (len raw) (p + n)) as [|Hfit]; [assumption|].
    exfalso. apply E. apply len_slice_full; lia.
Qed.

Lemma costs_weaken {A : Type} (raw : bytes) (msg : ValueError_msg) (c : M Z A)
      (cost cost' : Z) (Q : A -> Prop) :
  costs raw msg c cost Q -> cost = cost' -> costs raw msg c cost' (fun _ => True).
Proof.
  intros [H0 H] <-. split; [exact H0|]. intros p Hp. specialize (H p Hp).
  destruct (c p) as [[a p']|e]; [|exact H]. tauto.
Qed.

Lemma costs_array (raw : bytes) (msg : ValueError_msg) (n : Z) (d : dtype)
      (cols : nat) :
  (0 < cols)%nat ->
  costs raw msg
    (if n >? 0
     then b <- take raw msg (n * Z.of_nat cols * 4) ;;
          a <- lift (frombuffer_reshape b d n cols) ;;
          ret (Some a)
     else ret None)
    (Z.max 0 n * (Z.of_nat cols * 4)) (fun _ => True).
Proof.
  intros Hc. assert (Hc' : 0 < Z.of_nat cols) by lia.
  destruct (Z.gtb_spec n 0) as [Hn|Hn].
  - eapply costs_weaken with (cost := n * Z.of_nat cols * 4 + 0); [|lia].
    eapply costs_bind with (R := fun _ => True); [apply costs_take; nia| |lia].
    intros b Hb. split; [lia|]. intros p Hp. unfold bind, lift.
    destruct (@frombuffer_reshape_ok b d n cols) as (a & Ha & _);
      [assumption|lia|exact Hb|].
    rewrite Ha. simpl. destruct Hp. split; [exact I|]. split; lia.
  - eapply costs_weaken with (Q := fun _ => True);
      [apply costs_ret; exact I|lia].
Qed.

Lemma costs_read_uvs (raw : bytes) (msg : ValueError_msg) (n : Z) :
  costs raw msg (read_uvs raw msg n) (Z.max 0 n * 8) (fun _ => True).
Proof.
  pose proof (@costs_array raw msg n float32 2 ltac:(lia)) as H.
  change (Z.of_nat 2) with 2 in H. exact H.
Qed.

Lemma costs_read_face_uvs (raw : bytes) (msg : ValueError_msg) (n : Z) :
  costs raw msg (read_face_uvs raw msg n) (Z.max 0 n * 12) (fun _ => True).
Proof.
  pose proof (@costs_array raw msg n int32 3 ltac:(lia)) as H.
  change (Z.of_nat 3) with 3 in H. exact H.
Qed.

Lemma costs_read_texture_ids (raw : bytes) (msg : ValueError_msg) (n : Z) :
  costs raw msg (read_texture_ids raw msg n) (Z.max 0 n * 4) (fun _ => True).
Proof.
  unfold read_texture_ids. destruct (Z.gtb_spec n 0) as [Hn|Hn].
  - eapply costs_weaken with (cost := n * 4 + 0); [|lia].
    eapply costs_bind with (R := fun _ => True); [apply costs_take; lia| |lia].
    intros b Hb. split; [lia|]. intros p Hp. unfold bind, lift, np_frombuffer.
    assert (Hm : len b mod 4 = 0) by (rewrite Hb; apply Z_mod_mult).
    rewrite Hm. simpl. destruct Hp. split; [exact I|]. split; lia.
  - eapply costs_weaken with (Q := fun _ => True);
      [apply costs_ret; exact I|lia].
Qed.

Lemma blob_bytes_nonneg (sizes : list Z) : 0 <= blob_bytes sizes.
Proof. induction sizes; simpl; lia. Qed.

Lemma costs_read_blocks (raw : bytes) (msg : ValueError_msg) (sizes : list Z) :
  forall blocks,
    costs raw msg (read_blocks raw msg sizes blocks) (blob_bytes sizes)
          (fun _ => True).
Proof.
  induction sizes as [|size sizes IH]; intros blocks; simpl.
  - apply costs_ret. exact I.
  - pose proof (blob_bytes_nonneg sizes).
    eapply costs_bind with (Q := fun _ => True); [|intros; apply IH|assumption].
    destruct (Z.gtb_spec size 0).
    + eapply costs_weaken; [apply costs_take; lia|lia].
    + eapply costs_weaken with (Q := fun _ => True);
      [apply costs_ret; exact I|lia].
Qed.

Lemma fits_bind {A B : Type} (raw : bytes) (msg : ValueError_msg)
      (c : M Z A) (k : A -> M Z B) (a b : Z) (Q : A -> Prop) :
  costs raw msg c a Q -> (forall x, Q x -> fits raw msg (k x) b) -> 0 <= b ->
  fits raw msg (bind c k) (a + b).
Proof.
  intros [Ha Hc] Hk Hb p Hp. unfold bind.
  specialize (Hc p Hp). destruct (c p) as [[x p1]|e].
  - destruct Hc as (HQ & -> & Hfit).
    assert (Hp1 : in_payload raw (p + a)) by (destruct Hp; split; lia).
    specialize (Hk x HQ (p + a) Hp1).
    destruct (k x (p + a)) as [[y p2]|e]; [lia|].
    destruct Hk as [-> Hl]. split; [reflexivity|lia].
  - destruct Hc as [-> Hl]. split; [reflexivity|lia].
Qed.

Section WhenBlocksParse.

Context {libs : Libs}.

Lemma costs_read_material_name (raw : bytes) (msg : ValueError_msg) (n : Z) :
  costs raw msg (read_material_name raw msg n) (Z.max 0 n) (fun _ => True).
Proof.
  unfold read_material_name. destruct (Z.gtb_spec n 0) as [Hn|Hn].
  - eapply costs_weaken with (cost := n + 0); [|lia].
    eapply costs_bind with (R := fun _ => True); [apply costs_take; lia| |lia].
    intros b Hb. apply costs_ret. exact I.
  - eapply costs_weaken with (Q := fun _ => True);
      [apply costs_ret; exact I|lia].
Qed.

Lemma fits_maps_v1_new (raw : bytes) (msg : ValueError_msg) (n : nat) {A : Type}
      (k : list Texture -> A) :
  fits raw msg (texs <- maps_v1_new raw n [] ;; ret (k texs)) 0.
Proof.
  intros p Hp. unfold bind.
  destruct (@maps_v1_new_total raw n [] p Hp) as (more & p' & -> & _ & _).
  simpl. destruct Hp. lia.
Qed.

Lemma fits_maps_v1_old (raw : bytes) (msg : ValueError_msg) (n : nat) {A : Type}
      (k : list Texture -> A) :
  fits raw msg (texs <- maps_v1_old raw n [] ;; ret (k texs)) 0.
Proof.
  intros p Hp. unfold bind.
  destruct (@maps_v1_old_total _ raw n [] p Hp) as (more & p' & -> & _ & _).
  simpl. destruct Hp. lia.
Qed.

Lemma fits_walk_v1_new (raw : bytes)
      (uv_num face_uv_num texture_id_num : Z) (material_sizes : list Z)
      (mtl_name_len map_type_count : Z) :
  fits raw MaterialBlockTruncated
       (walk_v1_new raw uv_num face_uv_num texture_id_num material_sizes
          mtl_name_len map_type_count)
       (new_fixed_bytes uv_num face_uv_num texture_id_num material_sizes
          mtl_name_len).
Proof.
  unfold walk_v1_new, new_fixed_bytes. cbv zeta.
  pose proof (blob_bytes_nonneg material_sizes).
  eapply fits_bind; [apply costs_read_uvs| |lia]. intros u _.
  eapply fits_bind; [apply costs_read_face_uvs| |lia]. intros fu _.
  eapply fits_bind; [apply costs_read_texture_ids| |lia]. intros t _.
  eapply fits_bind; [apply costs_read_blocks| |lia]. intros b _.
  replace (Z.max 0 mtl_name_len) with (Z.max 0 mtl_name_len + 0) by lia.
  eapply fits_bind; [apply costs_read_material_name| |lia]. intros nm _.
  apply fits_maps_v1_new.
Qed.

(** The geometry the legacy walk reads first. *)
Lemma costs_legacy_bytes (raw : bytes) (n : Z) :
  costs raw OldV1BlockTruncated
        (if n >? 0 then take raw OldV1BlockTruncated (n * 3 * 4) else ret [])
        (Z.max 0 n * 12) (fun b => 0 < n -> len b = n * 3 * 4).
Proof.
  destruct (Z.gtb_spec n 0) as [Hn|Hn].
  - destruct (@costs_take raw OldV1BlockTruncated (n * 3 * 4)) as [H0 H]; [lia|].
    split; [lia|]. intros p Hp. specialize (H p Hp).
    destruct (take _ _ _ p) as [[b p']|e].
    + destruct H as (Hb & -> & Hfit). repeat split; [auto|lia|lia].
    + destruct H as [-> Hl]. split; [reflexivity|lia].
  - split; [lia|]. intros p [Hp0 Hp1]. simpl. repeat split; lia.
Qed.

Lemma fits_legacy_rows (raw : bytes) (d : dtype) (n : Z) (b : bytes)
      {A : Type} (k : ndarray -> M Z A) (need : Z) :
  (0 < n -> len b = n * 3 * 4) ->
  (forall a, fits raw OldV1BlockTruncated (k a) need) ->
  fits raw OldV1BlockTruncated
       (bind (lift (if n >? 0 then frombuffer_reshape b d n 3 else Ok [])) k)
       need.
Proof.
  intros Hb Hk p Hp. unfold bind, lift.
  destruct (Z.gtb_spec n 0) as [Hn|Hn].
  - destruct (@frombuffer_reshape_ok b d n 3) as (a & Ha & _);
      [lia|lia|rewrite Hb; lia|].
    rewrite Ha. apply Hk. exact Hp.
  - apply Hk. exact Hp.
Qed.

Lemma fits_walk_v1_old (raw : bytes)
      (vert_num face_num uv_num face_uv_num texture_id_num : Z)
      (material_sizes : list Z) (mtl_name_len map_type_count : Z) :
  fits raw OldV1BlockTruncated
       (walk_v1_old raw vert_num face_num uv_num face_uv_num texture_id_num
          material_sizes mtl_name_len map_type_count)
       (legacy_fixed_bytes vert_num face_num uv_num face_uv_num texture_id_num
          material_sizes mtl_name_len).
Proof.
  unfold walk_v1_old, legacy_fixed_bytes, new_fixed_bytes. cbv zeta.
  pose proof (blob_bytes_nonneg material_sizes).
  eapply fits_bind; [apply costs_legacy_bytes| |lia]. intros vb Hvb.
  apply fits_legacy_rows; [exact Hvb|]. intros vs.
  eapply fits_bind; [apply costs_legacy_bytes| |lia]. intros fb Hfb.
  apply fits_legacy_rows; [exact Hfb|]. intros fs.
  eapply fits_bind; [apply costs_read_uvs| |lia]. intros u _.
  eapply fits_bind; [apply costs_read_face_uvs| |lia]. intros fu _.
  eapply fits_bind; [apply costs_read_texture_ids| |lia]. intros t _.
  eapply fits_bind; [apply costs_read_blocks| |lia]. intros b _.
  replace (Z.max 0 mtl_name_len) with (Z.max 0 mtl_name_len + 0) by lia.
  eapply fits_bind; [apply costs_read_material_name| |lia]. intros nm _.
  apply fits_maps_v1_old.
Qed.

(** X16.  Once its payload has decompressed to the declared total size,
    the new material block parses exactly when the payload holds the
    bytes of the fields before the texture maps -- 8 per UV, 12 per face
    UV, 4 per texture id, every positive material size and the name --
    and raises the truncation error otherwise.  The texture maps never
    decide: missing map bytes are tolerated. *)
Theorem X16_new_material_block_parses_iff_fits
        (T4 U4 FU4 TI4 M4 S4 N4 K4 C4 cdata rest raw : bytes) :
  length T4 = 4%nat -> length U4 = 4%nat -> length FU4 = 4%nat ->
  length TI4 = 4%nat -> length M4 = 4%nat ->
  length S4 = (4 * Z.to_nat (unpack_i M4))%nat ->
  length N4 = 4%nat -> length K4 = 4%nat -> length C4 = 4%nat ->
  len cdata = unpack_i C4 ->
  zlib_decompress cdata = Some raw -> len raw = unpack_i T4 ->
  let need := new_fixed_bytes (unpack_i U4) (unpack_i FU4) (unpack_i TI4)
                (ints_of S4) (unpack_i N4) in
  let block := T4 ++ U4 ++ FU4 ++ TI4 ++ M4 ++ S4 ++ N4 ++ K4 ++ C4
               ++ cdata ++ rest in
  (need <= len raw ->
   exists mats, _parse_material_block_v1_new block = Ok (mats, rest))
  /\ (len raw < need ->
      _parse_material_block_v1_new block
      = Raise (ValueError MaterialBlockTruncated)).
Proof.
  intros HT HU HFU HTI HM HS HN HK HC Hcd Hz Hraw need block.
  unfold block. rewrite parse_material_block_v1_new_layout by assumption.
  unfold _zlib_decompress. rewrite Hz.
  destruct (Z.eqb_spec (len raw) (unpack_i T4)) as [_|]; [|contradiction].
  cbn [negb].
  pose proof (@fits_walk_v1_new raw (unpack_i U4) (unpack_i FU4) (unpack_i TI4)
                (ints_of S4) (unpack_i N4) (unpack_i K4) 0
                (conj (Z.le_refl 0) (len_nonneg raw))) as Hf.
  fold need in Hf. unfold from_start.
  destruct (walk_v1_new _ _ _ _ _ _ _ 0) as [[mats p]|e].
  - split; [eauto|lia].
  - destruct Hf as [-> Hl]. split; [lia|reflexivity].
Qed.

(** X17.  The same for the legacy block, whose fixed part starts with 12
    bytes per vertex and 12 per face. *)
Theorem X17_legacy_block_parses_iff_fits
        (T4 V4 F4 U4 FU4 TI4 M4 S4 N4 K4 C4 cdata rest raw : bytes) :
  length T4 = 4%nat -> length V4 = 4%nat -> length F4 = 4%nat ->
  length U4 = 4%nat -> length FU4 = 4%nat ->
  length TI4 = 4%nat -> length M4 = 4%nat ->
  length S4 = (4 * Z.to_nat (unpack_i M4))%nat ->
  length N4 = 4%nat -> length K4 = 4%nat -> length C4 = 4%nat ->
  len cdata = unpack_i C4 ->
  zlib_decompress cdata = Some raw -> len raw = unpack_i T4 ->
  let need := legacy_fixed_bytes (unpack_i V4) (unpack_i F4) (unpack_i U4)
                (unpack_i FU4) (unpack_i TI4) (ints_of S4) (unpack_i N4) in
  let block := T4 ++ V4 ++ F4 ++ U4 ++ FU4 ++ TI4 ++ M4 ++ S4 ++ N4 ++ K4
               ++ C4 ++ cdata ++ rest in
  (need <= len raw ->
   exists r, _parse_material_block_v1_old block = Ok (r, rest))
  /\ (len raw < need ->
      _parse_material_block_v1_old block
      = Raise (ValueError OldV1BlockTruncated)).
Proof.
  intros HT HV HF HU HFU HTI HM HS HN HK HC Hcd Hz Hraw need block.
  unfold block. rewrite parse_material_block_v1_old_layout by assumption.
  unfold _zlib_decompress. rewrite Hz.
  destruct (Z.eqb_spec (len raw) (unpack_i T4)) as [_|]; [|contradiction].
  cbn [negb].
  pose proof (@fits_walk_v1_old raw (unpack_i V4) (unpack_i F4) (unpack_i U4)
                (unpack_i FU4) (unpack_i TI4) (ints_of S4) (unpack_i N4)
                (unpack_i K4) 0 (conj (Z.le_refl 0) (len_nonneg raw))) as Hf.
  fold need in Hf. unfold from_start.
  destruct (walk_v1_old _ _ _ _ _ _ _ _ _ 0) as [[r p]|e].
  - split; [eauto|lia].
  - destruct Hf as [-> Hl]. split; [lia|reflexivity].
Qed.

End WhenBlocksParse.

(** The block with every field present needs 35 of its 41 bytes; a block
    that declares a 5-byte material over a 2-byte payload is truncated. *)
Lemma X16_new_material_block_parses_iff_fits_witness :
  (exists mats,
     _parse_material_block_v1_new (libs := example_libs) full_material_block
     = Ok (mats, []))
  /\ _parse_material_block_v1_new (libs := example_libs)
       (new_material_block 2 0 0 0 1 [5] 0 0 [x61; x62])
     = Raise (ValueError MaterialBlockTruncated).
Proof.
  split.
  - refine (proj1 (@X16_new_material_block_parses_iff_fits example_libs
                     (pack_i 41) (pack_i 1) (pack_i 1) (pack_i 2) (pack_i 2)
                     (pack_i 3 ++ pack_i 0) (pack_i 4) (pack_i 1) (pack_i 52)
                     (Stored.compress full_material_payload) []
                     full_material_payload
                     eq_refl eq_refl eq_refl eq_refl eq_refl eq_refl
                     eq_refl eq_refl eq_refl eq_refl eq_refl eq_refl) _).
    vm_compute. discriminate.
  - refine (proj2 (@X16_new_material_block_parses_iff_fits example_libs
                     (pack_i 2) (pack_i 0) (pack_i 0) (pack_i 0) (pack_i 1)
                     (pack_i 5) (pack_i 0) (pack_i 0) (pack_i 13)
                     (Stored.compress [x61; x62]) [] [x61; x62]
                     eq_refl eq_refl eq_refl eq_refl eq_refl eq_refl
                     eq_refl eq_refl eq_refl eq_refl eq_refl eq_refl) _).
    vm_compute. reflexivity.
Defined.

(** Twelve payload bytes hold one vertex, not two. *)
Lemma X17_legacy_block_parses_iff_fits_witness :
  (exists r,
     _parse_material_block_v1_old (libs := example_libs)
       legacy_negative_faces_block = Ok (r, []))
  /\ _parse_material_block_v1_old (libs := example_libs)
       (legacy_block 12 2 0 0 0 0 0 [] 0 0 (repeat x00 12))
     = Raise (ValueError OldV1BlockTruncated).
Proof.
  split.
  - refine (proj1 (@X17_legacy_block_parses_iff_fits example_libs
                     (pack_i 12) (pack_i 1) (pack_i (-2)) (pack_i 0) (pack_i 0)
                     (pack_i 0) (pack_i 0) [] (pack_i 0) (pack_i 0) (pack_i 23)
                     (Stored.compress (repeat x00 12)) [] (repeat x00 12)
                     eq_refl eq_refl eq_refl eq_refl eq_refl eq_refl eq_refl
                     eq_refl eq_refl eq_refl eq_refl eq_refl eq_refl eq_refl) _).
    vm_compute. discriminate.
  - refine (proj2 (@X17_legacy_block_parses_iff_fits example_libs
                     (pack_i 12) (pack_i 2) (pack_i 0) (pack_i 0) (pack_i 0)
                     (pack_i 0) (pack_i 0) [] (pack_i 0) (pack_i 0) (pack_i 23)
                     (Stored.compress (repeat x00 12)) [] (repeat x00 12)
                     eq_refl eq_refl eq_refl eq_refl eq_refl eq_refl eq_refl
                     eq_refl eq_refl eq_refl eq_refl eq_refl eq_refl eq_refl) _).
    vm_compute. reflexivity.
Defined.

(** ** A versioned document with materials *)

Section VersionOneDocument.

Context {libs : Libs}.


End VersionOneDocument.


(** ** The texture maps in the record a parser returns (C5, C6) *)

Lemma costs_run {A : Type} (raw : bytes) (msg : ValueError_msg) (c : M Z A)
      (cost : Z) (Q : A -> Prop) (p : Z) :
  costs raw msg c cost Q -> in_payload raw p -> p + cost <= len raw ->
  exists a, c p = Ok (a, p + cost).
Proof.
  intros [_ H] Hp Hfit. specialize (H p Hp).
  destruct (c p) as [[a p']|e].
  - destruct H as (_ & -> & _). eauto.
  - destruct H as [_ Hl]. lia.
Qed.

(** A map whose declared size overruns the payload is stored with the
    bytes that are left, and it is the last one. *)
Lemma maps_v1_new_clamped_last (raw : bytes) (n : nat) (texs : list Texture)
      (ptr : Z) :
  0 <= ptr -> ptr + 4 <= len raw ->
  len raw - (ptr + 4) < unpack_i (firstn 4 (skipn (Z.to_nat ptr) raw)) ->
  clamped (unpack_i (firstn 4 (skipn (Z.to_nat ptr) raw))) (len raw - (ptr + 4))
  = len raw - (ptr + 4)
  /\ maps_v1_new raw (S n) texs ptr
     = Ok (texs ++ [new_texture (slice raw (ptr + 4) (len raw))], len raw).
Proof.
  intros Hp Hfit Hover.
  assert (E : clamped (unpack_i (firstn 4 (skipn (Z.to_nat ptr) raw)))
                (len raw - (ptr + 4)) = len raw - (ptr + 4)).
  { unfold clamped.
    destruct (Z.ltb_spec (unpack_i (firstn 4 (skipn (Z.to_nat ptr) raw))) 0);
      lia. }
  split; [exact E|].
  destruct (@maps_v1_new_step raw n texs ptr Hp Hfit) as [_ Hstep].
  cbv zeta in Hstep. rewrite E in Hstep. rewrite Hstep.
  replace (ptr + 4 + (len raw - (ptr + 4))) with (len raw) by lia.
  apply maps_v1_new_stop. lia.
Qed.

Section ReturnedTextures.

Context {libs : Libs}.

(** When the fields before the maps fit, the walk of the new block
    returns, and its textures are those the map loop reads from the
    cursor that follows these fields. *)
Lemma walk_v1_new_textures (raw : bytes)
      (uv_num face_uv_num texture_id_num : Z) (material_sizes : list Z)
      (mtl_name_len map_type_count : Z) :
  new_fixed_bytes uv_num face_uv_num texture_id_num material_sizes mtl_name_len
  <= len raw ->
  exists mats p',
    walk_v1_new raw uv_num face_uv_num texture_id_num material_sizes
      mtl_name_len map_type_count 0 = Ok (mats, p')
    /\ maps_v1_new raw (Z.to_nat (Z.max 0 map_type_count)) []
         (new_fixed_bytes uv_num face_uv_num texture_id_num material_sizes
            mtl_name_len)
       = Ok (textures mats, p').
Proof.
  unfold new_fixed_bytes. intros Hfit.
  pose proof (blob_bytes_nonneg material_sizes) as Hb.
  set (msg := MaterialBlockTruncated).
  set (a1 := Z.max 0 uv_num * 8) in *.
  set (a2 := Z.max 0 face_uv_num * 12) in *.
  set (a3 := Z.max 0 texture_id_num * 4) in *.
  set (a4 := blob_bytes material_sizes) in *.
  set (a5 := Z.max 0 mtl_name_len) in *.
  assert (H1 : 0 <= a1) by (unfold a1; lia).
  assert (H2 : 0 <= a2) by (unfold a2; lia).
  assert (H3 : 0 <= a3) by (unfold a3; lia).
  assert (H5 : 0 <= a5) by (unfold a5; lia).
  destruct (@costs_run _ raw msg _ _ _ 0 (costs_read_uvs raw msg uv_num))
    as (u & E1); [unfold in_payload; lia|fold a1; lia|].
  destruct (@costs_run _ raw msg _ _ _ (0 + a1)
              (costs_read_face_uvs raw msg face_uv_num))
    as (fu & E2); [unfold in_payload; lia|fold a2; lia|].
  destruct (@costs_run _ raw msg _ _ _ (0 + a1 + a2)
              (costs_read_texture_ids raw msg texture_id_num))
    as (t & E3); [unfold in_payload; lia|fold a3; lia|].
  destruct (@costs_run _ raw msg _ _ _ (0 + a1 + a2 + a3)
              (costs_read_blocks raw msg material_sizes []))
    as (b & E4); [unfold in_payload; lia|fold a4; lia|].
  destruct (@costs_run _ raw msg _ _ _ (0 + a1 + a2 + a3 + a4)
              (costs_read_material_name raw msg mtl_name_len))
    as (nm & E5); [unfold in_payload; lia|fold a5; lia|].
  destruct (@walk_v1_new_succeeds _ raw uv_num face_uv_num texture_id_num
              material_sizes mtl_name_len map_type_count
              u fu t b nm _ _ _ _ _ E1 E2 E3 E4 E5)
    as (texs & p6 & Hm & Hw).
  eexists. exists p6. split; [exact Hw|]. simpl.
  replace (a1 + (a2 + (a3 + (a4 + a5)))) with (0 + a1 + a2 + a3 + a4 + a5)
    by lia.
  exact Hm.
Qed.

Lemma walk_v1_old_textures (raw : bytes)
      (vert_num face_num uv_num face_uv_num texture_id_num : Z)
      (material_sizes : list Z) (mtl_name_len map_type_count : Z) :
  legacy_fixed_bytes vert_num face_num uv_num face_uv_num texture_id_num
    material_sizes mtl_name_len <= len raw ->
  exists mats vs fs p',
    walk_v1_old raw vert_num face_num uv_num face_uv_num texture_id_num
      material_sizes mtl_name_len map_type_count 0 = Ok ((mats, vs, fs), p')
    /\ maps_v1_old raw (Z.to_nat (Z.max 0 map_type_count)) []
         (legacy_fixed_bytes vert_num face_num uv_num face_uv_num
            texture_id_num material_sizes mtl_name_len)
       = Ok (textures mats, p').
Proof.
  unfold legacy_fixed_bytes, new_fixed_bytes. intros Hfit.
  pose proof (blob_bytes_nonneg material_sizes) as Hb.
  set (msg := OldV1BlockTruncated).
  set (g1 := Z.max 0 vert_num * 12) in *.
  set (g2 := Z.max 0 face_num * 12) in *.
  set (a1 := Z.max 0 uv_num * 8) in *.
  set (a2 := Z.max 0 face_uv_num * 12) in *.
  set (a3 := Z.max 0 texture_id_num * 4) in *.
  set (a4 := blob_bytes material_sizes) in *.
  set (a5 := Z.max 0 mtl_name_len) in *.
  assert (G1 : 0 <= g1) by (unfold g1; lia).
  assert (G2 : 0 <= g2) by (unfold g2; lia).
  assert (H1 : 0 <= a1) by (unfold a1; lia).
  assert (H2 : 0 <= a2) by (unfold a2; lia).
  assert (H3 : 0 <= a3) by (unfold a3; lia).
  assert (H5 : 0 <= a5) by (unfold a5; lia).
  pose proof (costs_legacy_bytes raw vert_num) as Cv.
  pose proof (costs_legacy_bytes raw face_num) as Cf.
  destruct Cv as [_ Cv]. specialize (Cv 0 ltac:(unfold in_payload; lia)).
  destruct ((if vert_num >? 0
             then take raw OldV1BlockTruncated (vert_num * 3 * 4)
             else ret []) 0) as [[vb q1]|e] eqn:Evb;
    [|destruct Cv as [_ Hl]; fold g1 in Hl; lia].
  destruct Cv as (Qv & -> & _). fold g1 in Evb.
  assert (Evs : exists vs,
             (if vert_num >? 0
              then frombuffer_reshape vb float32 vert_num 3 else Ok []) = Ok vs).
  { destruct (Z.gtb_spec vert_num 0) as [Hn|Hn]; [|eauto].
    destruct (@frombuffer_reshape_ok vb float32 vert_num 3) as (a & Ha & _);
      [lia|lia|rewrite Qv; lia|eauto]. }
  destruct Evs as (vs & Evs).
  destruct Cf as [_ Cf]. specialize (Cf (0 + g1) ltac:(unfold in_payload; lia)).
  destruct ((if face_num >? 0
             then take raw OldV1BlockTruncated (face_num * 3 * 4)
             else ret []) (0 + g1)) as [[fb q2]|e] eqn:Efb;
    [|destruct Cf as [_ Hl]; fold g2 in Hl; lia].
  destruct Cf as (Qf & -> & _). fold g2 in Efb.
  assert (Efs : exists fs,
             (if face_num >? 0
              then frombuffer_reshape fb int32 face_num 3 else Ok []) = Ok fs).
  { destruct (Z.gtb_spec face_num 0) as [Hn|Hn]; [|eauto].
    destruct (@frombuffer_reshape_ok fb int32 face_num 3) as (a & Ha & _);
      [lia|lia|rewrite Qf; lia|eauto]. }
  destruct Efs as (fs & Efs).
  destruct (@costs_run _ raw msg _ _ _ (0 + g1 + g2)
              (costs_read_uvs raw msg uv_num))
    as (u & E1); [unfold in_payload; lia|fold a1; lia|].
  destruct (@costs_run _ raw msg _ _ _ (0 + g1 + g2 + a1)
              (costs_read_face_uvs raw msg face_uv_num))
    as (fu & E2); [unfold in_payload; lia|fold a2; lia|].
  destruct (@costs_run _ raw msg _ _ _ (0 + g1 + g2 + a1 + a2)
              (costs_read_texture_ids raw msg texture_id_num))
    as (t & E3); [unfold in_payload; lia|fold a3; lia|].
  destruct (@costs_run _ raw msg _ _ _ (0 + g1 + g2 + a1 + a2 + a3)
              (costs_read_blocks raw msg material_sizes []))
    as (b & E4); [unfold in_payload; lia|fold a4; lia|].
  destruct (@costs_run _ raw msg _ _ _ (0 + g1 + g2 + a1 + a2 + a3 + a4)
              (costs_read_material_name raw msg mtl_name_len))
    as (nm & E5); [unfold in_payload; lia|fold a5; lia|].
  destruct (@walk_v1_old_succeeds _ raw vert_num face_num uv_num face_uv_num
              texture_id_num material_sizes mtl_name_len map_type_count
              vb vs fb fs u fu t b nm _ _ _ _ _ _ _
              Evb Evs Efb Efs E1 E2 E3 E4 E5)
    as (texs & p8 & Hm & Hw).
  eexists. exists vs, fs, p8. split; [exact Hw|]. simpl.
  replace (g1 + (g2 + (a1 + (a2 + (a3 + (a4 + a5))))))
    with (0 + g1 + g2 + a1 + a2 + a3 + a4 + a5) by lia.
  exact Hm.
Qed.

End ReturnedTextures.

Section StoredTextures.

Context {libs : Libs}.

(** The new parser on a laid-out block whose fields before the maps fit
    in the payload: it returns, and the textures of its record are what
    the map loop reads after these fields. *)
Lemma parse_new_block_textures (block rest raw : bytes)
      (uv_num face_uv_num texture_id_num : Z) (material_sizes : list Z)
      (mtl_name_len map_type_count : Z) :
  laid_out_new_block block rest raw uv_num face_uv_num texture_id_num
    material_sizes mtl_name_len map_type_count ->
  new_fixed_bytes uv_num face_uv_num texture_id_num material_sizes mtl_name_len
  <= len raw ->
  exists mats p',
    _parse_material_block_v1_new block = Ok (mats, rest)
    /\ maps_v1_new raw (Z.to_nat (Z.max 0 map_type_count)) []
         (new_fixed_bytes uv_num face_uv_num texture_id_num material_sizes
            mtl_name_len)
       = Ok (textures mats, p').
Proof.
  intros (T4 & U4 & FU4 & TI4 & M4 & S4 & N4 & K4 & C4 & cdata & -> & HT & HU
          & HFU & HTI & HM & HS & HN & HK & HC & Hcd & Hz & Hraw
          & -> & -> & -> & -> & -> & ->) Hfit.
  destruct (@walk_v1_new_textures libs raw (unpack_i U4) (unpack_i FU4)
              (unpack_i TI4) (ints_of S4) (unpack_i N4) (unpack_i K4) Hfit)
    as (mats & p' & Hw & Hm).
  exists mats, p'. split; [|exact Hm].
  rewrite parse_material_block_v1_new_layout by assumption.
  unfold _zlib_decompress. rewrite Hz, Hraw, Z.eqb_refl. cbn [negb].
  unfold from_start. rewrite Hw. reflexivity.
Qed.

Lemma parse_legacy_block_textures (block rest raw : bytes)
      (vert_num face_num uv_num face_uv_num texture_id_num : Z)
      (material_sizes : list Z) (mtl_name_len map_type_count : Z) :
  laid_out_legacy_block block rest raw vert_num face_num uv_num face_uv_num
    texture_id_num material_sizes mtl_name_len map_type_count ->
  legacy_fixed_bytes vert_num face_num uv_num face_uv_num texture_id_num
    material_sizes mtl_name_len <= len raw ->
  exists mats vs fs p',
    _parse_material_block_v1_old block = Ok ((mats, vs, fs), rest)
    /\ maps_v1_old raw (Z.to_nat (Z.max 0 map_type_count)) []
         (legacy_fixed_bytes vert_num face_num uv_num face_uv_num
            texture_id_num material_sizes mtl_name_len)
       = Ok (textures mats, p')
    /\ (forall h4 pad,
          length h4 = 4%nat -> length pad = 12%nat -> unpack_i h4 = 1 ->
          load_cxbin (h4 ++ pad ++ block) = Ok (legacy_mesh mats vs fs)).
Proof.
  intros (T4 & V4 & F4 & U4 & FU4 & TI4 & M4 & S4 & N4 & K4 & C4 & cdata & ->
          & HT & HV & HF & HU & HFU & HTI & HM & HS & HN & HK & HC & Hcd & Hz
          & Hraw & -> & -> & -> & -> & -> & -> & -> & ->) Hfit.
  destruct (@walk_v1_old_textures libs raw (unpack_i V4) (unpack_i F4)
              (unpack_i U4) (unpack_i FU4) (unpack_i TI4) (ints_of S4)
              (unpack_i N4) (unpack_i K4) Hfit)
    as (mats & vs & fs & p' & Hw & Hm).
  exists mats, vs, fs, p'.
  assert (Hparse :
            _parse_material_block_v1_old
              (T4 ++ V4 ++ F4 ++ U4 ++ FU4 ++ TI4 ++ M4 ++ S4 ++ N4 ++ K4
               ++ C4 ++ cdata ++ rest) = Ok ((mats, vs, fs), rest)).
  { rewrite parse_material_block_v1_old_layout by assumption.
    unfold _zlib_decompress. rewrite Hz, Hraw, Z.eqb_refl. cbn [negb].
    unfold from_start. rewrite Hw. reflexivity. }
  split; [exact Hparse|]. split; [exact Hm|].
  intros h4 pad H4 H12 Hone.
  pose proof (@read_head_app h4 pad
                (T4 ++ V4 ++ F4 ++ U4 ++ FU4 ++ TI4 ++ M4 ++ S4 ++ N4 ++ K4
                 ++ C4 ++ cdata ++ rest) H4 H12) as Hh.
  rewrite Hone in Hh.
  rewrite (load_cxbin_legacy _ Hh), Hparse. reflexivity.
Qed.

(** One iteration of the new map loop on a readable prefix: the texture it
    stores stays in the list the loop returns, right after the textures
    read before it. *)
Lemma maps_v1_new_stored (raw : bytes) (n : nat) (texs : list Texture)
      (ptr : Z) :
  in_payload raw ptr -> ptr + 4 <= len raw ->
  let declared := unpack_i (firstn 4 (skipn (Z.to_nat ptr) raw)) in
  let size := clamped declared (len raw - (ptr + 4)) in
  let buf := slice raw (ptr + 4) (ptr + 4 + size) in
  exists more ptr',
    maps_v1_new raw (S n) texs ptr = Ok (texs ++ new_texture buf :: more, ptr')
    /\ (length more <= n)%nat
    /\ (len raw - (ptr + 4) < declared -> more = [] /\ ptr' = len raw).
Proof.
  intros [Hp0 Hp1] Hfit declared size buf.
  destruct (@maps_v1_new_step raw n texs ptr Hp0 Hfit) as [Hl Hstep].
  fold declared size buf in Hl, Hstep.
  assert (Hsize : 0 <= size <= len raw - (ptr + 4)).
  { unfold size, clamped. destruct (Z.ltb_spec declared 0); lia. }
  destruct (@maps_v1_new_total raw n (texs ++ [new_texture buf])
              (ptr + 4 + size)) as (more & p' & Hm & Hn & _);
    [unfold in_payload; lia|].
  exists more, p'. rewrite Hstep, Hm, <- app_assoc.
  split; [reflexivity|]. split; [exact Hn|].
  intros Hover.
  assert (E : ptr + 4 + size = len raw).
  { unfold size, clamped. destruct (Z.ltb_spec declared 0); lia. }
  rewrite E, maps_v1_new_stop in Hm by lia.
  injection Hm as Hm1 Hm2.
  split; [|symmetry; exact Hm2].
  rewrite <- (app_nil_r (texs ++ [new_texture buf])) in Hm1 at 1.
  apply app_inv_head in Hm1. symmetry. exact Hm1.
Qed.

(** The same for the legacy loop and a map of positive dimensions. *)
Lemma maps_v1_old_stored (raw : bytes) (n : nat) (texs : list Texture)
      (ptr width height : Z) :
  in_payload raw ptr -> ptr + 8 <= len raw ->
  unpack_from_i raw ptr = Ok width ->
  unpack_from_i raw (ptr + 4) = Ok height ->
  0 < width -> 0 < height ->
  let size := Z.min (width * height * 4) (len raw - (ptr + 8)) in
  let rgba := slice raw (ptr + 8) (ptr + 8 + size) in
  exists more ptr',
    maps_v1_old raw (S n) texs ptr
    = Ok (texs ++ legacy_texture width height rgba :: more, ptr')
    /\ (length more <= n)%nat.
Proof.
  intros Hp Hfit Hw Hh Hwp Hhp size rgba.
  destruct (@maps_v1_old_step libs raw n texs ptr width height
              (proj1 Hp) Hfit Hw Hh Hwp Hhp) as [Hl Hstep].
  fold size rgba in Hl, Hstep.
  assert (Hsize : 0 <= size <= len raw - (ptr + 8)) by (unfold size; nia).
  destruct (@maps_v1_old_total libs raw n
              (texs ++ [legacy_texture width height rgba]) (ptr + 8 + size))
    as (more & p' & Hm & Hn & _);
    [destruct Hp; unfold in_payload; lia|].
  exists more, p'. split; [|exact Hn].
  rewrite Hstep. unfold legacy_texture, _try_png_bytes_from_rgba in *.
  destruct (png_encode width height rgba); rewrite Hm, <- app_assoc;
    reflexivity.
Qed.

(** C5.  In the map loop of the new material parser, from a cursor inside
    the decompressed payload: when the 4-byte size prefix is readable, the
    iteration stores one texture whose data are the bytes that follow the
    prefix -- all the remaining ones when the declared size exceeds what
    is left, none when the declared size is negative -- and goes on; when
    the prefix cannot be read the loop stops with the textures read so
    far; the loop never raises, so once the fields before the maps have
    been read the walk of the block returns a value.  A map that overruns
    the payload is the last one.  For [_parse_material_block_v1_new] on a
    laid-out block whose payload is [raw] and whose fields before the maps
    fit in it: the parser returns, never raising, and the textures of its
    record are what the loop reads after these fields; so when the loop
    of the block reaches the iteration above, the texture stored there is
    in the returned record, right after the textures read before it (and
    it is the last one when the declared size overruns the payload), and
    when the loop reaches a cursor whose prefix cannot be read, the
    returned record has exactly the textures read so far. *)
Theorem C5_texture_maps_new (raw : bytes) (n : nat) (texs : list Texture) (ptr : Z) :
  in_payload raw ptr ->
  (ptr + 4 <= len raw ->
   exists declared buf,
     unpack_from_i raw ptr = Ok declared
     /\ buf = slice raw (ptr + 4) (ptr + 4 + len buf)
     /\ maps_v1_new raw (S n) texs ptr
        = maps_v1_new raw n
            (texs ++ [{| data := buf;
                         is_png := startswith buf png_signature;
                         size_hint := None |}])
            (ptr + 4 + len buf)
     /\ (len raw - (ptr + 4) < declared -> len buf = len raw - (ptr + 4))
     /\ (declared < 0 -> buf = [])
     /\ (0 <= declared <= len raw - (ptr + 4) -> len buf = declared)
     /\ (len raw - (ptr + 4) < declared ->
         maps_v1_new raw (S n) texs ptr
         = Ok (texs ++ [{| data := buf;
                           is_png := startswith buf png_signature;
                           size_hint := None |}], len raw))
     /\ (forall block rest uv_num face_uv_num texture_id_num material_sizes
                mtl_name_len map_type_count,
           laid_out_new_block block rest raw uv_num face_uv_num
             texture_id_num material_sizes mtl_name_len map_type_count ->
           new_fixed_bytes uv_num face_uv_num texture_id_num material_sizes
             mtl_name_len <= len raw ->
           maps_v1_new raw (Z.to_nat (Z.max 0 map_type_count)) []
             (new_fixed_bytes uv_num face_uv_num texture_id_num
                material_sizes mtl_name_len)
           = maps_v1_new raw (S n) texs ptr ->
           exists mats more,
             _parse_material_block_v1_new block = Ok (mats, rest)
             /\ textures mats
                = texs ++ {| data := buf;
                             is_png := startswith buf png_signature;
                             size_hint := None |} :: more
             /\ (length more <= n)%nat
             /\ (len raw - (ptr + 4) < declared -> more = [])))
  /\ (ptr + 4 > len raw -> maps_v1_new raw n texs ptr = Ok (texs, ptr))
  /\ (exists more ptr',
        maps_v1_new raw n texs ptr = Ok (texs ++ more, ptr')
        /\ (length more <= n)%nat)
  /\ (forall uv_num face_uv_num texture_id_num material_sizes mtl_name_len
             u fu t b nm p1 p2 p3 p4,
        read_uvs raw MaterialBlockTruncated uv_num 0 = Ok (u, p1) ->
        read_face_uvs raw MaterialBlockTruncated face_uv_num p1 = Ok (fu, p2) ->
        read_texture_ids raw MaterialBlockTruncated texture_id_num p2 = Ok (t, p3) ->
        read_blocks raw MaterialBlockTruncated material_sizes [] p3 = Ok (b, p4) ->
        read_material_name raw MaterialBlockTruncated mtl_name_len p4 = Ok (nm, ptr) ->
        exists mats p',
          walk_v1_new raw uv_num face_uv_num texture_id_num material_sizes
            mtl_name_len (Z.of_nat n) 0 = Ok (mats, p')
          /\ maps_v1_new raw n [] ptr = Ok (textures mats, p'))
  /\ (forall block rest uv_num face_uv_num texture_id_num material_sizes
             mtl_name_len map_type_count,
        laid_out_new_block block rest raw uv_num face_uv_num
          texture_id_num material_sizes mtl_name_len map_type_count ->
        new_fixed_bytes uv_num face_uv_num texture_id_num material_sizes
          mtl_name_len <= len raw ->
        exists mats p',
          _parse_material_block_v1_new block = Ok (mats, rest)
          /\ maps_v1_new raw (Z.to_nat (Z.max 0 map_type_count)) []
               (new_fixed_bytes uv_num face_uv_num texture_id_num
                  material_sizes mtl_name_len)
             = Ok (textures mats, p')
          /\ (length (textures mats) <= Z.to_nat (Z.max 0 map_type_count))%nat
          /\ (ptr + 4 > len raw ->
              maps_v1_new raw (Z.to_nat (Z.max 0 map_type_count)) []
                (new_fixed_bytes uv_num face_uv_num texture_id_num
                   material_sizes mtl_name_len)
              = maps_v1_new raw n texs ptr ->
              textures mats = texs)).
Proof.
  intros Hp. split; [|split; [|split; [|split]]].
  - intros Hfit.
    pose proof (@maps_v1_new_stored raw n texs ptr Hp Hfit) as Hstored.
    destruct Hp as [Hp0 Hp1].
    destruct (@maps_v1_new_step raw n texs ptr Hp0 Hfit) as [Hl Hstep].
    cbv zeta in Hstored.
    set (declared := unpack_i _) in *. set (size := clamped _ _) in *.
    set (buf := slice raw _ _) in *.
    destruct Hstored as (more & q & Hall & Hmore & Hlast).
    exists declared, buf. rewrite Hl.
    split; [apply unpack_from_i_ok; assumption|].
    split; [reflexivity|]. split; [exact Hstep|].
    split; [|split; [|split; [|split]]].
    + unfold size, clamped. intros; destruct (Z.ltb_spec declared 0); lia.
    + intros Hneg.
      assert (E : size = 0) by (unfold size, clamped;
        destruct (Z.ltb_spec declared 0); lia).
      unfold buf. rewrite E, Z.add_0_r. apply slice_empty. lia.
    + unfold size, clamped. intros; destruct (Z.ltb_spec declared 0); lia.
    + intros Hover. destruct (Hlast Hover) as [-> ->]. exact Hall.
    + intros block rest U FU TI sizes N K Hlay Hneed Hreach.
      destruct (@parse_new_block_textures block rest raw U FU TI sizes N K
                  Hlay Hneed) as (mats & p' & Hparse & Hmaps).
      exists mats, more. split; [exact Hparse|].
      rewrite Hreach, Hall in Hmaps. injection Hmaps as Ht _.
      split; [symmetry; exact Ht|]. split; [exact Hmore|].
      intros Hover. apply (Hlast Hover).
  - apply maps_v1_new_stop.
  - destruct (@maps_v1_new_total raw n texs ptr Hp) as (more & p' & H & Hn & _).
    eauto.
  - intros U FU TI sizes N u fu t b nm p1 p2 p3 p4 H1 H2 H3 H4 H5.
    destruct (@walk_v1_new_succeeds libs raw U FU TI sizes N (Z.of_nat n)
                u fu t b nm p1 p2 p3 p4 ptr H1 H2 H3 H4 H5)
      as (texs' & p6 & Hm & Hw).
    replace (Z.to_nat (Z.max 0 (Z.of_nat n))) with n in Hm by lia.
    eexists. exists p6. split; [exact Hw|exact Hm].
  - intros block rest U FU TI sizes N K Hlay Hneed.
    destruct (@parse_new_block_textures block rest raw U FU TI sizes N K
                Hlay Hneed) as (mats & p' & Hparse & Hmaps).
    exists mats, p'. split; [exact Hparse|]. split; [exact Hmaps|].
    split.
    + pose proof (blob_bytes_nonneg sizes) as Hb.
      destruct (@maps_v1_new_total raw (Z.to_nat (Z.max 0 K)) []
                  (new_fixed_bytes U FU TI sizes N))
        as (more & q & Hm & Hn & _);
        [unfold in_payload, new_fixed_bytes in *; lia|].
      rewrite Hm in Hmaps. injection Hmaps as Ht _. rewrite <- Ht. exact Hn.
    + intros Hout Hreach.
      rewrite Hreach, maps_v1_new_stop in Hmaps by assumption.
      injection Hmaps as Ht _. symmetry. exact Ht.
Qed.

(** C6.  In the map loop of the legacy parser, for a map whose width and
    height are positive, the iteration reads the pixel bytes that follow
    the two dimensions ([width * height * 4] of them, or all that is left)
    and hands them to the PNG encoder: if the encoder returns PNG bytes,
    the texture stored has them as data, [is_png = true] and
    [size_hint = (width, height)]; if the encoder fails, the texture
    stored has the bytes read, unchanged, [is_png = false] and the same
    size hint.  In both cases the loop goes on and never raises, so once
    the fields before the maps have been read the walk of the block
    returns a value.  The texture stored stays in the list the loop
    returns, right after the textures read before it.  For
    [_parse_material_block_v1_old] on a laid-out block whose payload is
    [raw] and whose fields before the maps fit in it: the parser returns,
    never raising, the textures of its record are what the loop reads
    after these fields, and [load_cxbin] on a legacy file with this body
    returns the document made of this record; so when the loop of the
    block reaches the iteration above, the texture stored there is in the
    record of the document, whether the encoder returned or failed. *)
Theorem C6_legacy_png_fallback (raw : bytes) (n : nat) (texs : list Texture)
        (ptr width height : Z) :
  in_payload raw ptr -> ptr + 8 <= len raw ->
  unpack_from_i raw ptr = Ok width ->
  unpack_from_i raw (ptr + 4) = Ok height ->
  0 < width -> 0 < height ->
  exists rgba,
    rgba = slice raw (ptr + 8) (ptr + 8 + len rgba)
    /\ len rgba = Z.min (width * height * 4) (len raw - (ptr + 8))
    /\ (forall png,
          _try_png_bytes_from_rgba width height rgba = Some png ->
          maps_v1_old raw (S n) texs ptr
          = maps_v1_old raw n
              (texs ++ [{| data := png; is_png := true;
                           size_hint := Some (width, height) |}])
              (ptr + 8 + len rgba))
    /\ (_try_png_bytes_from_rgba width height rgba = None ->
        maps_v1_old raw (S n) texs ptr
        = maps_v1_old raw n
            (texs ++ [{| data := rgba; is_png := false;
                         size_hint := Some (width, height) |}])
            (ptr + 8 + len rgba))
    /\ (exists more ptr',
          maps_v1_old raw (S n) texs ptr = Ok (texs ++ more, ptr'))
    /\ (forall vert_num face_num uv_num face_uv_num texture_id_num
               material_sizes mtl_name_len map_type_count
               vb vs fb fs u fu t b nm p1 p2 p3 p4 p5 p6 p7,
          (if vert_num >? 0
           then take raw OldV1BlockTruncated (vert_num * 3 * 4) else ret []) 0
          = Ok (vb, p1) ->
          (if vert_num >? 0
           then frombuffer_reshape vb float32 vert_num 3 else Ok []) = Ok vs ->
          (if face_num >? 0
           then take raw OldV1BlockTruncated (face_num * 3 * 4) else ret []) p1
          = Ok (fb, p2) ->
          (if face_num >? 0
           then frombuffer_reshape fb int32 face_num 3 else Ok []) = Ok fs ->
          read_uvs raw OldV1BlockTruncated uv_num p2 = Ok (u, p3) ->
          read_face_uvs raw OldV1BlockTruncated face_uv_num p3 = Ok (fu, p4) ->
          read_texture_ids raw OldV1BlockTruncated texture_id_num p4 = Ok (t, p5) ->
          read_blocks raw OldV1BlockTruncated material_sizes [] p5 = Ok (b, p6) ->
          read_material_name raw OldV1BlockTruncated mtl_name_len p6 = Ok (nm, p7) ->
          exists r p8,
            walk_v1_old raw vert_num face_num uv_num face_uv_num texture_id_num
              material_sizes mtl_name_len map_type_count 0 = Ok (r, p8))
    /\ (exists more ptr',
          maps_v1_old raw (S n) texs ptr
          = Ok (texs ++ legacy_texture width height rgba :: more, ptr')
          /\ (length more <= n)%nat)
    /\ (forall png,
          _try_png_bytes_from_rgba width height rgba = Some png ->
          legacy_texture width height rgba
          = {| data := png; is_png := true;
               size_hint := Some (width, height) |})
    /\ (_try_png_bytes_from_rgba width height rgba = None ->
        legacy_texture width height rgba
        = {| data := rgba; is_png := false;
             size_hint := Some (width, height) |})
    /\ (forall block rest vert_num face_num uv_num face_uv_num texture_id_num
               material_sizes mtl_name_len map_type_count,
          laid_out_legacy_block block rest raw vert_num face_num uv_num
            face_uv_num texture_id_num material_sizes mtl_name_len
            map_type_count ->
          legacy_fixed_bytes vert_num face_num uv_num face_uv_num
            texture_id_num material_sizes mtl_name_len <= len raw ->
          exists mats vs fs p',
            _parse_material_block_v1_old block = Ok ((mats, vs, fs), rest)
            /\ maps_v1_old raw (Z.to_nat (Z.max 0 map_type_count)) []
                 (legacy_fixed_bytes vert_num face_num uv_num face_uv_num
                    texture_id_num material_sizes mtl_name_len)
               = Ok (textures mats, p')
            /\ (forall h4 pad,
                  length h4 = 4%nat -> length pad = 12%nat ->
                  unpack_i h4 = 1 ->
                  load_cxbin (h4 ++ pad ++ block)
                  = Ok (legacy_mesh mats vs fs))
            /\ (maps_v1_old raw (Z.to_nat (Z.max 0 map_type_count)) []
                  (legacy_fixed_bytes vert_num face_num uv_num face_uv_num
                     texture_id_num material_sizes mtl_name_len)
                = maps_v1_old raw (S n) texs ptr ->
                exists more,
                  textures mats
                  = texs ++ legacy_texture width height rgba :: more
                  /\ (length more <= n)%nat)).
Proof.
  intros Hp Hfit Hw Hh Hwp Hhp.
  pose proof (@maps_v1_old_stored raw n texs ptr width height
                Hp Hfit Hw Hh Hwp Hhp) as Hstored.
  destruct (@maps_v1_old_step libs raw n texs ptr width height
              (proj1 Hp) Hfit Hw Hh Hwp Hhp) as [Hl Hstep].
  cbv zeta in Hstored.
  set (size := Z.min _ _) in *. set (rgba := slice raw _ _) in *.
  destruct Hstored as (more & q & Hall & Hmore).
  exists rgba. rewrite Hl.
  split; [reflexivity|]. split; [reflexivity|].
  split; [|split; [|split; [|split; [|split; [|split; [|split]]]]]].
  - intros png Hpng. unfold _try_png_bytes_from_rgba in Hpng.
    rewrite Hstep, Hpng. reflexivity.
  - intros Hpng. unfold _try_png_bytes_from_rgba in Hpng.
    rewrite Hstep, Hpng. reflexivity.
  - destruct (@maps_v1_old_total libs raw (S n) texs ptr Hp)
      as (more' & p' & H & _).
    eauto.
  - intros V F U FU TI sizes N K vb vs fb fs u fu t b nm p1 p2 p3 p4 p5 p6 p7
           Hvb Hvs Hfb Hfs H3 H4 H5 H6 H7.
    destruct (@walk_v1_old_succeeds libs raw V F U FU TI sizes N K
                vb vs fb fs u fu t b nm p1 p2 p3 p4 p5 p6 p7
                Hvb Hvs Hfb Hfs H3 H4 H5 H6 H7) as (tx & p8 & _ & Hwalk).
    eauto.
  - exists more, q. split; [exact Hall|exact Hmore].
  - intros png Hpng. unfold legacy_texture. rewrite Hpng. reflexivity.
  - intros Hpng. unfold legacy_texture. rewrite Hpng. reflexivity.
  - intros block rest V F U FU TI sizes N K Hlay Hneed.
    destruct (@parse_legacy_block_textures block rest raw V F U FU TI sizes
                N K Hlay Hneed) as (mats & vs & fs & p' & Hparse & Hmaps & Hdoc).
    exists mats, vs, fs, p'.
    split; [exact Hparse|]. split; [exact Hmaps|]. split; [exact Hdoc|].
    intros Hreach. exists more.
    rewrite Hreach, Hall in Hmaps. injection Hmaps as Ht _.
    split; [symmetry; exact Ht|exact Hmore].
Qed.

End StoredTextures.

(** The third map of [texture_payload], at offset 10, declares 100 bytes
    where 3 are left; the block of [texture_file] has this payload, and
    the record parsed from it ends with the texture of these 3 bytes. *)
Lemma C5_texture_maps_new_witness :
  (exists declared buf,
     unpack_from_i texture_payload 10 = Ok declared
     /\ declared = 100
     /\ len texture_payload - (10 + 4) = 3
     /\ len buf = 3
     /\ maps_v1_new texture_payload 1 [] 10
        = maps_v1_new texture_payload 0
            ([] ++ [{| data := buf;
                       is_png := startswith buf png_signature;
                       size_hint := None |}])
            (10 + 4 + len buf))
  /\ (exists mats,
        _parse_material_block_v1_new (libs := example_libs)
          (new_material_block 17 0 0 0 0 [] 0 3 texture_payload)
        = Ok (mats, [])
        /\ map data (textures mats) = [[x61; x62]; []; [x63; x64; x65]]).
Proof.
  assert (Hp : in_payload texture_payload 10)
    by (unfold in_payload; change (len texture_payload) with 17; lia).
  assert (Hfit : 10 + 4 <= len texture_payload)
    by (change (len texture_payload) with 17; lia).
  split.
  - destruct (@C5_texture_maps_new example_libs texture_payload 0 [] 10 Hp)
      as (H1 & _).
    destruct (H1 Hfit) as (declared & buf & Hd & Hb & Hs & Hover & _).
    exists declared, buf.
    assert (Hdecl : declared = 100)
      by (vm_compute in Hd; injection Hd as Hd; symmetry; exact Hd).
    split; [exact Hd|]. split; [exact Hdecl|]. split; [reflexivity|].
    split; [|exact Hs].
    rewrite Hover; [reflexivity|]. rewrite Hdecl.
    change (len texture_payload) with 17. lia.
  - destruct (@C5_texture_maps_new example_libs texture_payload 0
                [new_texture [x61; x62]; new_texture []] 10 Hp)
      as (H1 & _).
    destruct (H1 Hfit)
      as (declared & buf & Hd & Hb & _ & Hover & _ & _ & _ & Hblock).
    assert (Hdecl : declared = 100)
      by (vm_compute in Hd; injection Hd as Hd; symmetry; exact Hd).
    assert (Hgt : len texture_payload - (10 + 4) < declared)
      by (rewrite Hdecl; change (len texture_payload) with 17; lia).
    assert (Hbuf : buf = [x63; x64; x65]).
    { rewrite (Hover Hgt) in Hb. rewrite Hb. vm_compute. reflexivity. }
    assert (Hlay : laid_out_new_block (libs := example_libs)
                     (new_material_block 17 0 0 0 0 [] 0 3 texture_payload)
                     [] texture_payload 0 0 0 [] 0 3).
    { exists (pack_i 17), (pack_i 0), (pack_i 0), (pack_i 0), (pack_i 0), [],
        (pack_i 0), (pack_i 3),
        (pack_i (len (Stored.compress texture_payload))),
        (Stored.compress texture_payload).
      vm_compute. repeat split; reflexivity. }
    destruct (Hblock _ _ _ _ _ _ _ _ Hlay ltac:(vm_compute; discriminate)
                eq_refl)
      as (mats & more & Hparse & Ht & _ & Hlast).
    exists mats. split; [exact Hparse|].
    rewrite Ht, (Hlast Hgt), Hbuf. reflexivity.
Defined.

(** The two maps of [legacy_texture_payload]: the first is encoded, the
    second is too short for its dimensions and is kept raw; both are in
    the document read from [legacy_texture_file]. *)
Lemma C6_legacy_png_fallback_witness :
  (exists rgba png,
     len rgba = 32
     /\ _try_png_bytes_from_rgba (libs := example_libs) 4 2 rgba = Some png
     /\ maps_v1_old (libs := example_libs) legacy_texture_payload 1 [] 0
        = maps_v1_old (libs := example_libs) legacy_texture_payload 0
            ([] ++ [{| data := png; is_png := true; size_hint := Some (4, 2) |}])
            (0 + 8 + len rgba))
  /\ (exists rgba,
        rgba = [x01; x02; x03]
        /\ _try_png_bytes_from_rgba (libs := example_libs) 2 2 rgba = None
        /\ maps_v1_old (libs := example_libs) legacy_texture_payload 1 [] 40
           = maps_v1_old (libs := example_libs) legacy_texture_payload 0
               ([] ++ [{| data := rgba; is_png := false;
                          size_hint := Some (2, 2) |}])
               (40 + 8 + len rgba))
  /\ (exists doc mats,
        load_cxbin (libs := example_libs) legacy_texture_file = Ok doc
        /\ materials doc = Some mats
        /\ textures mats
           = [{| data := png_signature ++ repeat xff 32; is_png := true;
                 size_hint := Some (4, 2) |};
              {| data := [x01; x02; x03]; is_png := false;
                 size_hint := Some (2, 2) |}]).
Proof.
  assert (L : len legacy_texture_payload = 51) by reflexivity.
  split; [|split].
  - assert (Hp : in_payload legacy_texture_payload 0)
      by (unfold in_payload; rewrite L; lia).
    destruct (@C6_legacy_png_fallback example_libs legacy_texture_payload 0 [] 0
                4 2 Hp ltac:(rewrite L; lia) eq_refl eq_refl
                ltac:(lia) ltac:(lia))
      as (rgba & Hr & Hl & Hpng & _).
    rewrite Hl in Hr.
    exists rgba, (png_signature ++ rgba).
    assert (He : _try_png_bytes_from_rgba (libs := example_libs) 4 2 rgba
                 = Some (png_signature ++ rgba))
      by (rewrite Hr; vm_compute; reflexivity).
    split; [rewrite Hl, L; reflexivity|]. split; [exact He|].
    exact (Hpng _ He).
  - assert (Hp : in_payload legacy_texture_payload 40)
      by (unfold in_payload; rewrite L; lia).
    destruct (@C6_legacy_png_fallback example_libs legacy_texture_payload 0 [] 40
                2 2 Hp ltac:(rewrite L; lia) eq_refl eq_refl
                ltac:(lia) ltac:(lia))
      as (rgba & Hr & Hl & _ & Hnone & _).
    rewrite Hl in Hr.
    exists rgba.
    assert (Hv : rgba = [x01; x02; x03]) by (rewrite Hr; vm_compute; reflexivity).
    assert (He : _try_png_bytes_from_rgba (libs := example_libs) 2 2 rgba = None)
      by (rewrite Hv; vm_compute; reflexivity).
    split; [exact Hv|]. split; [exact He|]. exact (Hnone He).
  - assert (Hp : in_payload legacy_texture_payload 40)
      by (unfold in_payload; rewrite L; lia).
    destruct (@C6_legacy_png_fallback example_libs legacy_texture_payload 0
                [{| data := png_signature ++ repeat xff 32; is_png := true;
                    size_hint := Some (4, 2) |}] 40
                2 2 Hp ltac:(rewrite L; lia) eq_refl eq_refl
                ltac:(lia) ltac:(lia))
      as (rgba & Hr & Hl & _ & _ & _ & _ & _ & _ & Hraw & Hblock).
    rewrite Hl in Hr.
    assert (Hv : rgba = [x01; x02; x03]) by (rewrite Hr; vm_compute; reflexivity).
    assert (He : _try_png_bytes_from_rgba (libs := example_libs) 2 2 rgba = None)
      by (rewrite Hv; vm_compute; reflexivity).
    assert (Hlay : laid_out_legacy_block (libs := example_libs)
                     (legacy_block 51 0 0 0 0 0 0 [] 0 2 legacy_texture_payload)
                     [] legacy_texture_payload 0 0 0 0 0 [] 0 2).
    { exists (pack_i 51), (pack_i 0), (pack_i 0), (pack_i 0), (pack_i 0),
        (pack_i 0), (pack_i 0), [], (pack_i 0), (pack_i 2),
        (pack_i (len (Stored.compress legacy_texture_payload))),
        (Stored.compress legacy_texture_payload).
      vm_compute. repeat split; reflexivity. }
    destruct (Hblock _ _ _ _ _ _ _ _ _ _ Hlay ltac:(vm_compute; discriminate))
      as (mats & vs & fs & p' & _ & _ & Hdoc & Hin).
    destruct (Hin eq_refl) as (more & Ht & Hmore).
    exists (legacy_mesh mats vs fs), mats.
    split; [exact (Hdoc (pack_i 1) pad12 eq_refl eq_refl eq_refl)|].
    split; [reflexivity|].
    destruct more; [|simpl in Hmore; lia].
    rewrite Ht, (Hraw He), Hv. reflexivity.
Defined.
